(** * NaNofuzz fuzzer engine: the loop, the oracles and the result classifier

    A shallow embedding of [src/fuzzer/Fuzzer.ts]: JavaScript values, the
    implicit oracle, the timeout wrapper, the per-test pipeline (call,
    oracles, validators, categorisation), the stop conditions and the main
    test loop, followed by the properties proved about them.

    Conventions of the embedding:
    - JavaScript numbers that are values under test are IEEE-754 data
      ([spec_float]); counters and numeric options of the fuzzer, which the
      code only increments and compares, are integers ([Z]).
    - An optional field ([passedHuman?], [expectedOutput?], ...) is an
      [option]; [None] is "absent or undefined".
    - Code that can throw returns [Exc]; the [while (true)] loop takes fuel
      and is proved to finish within an explicit bound.
    - A [throw] may throw any value ([JsThrown]): an object, seen through
      the [code] and [message] properties that the [catch] blocks read, or
      a value that is not an object, on which those reads can throw.
    - Per-test wall-clock bookkeeping ([result.elapsedTime], [stack]) and
      the final write of [outputFile] are not part of the model. *)

From Stdlib Require Import ZArith Ascii String List Bool Lia.
From Stdlib Require Import SpecFloat DecimalString.
From stdpp Require Import gmap strings list fin_maps.

Local Open Scope Z_scope.
Local Open Scope string_scope.
Local Open Scope list_scope.

(* ===================================================================== *)
(** ** JavaScript values *)
(* ===================================================================== *)

(** The values a function under test can take and return.  Arrays are
    dense; an object is the list of its own enumerable properties in
    enumeration order. *)
#[local] Set Warnings "-register-all,-clear-no-such-hyp".
Inductive JsValue : Type :=
| JsUndefined
| JsNull
| JsBool (b : bool)
| JsNumber (x : spec_float)
| JsString (s : string)
| JsFunction
| JsArray (elems : list JsValue)
| JsObject (props : list (string * JsValue)).

(** Induction principle that reaches below arrays and objects. *)
Section JsValueInduction.
Variable P : JsValue -> Prop.
Hypothesis Hundef : P JsUndefined.
Hypothesis Hnull : P JsNull.
Hypothesis Hbool : forall b, P (JsBool b).
Hypothesis Hnum : forall x, P (JsNumber x).
Hypothesis Hstr : forall s, P (JsString s).
Hypothesis Hfun : P JsFunction.
Hypothesis Harr : forall elems, Forall P elems -> P (JsArray elems).
Hypothesis Hobj :
  forall props, Forall (fun kv => P (snd kv)) props -> P (JsObject props).

Fixpoint JsValue_nested_ind (x : JsValue) : P x :=
  match x with
  | JsUndefined => Hundef
  | JsNull => Hnull
  | JsBool b => Hbool b
  | JsNumber n => Hnum n
  | JsString s => Hstr s
  | JsFunction => Hfun
  | JsArray elems =>
      Harr elems
        ((fix all (l : list JsValue) : Forall P l :=
            match l with
            | [] => @Stdlib.Lists.List.Forall_nil _ P
            | e :: r =>
                @Stdlib.Lists.List.Forall_cons _ P e r
                  (JsValue_nested_ind e) (all r)
            end) elems)
  | JsObject props =>
      Hobj props
        ((fix all (l : list (string * JsValue))
            : Forall (fun kv => P (snd kv)) l :=
            match l with
            | [] => @Stdlib.Lists.List.Forall_nil _ _
            | kv :: r =>
                @Stdlib.Lists.List.Forall_cons _ _ kv r
                  (JsValue_nested_ind (snd kv)) (all r)
            end) props)
  end.
End JsValueInduction.

(** [isNaN(x)], [x === Infinity] and [x === -Infinity] on a number. *)
Definition isNaN (x : spec_float) : bool :=
  match x with S754_nan => true | _ => false end.

Definition isPosInfinity (x : spec_float) : bool :=
  match x with S754_infinity false => true | _ => false end.

Definition isNegInfinity (x : spec_float) : bool :=
  match x with S754_infinity true => true | _ => false end.

(** [Array.prototype.flat()] with its default depth of one. *)
Definition flat (x : list JsValue) : list JsValue :=
  flat_map (fun e => match e with JsArray l => l | _ => [e] end) x.

(** [Object.values(x)]. *)
Definition Object_values (props : list (string * JsValue)) : list JsValue :=
  map snd props.

(** [Array.prototype.some]. *)
Definition some {A : Type} (f : A -> bool) (l : list A) : bool := existsb f l.

(* ===================================================================== *)
(** ** The implicit oracle *)
(* ===================================================================== *)

(** [implicitOracle], lines 421-429.  The two [some] calls are written as
    local loops so that the recursion is structural; the equations
    [implicitOracle_array] and [implicitOracle_object] below restate them
    in the source's form, with [flat], [Object_values] and [some]. *)
Fixpoint implicitOracle (x : JsValue) : bool :=
  match x with
  | JsArray elems =>
      negb
        ((fix someFlat (l : list JsValue) : bool :=
            match l with
            | [] => false
            | e :: r =>
                match e with
                | JsArray inner =>
                    (fix someIn (l' : list JsValue) : bool :=
                       match l' with
                       | [] => someFlat r
                       | e' :: r' => negb (implicitOracle e') || someIn r'
                       end) inner
                | _ => negb (implicitOracle e) || someFlat r
                end
            end) elems)
  | JsNumber n => negb (isNaN n || isPosInfinity n || isNegInfinity n)
  | JsNull | JsUndefined => false
  | JsObject props =>
      negb
        ((fix someValue (l : list (string * JsValue)) : bool :=
            match l with
            | [] => false
            | kv :: r => negb (implicitOracle (snd kv)) || someValue r
            end) props)
  | JsBool _ | JsString _ | JsFunction => true
  end.

(* ===================================================================== *)
(** ** Errors, completions and the timeout wrapper *)
(* ===================================================================== *)

(** A thrown JavaScript error: its optional [code] and its [message]. *)
Record JsError := { code : option string; message : string }.

(** [new Error(msg)]. *)
Definition newError (msg : string) : JsError :=
  {| code := None; message := msg |}.

(** The error [vm] raises when a script exceeds its [timeout]. *)
Definition scriptTimeoutError : JsError :=
  {| code := Some "ERR_SCRIPT_EXECUTION_TIMEOUT";
     message := "Script execution timed out" |}.

(** A [TypeError] of the engine.  Its message is the engine's own text;
    the messages used below are V8's, without the operand that V8
    appends to the first of them. *)
Definition typeError (msg : string) : JsError :=
  {| code := None; message := msg |}.

(** A value that is not an object. *)
Inductive JsPrimitive : Type :=
| PrimUndefined
| PrimNull
| PrimBool (b : bool)
| PrimNumber (x : spec_float)
| PrimString (s : string).

(** What a [throw] statement throws, as far as the [catch] blocks of
    [fuzz] look at it: an object with its [code] and [message]
    properties, each a string where present, or a value that is not an
    object.  An error object is thrown as the object it is. *)
Inductive JsThrown : Type :=
| ThrownObject (c m : option string)
| ThrownPrimitive (v : JsPrimitive).

Definition thrownError (e : JsError) : JsThrown :=
  ThrownObject (code e) (Some (message e)).
Coercion thrownError : JsError >-> JsThrown.

(** A computation that returns or throws. *)
Inductive Exc (A : Type) : Type :=
| Ok (a : A)
| Raise (e : JsThrown).
Arguments Ok {A} a.
Arguments Raise {A} e.

(** [isTimeoutError], lines 477-479.  The [in] operator throws a
    [TypeError] when its right operand is not an object. *)
Definition isTimeoutError (error : JsThrown) : Exc bool :=
  match error with
  | ThrownObject c _ =>
      Ok (match c with
          | Some c => String.eqb c "ERR_SCRIPT_EXECUTION_TIMEOUT"
          | None => false
          end)
  | ThrownPrimitive _ =>
      Raise (typeError "Cannot use 'in' operator to search for 'code'")
  end.

(** [e.message] on a caught value: reading a property of [null] or
    [undefined] throws a [TypeError], and the other values that are not
    objects have no such property. *)
Definition messageOf (e : JsThrown) : Exc (option string) :=
  match e with
  | ThrownObject _ m => Ok m
  | ThrownPrimitive PrimUndefined =>
      Raise (typeError
               "Cannot read properties of undefined (reading 'message')")
  | ThrownPrimitive PrimNull =>
      Raise (typeError "Cannot read properties of null (reading 'message')")
  | ThrownPrimitive _ => Ok None
  end.

Definition bindExc {A B : Type} (m : Exc A) (k : A -> Exc B) : Exc B :=
  match m with
  | Ok a => k a
  | Raise e => Raise e
  end.

Notation "'let!' x ':=' m 'in' k" := (bindExc m (fun x => k))
  (at level 10, x name, m at level 100, k at level 200).

(** What running a function in a [vm] context under a time budget does:
    it returns, it throws, or it is still running when the budget ends. *)
Inductive Completion (A : Type) : Type :=
| Returns (v : A)
| Throws (e : JsThrown)
| Overruns.
Arguments Returns {A} v.
Arguments Throws {A} e.
Arguments Overruns {A}.

(** A JavaScript function as the wrapper sees it: given the budget in
    milliseconds and the arguments, how the call completes. *)
Definition Budgeted (A B : Type) : Type := Z -> A -> Completion B.

(** [functionTimeout], lines 447-467: "a wrapper function that will throw
    an exception if the function does not complete within, roughly, the
    timeout".  What [function_] throws passes through; an overrun is
    raised by [runInNewContext] itself, after [function_] was abandoned. *)
Definition functionTimeout {A B : Type}
    (function_ : Budgeted A B) (timeout : Z) : A -> Exc B :=
  fun arguments_ =>
    match function_ timeout arguments_ with
    | Returns returnValue => Ok returnValue
    | Throws e => Raise e
    | Overruns => Raise scriptTimeoutError
    end.

(* ===================================================================== *)
(** ** Data model

    The declarations of Types.ts and of the analysis classes are not
    among the sources; the records below follow section 3 of the
    specification and the fields Fuzzer.ts reads and writes. *)
(* ===================================================================== *)

(** Modelled from the spec: [FuzzIoElement] of Types.ts, one named input
    or the single output slot; [isTimeout] and [isException] are the
    marks [actualEqualsExpectedOutput] reads on an expected output. *)
Record FuzzIoElement := {
  name : string;
  offset : Z;
  value : JsValue;
  isTimeout : option bool;
  isException : option bool
}.

(** Modelled from the spec: [FuzzPinnedTest] of Types.ts, without its
    [output] field, which [fuzz] never reads. *)
Record FuzzPinnedTest := {
  pt_input : list FuzzIoElement;
  pt_pinned : bool;
  pt_expectedOutput : option (list FuzzIoElement)
}.

(** Modelled from the spec: [FuzzResultCategory] of Types.ts, the closed
    set of category strings. *)
Module Category.
Inductive t : Set := ok | badValue | exception | timeout | disagree | failure.
End Category.
Abbreviation FuzzResultCategory := Category.t.

(** Modelled from the spec: [FuzzStopReason] of Types.ts; [CRASH] is the
    value line 73 starts from. *)
Inductive FuzzStopReason : Set :=
| CRASH | MAXTIME | MAXFAILURES | MAXTESTS | MAXDUPES.

(** Modelled from the spec: [FuzzOptions] of Types.ts.  [argDefaults] is
    an options object that only [ArgDef.isOptionValid] inspects. *)
Record FuzzOptions := {
  maxTests : Z;
  maxDupeInputs : Z;
  maxFailures : Z;
  suiteTimeout : Z;
  fnTimeout : Z;
  onlyFailures : bool;
  useImplicit : bool;
  useHuman : bool;
  useProperty : bool;
  seed : option string;
  argDefaults : JsValue
}.

(** Modelled from the spec: [ArgDef] of the analysis, as far as the loop
    reads it; [constraints] stands for the type, dimension, intervals
    and options the generator is built from. *)
Record ArgDef := {
  arg_getName : string;
  arg_getOffset : Z;
  arg_constraints : JsValue
}.

(** Modelled from the spec: [FunctionDef] of the analysis, by the four
    getters [fuzz] calls. *)
Record FunctionDef := {
  getName : string;
  getModule : string;
  getArgDefs : list ArgDef;
  isVoid : bool
}.

(** Modelled from the spec: [FunctionRef] of a validator; the loop reads
    its [name] only. *)
Record FunctionRef := { ref_name : string }.

(** [FuzzEnv], lines 589-593. *)
Record FuzzEnv := {
  options : FuzzOptions;
  function : FunctionDef;
  validators : list FunctionRef
}.

(** Modelled from the spec: [FuzzTestResult] of Types.ts, without
    [elapsedTime] and the two stack traces. *)
Record FuzzTestResult := {
  pinned : bool;
  input : list FuzzIoElement;
  output : list FuzzIoElement;
  exception : bool;
  exceptionMessage : option string;
  validatorException : bool;
  validatorExceptionFunction : option string;
  validatorExceptionMessage : option string;
  timeout : bool;
  passedImplicit : bool;
  passedHuman : option bool;
  passedValidator : option bool;
  passedValidators : option (list (option bool));
  expectedOutput : option (list FuzzIoElement);
  category : FuzzResultCategory
}.

(** Modelled from the spec: [Result] of Types.ts, the simplified
    structure handed to a validator, with the fields lines 275-283 fill. *)
Record Result := {
  res_in : list JsValue;
  res_out : JsValue;
  res_exception : bool;
  res_timeout : bool
}.

(** [FuzzTestResults], lines 598-606. *)
Record FuzzTestResults := {
  res_env : FuzzEnv;
  stopReason : FuzzStopReason;
  elapsedTime : Z;
  res_inputsGenerated : Z;
  dupesGenerated : Z;
  inputsSaved : Z;
  results : list FuzzTestResult
}.

(** Field updates of a [FuzzTestResult] ([result.f = v]). *)
Definition set_output (v : list FuzzIoElement) (r : FuzzTestResult) :=
  {| pinned := pinned r; input := input r; output := v;
     exception := exception r; exceptionMessage := exceptionMessage r;
     validatorException := validatorException r;
     validatorExceptionFunction := validatorExceptionFunction r;
     validatorExceptionMessage := validatorExceptionMessage r;
     timeout := timeout r; passedImplicit := passedImplicit r;
     passedHuman := passedHuman r; passedValidator := passedValidator r;
     passedValidators := passedValidators r;
     expectedOutput := expectedOutput r; category := category r |}.

Definition set_exception (v : bool) (msg : option string)
    (r : FuzzTestResult) :=
  {| pinned := pinned r; input := input r; output := output r;
     exception := v; exceptionMessage := msg;
     validatorException := validatorException r;
     validatorExceptionFunction := validatorExceptionFunction r;
     validatorExceptionMessage := validatorExceptionMessage r;
     timeout := timeout r; passedImplicit := passedImplicit r;
     passedHuman := passedHuman r; passedValidator := passedValidator r;
     passedValidators := passedValidators r;
     expectedOutput := expectedOutput r; category := category r |}.

Definition set_timeout (v : bool) (r : FuzzTestResult) :=
  {| pinned := pinned r; input := input r; output := output r;
     exception := exception r; exceptionMessage := exceptionMessage r;
     validatorException := validatorException r;
     validatorExceptionFunction := validatorExceptionFunction r;
     validatorExceptionMessage := validatorExceptionMessage r;
     timeout := v; passedImplicit := passedImplicit r;
     passedHuman := passedHuman r; passedValidator := passedValidator r;
     passedValidators := passedValidators r;
     expectedOutput := expectedOutput r; category := category r |}.

Definition set_passedImplicit (v : bool) (r : FuzzTestResult) :=
  {| pinned := pinned r; input := input r; output := output r;
     exception := exception r; exceptionMessage := exceptionMessage r;
     validatorException := validatorException r;
     validatorExceptionFunction := validatorExceptionFunction r;
     validatorExceptionMessage := validatorExceptionMessage r;
     timeout := timeout r; passedImplicit := v;
     passedHuman := passedHuman r; passedValidator := passedValidator r;
     passedValidators := passedValidators r;
     expectedOutput := expectedOutput r; category := category r |}.

Definition set_passedHuman (v : option bool) (r : FuzzTestResult) :=
  {| pinned := pinned r; input := input r; output := output r;
     exception := exception r; exceptionMessage := exceptionMessage r;
     validatorException := validatorException r;
     validatorExceptionFunction := validatorExceptionFunction r;
     validatorExceptionMessage := validatorExceptionMessage r;
     timeout := timeout r; passedImplicit := passedImplicit r;
     passedHuman := v; passedValidator := passedValidator r;
     passedValidators := passedValidators r;
     expectedOutput := expectedOutput r; category := category r |}.

Definition set_passedValidator (v : option bool) (r : FuzzTestResult) :=
  {| pinned := pinned r; input := input r; output := output r;
     exception := exception r; exceptionMessage := exceptionMessage r;
     validatorException := validatorException r;
     validatorExceptionFunction := validatorExceptionFunction r;
     validatorExceptionMessage := validatorExceptionMessage r;
     timeout := timeout r; passedImplicit := passedImplicit r;
     passedHuman := passedHuman r; passedValidator := v;
     passedValidators := passedValidators r;
     expectedOutput := expectedOutput r; category := category r |}.

Definition set_passedValidators (v : option (list (option bool)))
    (r : FuzzTestResult) :=
  {| pinned := pinned r; input := input r; output := output r;
     exception := exception r; exceptionMessage := exceptionMessage r;
     validatorException := validatorException r;
     validatorExceptionFunction := validatorExceptionFunction r;
     validatorExceptionMessage := validatorExceptionMessage r;
     timeout := timeout r; passedImplicit := passedImplicit r;
     passedHuman := passedHuman r; passedValidator := passedValidator r;
     passedValidators := v;
     expectedOutput := expectedOutput r; category := category r |}.

Definition set_validatorException (v : bool) (fn msg : option string)
    (r : FuzzTestResult) :=
  {| pinned := pinned r; input := input r; output := output r;
     exception := exception r; exceptionMessage := exceptionMessage r;
     validatorException := v;
     validatorExceptionFunction := fn;
     validatorExceptionMessage := msg;
     timeout := timeout r; passedImplicit := passedImplicit r;
     passedHuman := passedHuman r; passedValidator := passedValidator r;
     passedValidators := passedValidators r;
     expectedOutput := expectedOutput r; category := category r |}.

Definition set_category (v : FuzzResultCategory) (r : FuzzTestResult) :=
  {| pinned := pinned r; input := input r; output := output r;
     exception := exception r; exceptionMessage := exceptionMessage r;
     validatorException := validatorException r;
     validatorExceptionFunction := validatorExceptionFunction r;
     validatorExceptionMessage := validatorExceptionMessage r;
     timeout := timeout r; passedImplicit := passedImplicit r;
     passedHuman := passedHuman r; passedValidator := passedValidator r;
     passedValidators := passedValidators r;
     expectedOutput := expectedOutput r; category := v |}.

(* ===================================================================== *)
(** ** The host: what [fuzz] obtains from outside Fuzzer.ts *)
(* ===================================================================== *)

(** A member of the loaded module [mod].  The function under test may
    keep state between calls, so its behaviour also depends on the number
    of calls made before. *)
Inductive Export : Type :=
| ExportValue
| ExportFunction (call : nat -> Budgeted (list JsValue) JsValue).

(** - [seedrandom], [GeneratorFactory]: the seeded PRNG and the argument
      generators built over it; drawing a value advances the PRNG.
    - [JSON5_stringify]: [JSON5.stringify]; [JSON5_copy]: what
      [JSON5.parse(JSON5.stringify(..))] makes of a value held in a
      property.
    - [getTime k]: the k-th reading of [new Date().getTime()].
    - [ArgDef_isOptionValid]: [ArgDef.isOptionValid].
    - [mod_]: the members of the freshly loaded module [mod], by name;
      [validatorFn]: its validators, typed [Result -> boolean]. *)
Record Host := {
  Prng : Type;
  seedrandom : option string -> Prng;
  GeneratorFactory : ArgDef -> Prng -> JsValue * Prng;
  JSON5_stringify : JsValue -> string;
  JSON5_copy : JsValue -> JsValue;
  getTime : nat -> Z;
  ArgDef_isOptionValid : JsValue -> bool;
  mod_ : string -> option Export;
  validatorFn : string -> nat -> Budgeted Result bool
}.

(* ===================================================================== *)
(** ** Stop conditions, option check and classifier *)
(* ===================================================================== *)

(** [_checkStopCondition], lines 364-397; [now] is the reading of
    [new Date().getTime()] taken on entry. *)
Definition _checkStopCondition (env : FuzzEnv)
    (inputsGenerated currentDupeCount totalDupeCount failureCount : Z)
    (startTime now : Z) : option FuzzStopReason :=
  if now - startTime >=? suiteTimeout (options env) then Some MAXTIME
  else if inputsGenerated - totalDupeCount >=? maxTests (options env)
  then Some MAXTESTS
  else if negb (Z.eqb (maxFailures (options env)) 0)
          && (failureCount >=? maxFailures (options env))
  then Some MAXFAILURES
  else if currentDupeCount >=? maxDupeInputs (options env)
  then Some MAXDUPES
  else None.

(** [isOptionValid], lines 405-412. *)
Definition isOptionValid (host : Host) (opts : FuzzOptions) : bool :=
  (maxTests opts >=? 0)
  && (maxDupeInputs opts >=? 0)
  && (maxFailures opts >=? 0)
  && ArgDef_isOptionValid host (argDefaults opts).

(** Truthiness of an optional boolean. *)
Definition truthy (v : option bool) : bool :=
  match v with Some true => true | _ => false end.

(** [categorizeResult], lines 524-584. *)
Definition categorizeResult (result : FuzzTestResult) (env : FuzzEnv)
    : FuzzResultCategory :=
  if validatorException result then Category.failure
  else
    let implicit := if passedImplicit result then true else false in
    let human :=
      match passedHuman result with
      | Some h => Some (if h then true else false)
      | None => None
      end in
    let property := passedValidator result in
    let getBadValueType (result : FuzzTestResult) :=
      if exception result then Category.exception
      else if timeout result then Category.timeout
      else Category.badValue in
    let getBadValueTypeProperty (result : FuzzTestResult) :=
      if truthy (passedValidator result) then Category.ok
      else Category.badValue in
    match human with
    | Some true =>
        match property with
        | Some false => Category.disagree
        | _ => Category.ok
        end
    | Some false =>
        match property with
        | Some true => Category.disagree
        | _ => getBadValueType result
        end
    | None =>
        match property with
        | Some true => Category.ok
        | Some false => getBadValueTypeProperty result
        | None => if implicit then Category.ok else getBadValueType result
        end
    end.

(** [a && b] on optional booleans: [b] when [a] is truthy, else [a]. *)
Definition jsAnd (a b : option bool) : option bool :=
  if truthy a then b else a.

(** [Array.prototype.pop]: the last element, and the array without it. *)
Definition pop {A : Type} (l : list A) : option A * list A :=
  match rev l with
  | [] => (None, l)
  | x :: r => (Some x, rev r)
  end.

(** A machine integer as a JavaScript number. *)
Definition numberOfZ (z : Z) : spec_float :=
  match z with
  | Z0 => S754_zero false
  | Zpos p => S754_finite false p 0
  | Zneg p => S754_finite true p 0
  end.

(** A [FuzzIoElement] as the JavaScript object it is. *)
Definition ioToJs (e : FuzzIoElement) : JsValue :=
  JsObject
    ([("name", JsString (name e));
      ("offset", JsNumber (numberOfZ (offset e)));
      ("value", value e)]
     ++ match isTimeout e with
        | Some b => [("isTimeout", JsBool b)]
        | None => []
        end
     ++ match isException e with
        | Some b => [("isException", JsBool b)]
        | None => []
        end).

Definition ioListToJs (l : list FuzzIoElement) : JsValue :=
  JsArray (map ioToJs l).

(** [x !== undefined]. *)
Definition isDefined (x : JsValue) : bool :=
  match x with JsUndefined => false | _ => true end.

(** The simplified structure a validator receives, lines 269-283. *)
Definition validatorIn (result : FuzzTestResult) : Result :=
  let inParams := map value (input result) in
  {| res_in := inParams;
     res_out :=
       match output result with
       | [] => JsString "timeout or exception"
       | e :: _ => value e
       end;
     res_exception := exception result;
     res_timeout := timeout result |}.

(* ===================================================================== *)
(** ** One test: call, oracles, validators, category *)
(* ===================================================================== *)

Section Pipeline.
Variable host : Host.

(** The protective deep copy [JSON5.parse(JSON5.stringify(..))] of a
    list of io elements and of a whole result. *)
Definition copyIo (e : FuzzIoElement) : FuzzIoElement :=
  {| name := name e; offset := offset e;
     value := JSON5_copy host (value e);
     isTimeout := isTimeout e; isException := isException e |}.

Definition copyResult (r : FuzzTestResult) : FuzzTestResult :=
  {| pinned := pinned r; input := map copyIo (input r);
     output := map copyIo (output r);
     exception := exception r; exceptionMessage := exceptionMessage r;
     validatorException := validatorException r;
     validatorExceptionFunction := validatorExceptionFunction r;
     validatorExceptionMessage := validatorExceptionMessage r;
     timeout := timeout r; passedImplicit := passedImplicit r;
     passedHuman := passedHuman r; passedValidator := passedValidator r;
     passedValidators := passedValidators r;
     expectedOutput := option_map (map copyIo) (expectedOutput r);
     category := category r |}.

(** [JSON5.stringify] of a list of io elements. *)
Definition stringifyIo (l : list FuzzIoElement) : string :=
  JSON5_stringify host (ioListToJs l).

(** [fnWrapper], lines 124-126. *)
Definition fnWrapper (env : FuzzEnv)
    (target : Budgeted (list JsValue) JsValue)
    : list FuzzIoElement -> Exc JsValue :=
  functionTimeout
    (fun budget (input : list FuzzIoElement) =>
       target budget (map value input))
    (fnTimeout (options env)).

(** Lines 211-230: call the function via the wrapper.  The [catch]
    block is not itself guarded: what [isTimeoutError(e)] throws leaves
    [fuzz]. *)
Definition callFunction (env : FuzzEnv)
    (target : Budgeted (list JsValue) JsValue)
    (result : FuzzTestResult) : Exc FuzzTestResult :=
  match fnWrapper env target (map copyIo (input result)) with
  | Ok returned =>
      Ok (set_output
            (output result
             ++ [{| name := "0"; offset := 0; value := returned;
                    isTimeout := None; isException := None |}])
            result)
  | Raise e =>
      let! timedOut := isTimeoutError e in
      if timedOut then Ok (set_timeout true result)
      else
        let! msg := messageOf e in
        Ok (set_exception true msg result)
  end.

(** Lines 232-247: the implicit oracle. *)
Definition applyImplicit (env : FuzzEnv) (result : FuzzTestResult)
    : FuzzTestResult :=
  if useImplicit (options env) then
    if exception result || timeout result then
      set_passedImplicit false result
    else if isVoid (function env) then
      set_passedImplicit
        (negb (some (fun e => isDefined (value e)) (output result)))
        result
    else
      set_passedImplicit
        (negb (some (fun e => negb (implicitOracle (ioToJs e)))
                 (output result)))
        result
  else result.

(** [actualEqualsExpectedOutput], lines 505-516. *)
Definition actualEqualsExpectedOutput (result : FuzzTestResult)
    (expectedOutput : list FuzzIoElement) : bool :=
  if timeout result then
    match expectedOutput with
    | e :: _ => match isTimeout e with Some true => true | _ => false end
    | [] => false
    end
  else if exception result then
    match expectedOutput with
    | e :: _ => match isException e with Some true => true | _ => false end
    | [] => false
    end
  else String.eqb (stringifyIo (output result)) (stringifyIo expectedOutput).

(** Lines 249-256: the human oracle. *)
Definition applyHuman (env : FuzzEnv) (result : FuzzTestResult)
    : FuzzTestResult :=
  if useHuman (options env) then
    match expectedOutput result with
    | Some expected =>
        set_passedHuman
          (Some (actualEqualsExpectedOutput result expected)) result
    | None => result
    end
  else result.

(** The function wrapped at lines 267-302: it builds the validator's
    input, calls the validator and catches what the validator throws.
    [result] is the copy the wrapper was called with.  The [catch]
    block reads [e.message]; what that read throws leaves the wrapped
    function. *)
Definition validatorBody (valFnName : string) (testNo : nat)
    : Budgeted FuzzTestResult FuzzTestResult :=
  fun budget result =>
    match validatorFn host valFnName testNo budget (validatorIn result) with
    | Returns validatorOut =>
        Returns
          (set_passedValidators (Some [])
             (set_passedValidator (Some validatorOut) result))
    | Throws e =>
        match messageOf e with
        | Ok msg =>
            Returns
              (set_validatorException true (Some valFnName) msg result)
        | Raise typeErr => Throws typeErr
        end
    | Overruns => Overruns
    end.

(** [result.passedValidators.push(v)]. *)
Definition push_passedValidators (v : option bool) (r : FuzzTestResult)
    : FuzzTestResult :=
  set_passedValidators
    (match passedValidators r with
     | Some l => Some (l ++ [v])
     | None => None
     end) r.

(** Lines 264-321: the loop over the validators.  The call of the
    wrapper at line 308 is not inside a [try]: what it raises leaves
    [fuzz]. *)
Fixpoint forValidators (env : FuzzEnv) (testNo : nat)
    (vals : list FunctionRef) (result : FuzzTestResult)
    : Exc FuzzTestResult :=
  match vals with
  | [] => Ok result
  | valFn :: rest =>
      let valFnName := ref_name valFn in
      let validatorFnWrapper :=
        functionTimeout (validatorBody valFnName testNo)
          (fnTimeout (options env)) in
      let result := set_category (categorizeResult result env) result in
      let! validatorResult := validatorFnWrapper (copyResult result) in
      let result :=
        push_passedValidators (passedValidator validatorResult) result in
      let result :=
        set_validatorException
          (validatorException validatorResult)
          (validatorExceptionFunction validatorResult)
          (validatorExceptionMessage validatorResult) result in
      forValidators env testNo rest result
  end.

(** Lines 258-328: the custom validators. *)
Definition applyValidators (env : FuzzEnv) (testNo : nat)
    (result : FuzzTestResult) : Exc FuzzTestResult :=
  if negb (Nat.eqb (length (validators env)) 0)
     && useProperty (options env)
  then
    let result := set_passedValidators (Some []) result in
    let! result := forValidators env testNo (validators env) result in
    Ok (set_passedValidator
          (fold_left jsAnd
             (match passedValidators result with
              | Some l => l
              | None => []
              end)
             (Some true))
          result)
  else Ok result.

(** Lines 211-331: everything done to a non-duplicate input. *)
Definition runTest (env : FuzzEnv)
    (target : Budgeted (list JsValue) JsValue) (testNo : nat)
    (result : FuzzTestResult) : Exc FuzzTestResult :=
  let! result := callFunction env target result in
  let result := applyImplicit env result in
  let result := applyHuman env result in
  let! result := applyValidators env testNo result in
  Ok (set_category (categorizeResult result env) result).

End Pipeline.

(* ===================================================================== *)
(** ** The main test loop *)
(* ===================================================================== *)

(** Where the input of an iteration came from (kept for the proofs). *)
Inductive Event : Type :=
| Consumed (t : FuzzPinnedTest)
| Generated (input : list FuzzIoElement).

Section Loop.
Variable host : Host.

(** The variables of [fuzz] that the loop reads and writes.  [ticks]
    counts the clock readings taken so far.  [calls] and [history] are
    not in the source: they count the calls of [fnWrapper] and log, in
    order, where each iteration took its input from. *)
Record LoopState := {
  prng : Prng host;
  pinnedTests : list FuzzPinnedTest;
  allInputs : gmap string bool;
  savedCount : Z;
  currentDupeCount : Z;
  totalDupeCount : Z;
  inputsGenerated : Z;
  failureCount : Z;
  resultsSoFar : list FuzzTestResult;
  ticks : nat;
  calls : nat;
  history : list Event
}.

(** Lines 160-170, with the input, pinned flag and expected output
    that lines 177-181 or 185-191 give it. *)
Definition newResult (isPinned : bool) (inp : list FuzzIoElement)
    (expected : option (list FuzzIoElement)) : FuzzTestResult :=
  {| pinned := isPinned; input := inp; output := [];
     exception := false; exceptionMessage := None;
     validatorException := false;
     validatorExceptionFunction := None;
     validatorExceptionMessage := None;
     timeout := false; passedImplicit := true;
     passedHuman := None; passedValidator := None;
     passedValidators := None;
     expectedOutput := expected; category := Category.ok |}.

(** Lines 185-191: one value per argument, in declared order, each
    drawn from the shared PRNG. *)
Fixpoint generateInput (fuzzArgGen : list ArgDef) (g : Prng host)
    : list FuzzIoElement * Prng host :=
  match fuzzArgGen with
  | [] => ([], g)
  | e :: rest =>
      let '(v, g1) := GeneratorFactory host e g in
      let '(more, g2) := generateInput rest g1 in
      ({| name := arg_getName e; offset := arg_getOffset e; value := v;
          isTimeout := None; isException := None |} :: more, g2)
  end.

(** Lines 176-181: a pinned test was popped. *)
Definition consumePinned (t : FuzzPinnedTest)
    (remaining : list FuzzPinnedTest) (s : LoopState) : LoopState :=
  {| prng := prng s; pinnedTests := remaining; allInputs := allInputs s;
     savedCount := savedCount s + 1;
     currentDupeCount := currentDupeCount s;
     totalDupeCount := totalDupeCount s;
     inputsGenerated := inputsGenerated s;
     failureCount := failureCount s; resultsSoFar := resultsSoFar s;
     ticks := ticks s; calls := calls s;
     history := history s ++ [Consumed t] |}.

(** Lines 185-193: a new input was generated. *)
Definition countGenerated (inp : list FuzzIoElement) (g : Prng host)
    (s : LoopState) : LoopState :=
  {| prng := g; pinnedTests := pinnedTests s; allInputs := allInputs s;
     savedCount := savedCount s;
     currentDupeCount := currentDupeCount s;
     totalDupeCount := totalDupeCount s;
     inputsGenerated := inputsGenerated s + 1;
     failureCount := failureCount s; resultsSoFar := resultsSoFar s;
     ticks := ticks s; calls := calls s;
     history := history s ++ [Generated inp] |}.

(** Lines 199-201: the input was seen before. *)
Definition skipDuplicate (s : LoopState) : LoopState :=
  {| prng := prng s; pinnedTests := pinnedTests s;
     allInputs := allInputs s; savedCount := savedCount s;
     currentDupeCount := currentDupeCount s + 1;
     totalDupeCount := totalDupeCount s + 1;
     inputsGenerated := inputsGenerated s;
     failureCount := failureCount s; resultsSoFar := resultsSoFar s;
     ticks := ticks s; calls := calls s; history := history s |}.

(** Lines 203-208: the input is new. *)
Definition rememberInput (env : FuzzEnv) (inputHash : string)
    (s : LoopState) : LoopState :=
  {| prng := prng s; pinnedTests := pinnedTests s;
     allInputs :=
       if negb (Nat.eqb (length (getArgDefs (function env))) 0)
       then <[inputHash := true]> (allInputs s)
       else allInputs s;
     savedCount := savedCount s;
     currentDupeCount := 0;
     totalDupeCount := totalDupeCount s;
     inputsGenerated := inputsGenerated s;
     failureCount := failureCount s; resultsSoFar := resultsSoFar s;
     ticks := ticks s; calls := calls s; history := history s |}.

(** [result.category !== "ok"]. *)
Definition notOk (c : FuzzResultCategory) : bool :=
  match c with Category.ok => false | _ => true end.

(** Lines 333-341: count a failure and store the result. *)
Definition storeResult (env : FuzzEnv) (result : FuzzTestResult)
    (s : LoopState) : LoopState :=
  {| prng := prng s; pinnedTests := pinnedTests s;
     allInputs := allInputs s; savedCount := savedCount s;
     currentDupeCount := currentDupeCount s;
     totalDupeCount := totalDupeCount s;
     inputsGenerated := inputsGenerated s;
     failureCount :=
       if notOk (category result) then failureCount s + 1
       else failureCount s;
     resultsSoFar :=
       if negb (onlyFailures (options env)) || notOk (category result)
       then resultsSoFar s ++ [result]
       else resultsSoFar s;
     ticks := ticks s; calls := S (calls s); history := history s |}.

(** One clock reading was taken. *)
Definition tick (s : LoopState) : LoopState :=
  {| prng := prng s; pinnedTests := pinnedTests s;
     allInputs := allInputs s; savedCount := savedCount s;
     currentDupeCount := currentDupeCount s;
     totalDupeCount := totalDupeCount s;
     inputsGenerated := inputsGenerated s;
     failureCount := failureCount s; resultsSoFar := resultsSoFar s;
     ticks := S (ticks s); calls := calls s; history := history s |}.

(** Lines 172-194: take the next input, from the pinned pool first. *)
Definition nextInput (env : FuzzEnv) (s : LoopState)
    : FuzzTestResult * LoopState :=
  match pop (pinnedTests s) with
  | (Some pinnedTest, remaining) =>
      (newResult (pt_pinned pinnedTest) (pt_input pinnedTest)
         (pt_expectedOutput pinnedTest),
       consumePinned pinnedTest remaining s)
  | (None, _) =>
      let '(inp, g) :=
        generateInput (getArgDefs (function env)) (prng s) in
      (newResult false inp None, countGenerated inp g s)
  end.

(** Lines 159-341: the body of the [while (true)] loop after the stop
    check. *)
Definition loopBody (env : FuzzEnv)
    (call : nat -> Budgeted (list JsValue) JsValue) (s : LoopState)
    : Exc LoopState :=
  let '(result, s) := nextInput env s in
  let inputHash := stringifyIo host (input result) in
  match allInputs s !! inputHash with
  | Some _ => Ok (skipDuplicate s)
  | None =>
      let s := rememberInput env inputHash s in
      let! result := runTest host env (call (calls s)) (calls s) result in
      Ok (storeResult env result s)
  end.

(** The loop, lines 140-342.  It ends with the stop reason and the
    state it stopped in, or with the error that left the body. *)
Fixpoint fuzzLoop (env : FuzzEnv)
    (call : nat -> Budgeted (list JsValue) JsValue) (startTime : Z)
    (fuel : nat) (s : LoopState)
    : option (Exc (FuzzStopReason * LoopState)) :=
  match fuel with
  | O => None
  | S fuel' =>
      match _checkStopCondition env (inputsGenerated s)
              (currentDupeCount s) (totalDupeCount s) (failureCount s)
              startTime (getTime host (ticks s)) with
      | Some stopCondition => Some (Ok (stopCondition, tick s))
      | None =>
          match loopBody env call (tick s) with
          | Ok s' => fuzzLoop env call startTime fuel' s'
          | Raise e => Some (Raise e)
          end
      end
  end.

(** Lines 69-84 and 136-137: the state the loop starts in, after the
    reading of [startTime]. *)
Definition initialState (env : FuzzEnv) (pinned : list FuzzPinnedTest)
    : LoopState :=
  {| prng := seedrandom host (seed (options env));
     pinnedTests := pinned; allInputs := ∅;
     savedCount := 0; currentDupeCount := 0; totalDupeCount := 0;
     inputsGenerated := 0; failureCount := 0; resultsSoFar := [];
     ticks := 1; calls := 0; history := [] |}.

(** [fuzz] up to the end of the loop, lines 65-342. *)
Definition fuzzRun (fuel : nat) (env : FuzzEnv)
    (pinned : list FuzzPinnedTest)
    : option (Exc (FuzzStopReason * LoopState)) :=
  if negb (isOptionValid host (options env)) then
    Some (Raise (newError "Invalid options provided"))
  else
    match mod_ host (getName (function env)) with
    | None => Some (Raise (newError "Could not find exported function"))
    | Some ExportValue =>
        Some (Raise (newError "Cannot fuzz exported member"))
    | Some (ExportFunction call) =>
        fuzzLoop env call (getTime host 0) fuel (initialState env pinned)
    end.

(** Lines 150-157: the aggregate built when the loop stops. *)
Definition finish (env : FuzzEnv) (stop : FuzzStopReason * LoopState)
    : FuzzTestResults :=
  let '(stopCondition, s) := stop in
  {| res_env := env;
     stopReason := stopCondition;
     elapsedTime := getTime host (ticks s) - getTime host 0;
     res_inputsGenerated := inputsGenerated s;
     dupesGenerated := totalDupeCount s;
     inputsSaved := savedCount s;
     results := resultsSoFar s |}.

(** [fuzz], lines 65-351. *)
Definition fuzz (fuel : nat) (env : FuzzEnv)
    (pinned : list FuzzPinnedTest) : option (Exc FuzzTestResults) :=
  match fuzzRun fuel env pinned with
  | Some (Ok stop) => Some (Ok (finish env stop))
  | Some (Raise e) => Some (Raise e)
  | None => None
  end.

End Loop.

Arguments prng {host}.
Arguments pinnedTests {host}.
Arguments allInputs {host}.
Arguments savedCount {host}.
Arguments currentDupeCount {host}.
Arguments totalDupeCount {host}.
Arguments inputsGenerated {host}.
Arguments failureCount {host}.
Arguments resultsSoFar {host}.
Arguments ticks {host}.
Arguments calls {host}.
Arguments history {host}.

(* ===================================================================== *)
(** ** Before and around the loop: setup, validators, callers' helpers *)
(* ===================================================================== *)

(** Modelled from the spec: a function of the analysed program, that is
    a [FunctionDef] together with the two methods [fuzz] does not call,
    [isValidator] and [getRef]. *)
Record AnalysedFunction := {
  fn_def : FunctionDef;
  fn_isValidator : bool;
  fn_getRef : FunctionRef
}.

(** [program.getExportedFunctions()]: the exported functions by name, in
    enumeration order. *)
Definition ExportedFunctions : Type := list (string * AnalysedFunction).

(** [Object.values] of a keyed record. *)
Definition values {A : Type} (o : list (string * A)) : list A := map snd o.

(** [key in o] and [o[key]] on a keyed record. *)
Fixpoint member {A : Type} (key : string) (o : list (string * A))
    : option A :=
  match o with
  | [] => None
  | (k, v) :: rest => if String.eqb k key then Some v else member key rest
  end.

(** [s.startsWith(p)]. *)
Definition startsWith (s p : string) : bool := String.prefix p s.

(** [getValidators], lines 487-496. *)
Definition getValidators (program : ExportedFunctions)
    (fnUnderTest : FunctionDef) : list FunctionRef :=
  map fn_getRef
    (List.filter
       (fun fn =>
          fn_isValidator fn
          && startsWith (getName (fn_def fn)) (getName fnUnderTest))
       (values program)).

(** [setup], lines 30-55, on the program the analysis of [module]
    produced. *)
Definition setup (host : Host) (program : ExportedFunctions)
    (opts : FuzzOptions) (fnName : string) : Exc FuzzEnv :=
  let fnList := program in
  if negb (isOptionValid host opts) then
    Raise (newError "Invalid options provided")
  else
    match member fnName fnList with
    | None => Raise (newError "Could not find function")
    | Some fn =>
        Ok {| options := opts;
              function := fn_def fn;
              validators := getValidators program (fn_def fn) |}
    end.

(** [Array.prototype.join]. *)
Fixpoint join (sep : string) (l : list string) : string :=
  match l with
  | [] => ""
  | [x] => x
  | x :: rest => x +:+ sep +:+ join sep rest
  end.

(** [Array.prototype.reduce] without an initial value: the first
    element starts the accumulation, the callback sees every later
    element with its index, and an empty array is a [TypeError]. *)
Fixpoint reduceFrom {A : Type} (f : A -> A -> nat -> list A -> A)
    (array : list A) (i : nat) (rest : list A) (a : A) : A :=
  match rest with
  | [] => a
  | b :: rest' => reduceFrom f array (S i) rest' (f a b i array)
  end.

Definition reduce {A : Type} (f : A -> A -> nat -> list A -> A)
    (array : list A) : Exc A :=
  match array with
  | [] => Raise (newError "Reduce of empty array with no initial value")
  | first :: rest => Ok (reduceFrom f array 1 rest first)
  end.

(** [toPrettyList], src/ui/FuzzPanel.ts lines 2006-2012. *)
Definition toPrettyList (inList : list string) : Exc string :=
  if Nat.eqb (length inList) 2 then Ok (join " and " inList)
  else
    reduce
      (fun a b i array =>
         a +:+ (if Nat.ltb i (length array - 1) then ", " else ", and ")
           +:+ b)
      inList.

(** [s.split(sep)] for a separator of one character. *)
Fixpoint split (sep : Ascii.ascii) (s : string) : list string :=
  match s with
  | EmptyString => [EmptyString]
  | String c rest =>
      if Ascii.eqb c sep then EmptyString :: split sep rest
      else
        match split sep rest with
        | part :: parts => String c part :: parts
        | [] => [String c EmptyString]
        end
  end.

(** [getFilename] of the Jest adapter, src/examples/7.ts lines 131-134:
    [slice(0, -1)] drops the last part, and an empty stem falls back on
    the module name. *)
Definition getFilename (module : string) : string :=
  let stem := join "." (removelast (split "."%char module)) in
  let module := if String.eqb stem "" then module else stem in
  module +:+ ".nano.test.ts".

(** *** The Jest adapter, src/examples/7.ts lines 43-124 *)

(** The double quote character of the generated test names. *)
Definition quote : string := String "034"%char EmptyString.

Section Jest.

(** [JSON5.stringify], [path.basename], the text of
    [implicitOracle.toString()], [os.EOL], and the decimal text that a
    template literal gives a number. *)
Variable stringify : JsValue -> string.
Variable basename : string -> string.
Variable oracleSource : string.
Variable EOL : string.
Variable show : Z -> string.

(** Lines 79-86: the arguments of the call, built with the counter [x]
    that puts a comma before every value but the first. *)
Definition inputStrOf (input : list FuzzIoElement) : string :=
  snd (fold_left
         (fun (st : nat * string) (e : JsValue) =>
            let '(x, inputStr) := st in
            (S x,
             (inputStr +:+ (match x with O => "" | S _ => "," end))
               +:+ stringify e))
         (map value input) (O, "")).

(** Lines 75-121, the body of the inner loop for one saved test: the
    entries pushed on [jestData] and the test counter [i] afterwards. *)
Definition jestTest (fn : string) (timeout : Z) (i : nat)
    (test : FuzzPinnedTest) : list string * nat :=
  if negb (pt_pinned test) then ([], i)
  else
    let inputStr := inputStrOf (pt_input test) in
    let heading :=
      "test(" +:+ quote +:+ fn +:+ "." +:+ show (Z.of_nat i) +:+ quote in
    match pt_expectedOutput test with
    | Some (e :: _) =>
        if truthy (isTimeout e) then ([], i)
        else if truthy (isException e) then
          ([ "// Expecting thrown exception";
             heading +:+ ", () => {expect( () => {themodule." +:+ fn
               +:+ "(" +:+ inputStr +:+ ")}).toThrow();}," +:+ show timeout
               +:+ ");";
             "" ], S i)
        else
          ([ "// Expecteding output value";
             heading +:+ ", () => {expect(themodule." +:+ fn +:+ "("
               +:+ inputStr +:+ ")).toStrictEqual(" +:+ stringify (value e)
               +:+ ");}," +:+ show timeout +:+ ");";
             "" ], S i)
    | _ =>
        ([ "// Expecting no timeout, exception, NaN, null, undefined, or infinity";
           heading +:+ ", () => {expect(implicitOracle(themodule." +:+ fn
             +:+ "(" +:+ inputStr +:+ "))).toBe(true);}," +:+ show timeout
             +:+ ");";
           "" ], S i)
    end.

(** Lines 73-122: the inner loop over the saved tests of one function,
    in the order in which [for ... in] enumerates them. *)
Fixpoint jestTests (fn : string) (timeout : Z) (i : nat)
    (tests : list (string * FuzzPinnedTest)) : list string :=
  match tests with
  | [] => []
  | (_, test) :: rest =>
      let '(lines, i') := jestTest fn timeout i test in
      lines ++ jestTests fn timeout i' rest
  end.

(** Lines 48-69: the entries pushed before the tests.  The text of
    [implicitOracle.toString()] is one entry, of as many lines as the
    function has. *)
Definition jestHeader (module : string) (timeout : Z) : list string :=
  let moduleFn := join "." (removelast (split "."%char (basename module))) in
  [ "/**";
    " * DO NOT MODIFY";
    " * This file is auto-generated and maintained by NaNofuzz,";
    " * which will overwrite any changes made to this file.";
    " */";
    "import * as themodule from './" +:+ moduleFn +:+ "';";
    "";
    "// @ts-ignore";
    "const implicitOracle = " +:+ oracleSource +:+ ";";
    "";
    "jest.setTimeout(" +:+ show timeout +:+ ");";
    "" ].

(** [jestData] when the loops are done, and [toString], which joins it
    with the line separator. *)
Definition jestData
    (pinnedTests : list (string * list (string * FuzzPinnedTest)))
    (module : string) (timeout : Z) : list string :=
  jestHeader module timeout
  ++ flat_map (fun fnTests => jestTests (fst fnTests) timeout 0 (snd fnTests))
       pinnedTests.

Definition toString
    (pinnedTests : list (string * list (string * FuzzPinnedTest)))
    (module : string) (timeout : Z) : string :=
  join EOL (jestData pinnedTests module timeout).

End Jest.

(* ===================================================================== *)
(** ** A concrete host, for runs on explicit inputs *)
(* ===================================================================== *)

(** A stand-in for [JSON5.stringify], injective on the values used in
    the examples. *)
Definition showNumber (x : spec_float) : string :=
  match x with
  | S754_zero _ => "0"
  | S754_infinity false => "Infinity"
  | S754_infinity true => "-Infinity"
  | S754_nan => "NaN"
  | S754_finite s m e =>
      String.append (if s then "-" else "")
        (String.append (NilEmpty.string_of_uint (Pos.to_uint m))
           (match e with
            | Z0 => ""
            | _ => String.append "p" (NilZero.string_of_int (Z.to_int e))
            end))
  end.

Fixpoint showJs (v : JsValue) : string :=
  match v with
  | JsUndefined | JsFunction => "undefined"
  | JsNull => "null"
  | JsBool true => "true"
  | JsBool false => "false"
  | JsNumber x => showNumber x
  | JsString s => String.append "'" (String.append s "'")
  | JsArray elems =>
      String.append "["
        ((fix items (l : list JsValue) : string :=
            match l with
            | [] => "]"
            | e :: r => String.append (showJs e) (String.append "," (items r))
            end) elems)
  | JsObject props =>
      String.append "{"
        ((fix items (l : list (string * JsValue)) : string :=
            match l with
            | [] => "}"
            | kv :: r =>
                String.append (fst kv)
                  (String.append ":"
                     (String.append (showJs (snd kv))
                        (String.append "," (items r))))
            end) props)
  end.

(** A host over a counter PRNG and a clock that advances one millisecond
    per reading; the module's members, its validators and the argument
    generators are left to each example. *)
Definition demoHost (exports : string -> option Export)
    (validator : string -> nat -> Budgeted Result bool)
    (gen : ArgDef -> nat -> JsValue * nat) : Host :=
  {| Prng := nat;
     seedrandom := fun _ => 0%nat;
     GeneratorFactory := gen;
     JSON5_stringify := showJs;
     JSON5_copy := fun v => v;
     getTime := fun k => Z.of_nat k;
     ArgDef_isOptionValid := fun _ => true;
     mod_ := exports;
     validatorFn := validator |}.

(** Draws [true], [false], [true], ... *)
Definition alternatingBool (_ : ArgDef) (g : nat) : JsValue * nat :=
  (JsBool (Nat.even g), S g).

Definition noValidator : string -> nat -> Budgeted Result bool :=
  fun _ _ _ _ => Returns true.

Definition demoOptions (tests dupes : Z) : FuzzOptions :=
  {| maxTests := tests; maxDupeInputs := dupes; maxFailures := 0;
     suiteTimeout := 1000000; fnTimeout := 100; onlyFailures := false;
     useImplicit := true; useHuman := true; useProperty := true;
     seed := None; argDefaults := JsObject [] |}.

Definition boolArg : ArgDef :=
  {| arg_getName := "flag"; arg_getOffset := 0;
     arg_constraints := JsString "boolean" |}.

(** [export function f(flag: boolean): boolean { return flag; }] *)
Definition identityExports (n : string) : option Export :=
  if String.eqb n "f"
  then Some (ExportFunction
               (fun _ _ args => Returns (nth 0 args JsUndefined)))
  else None.

Definition envOf (opts : FuzzOptions) (args : list ArgDef)
    (vals : list FunctionRef) : FuzzEnv :=
  {| options := opts;
     function := {| getName := "f"; getModule := "demo.ts";
                    getArgDefs := args; isVoid := false |};
     validators := vals |}.

Definition pinnedOn (v : JsValue) : FuzzPinnedTest :=
  {| pt_input := [{| name := "flag"; offset := 0; value := v;
                     isTimeout := None; isException := None |}];
     pt_pinned := true; pt_expectedOutput := None |}.

(** [export function f(flag) { throw new Error("boom"); }] *)
Definition throwingExports (n : string) : option Export :=
  if String.eqb n "f"
  then Some (ExportFunction (fun _ _ _ => Throws (newError "boom")))
  else None.

(** [export function f(flag) { while (true) {} }] *)
Definition loopingExports (n : string) : option Export :=
  if String.eqb n "f"
  then Some (ExportFunction (fun _ _ _ => Overruns))
  else None.

(** [export function f(flag) { return "timeout or exception"; }] *)
Definition sentinelExports (n : string) : option Export :=
  if String.eqb n "f"
  then Some (ExportFunction
               (fun _ _ _ => Returns (JsString "timeout or exception")))
  else None.


(** Validators: [fValidatorThrows] throws, [fValidatorLoops] never
    returns, any other accepts. *)
Definition demoValidators : string -> nat -> Budgeted Result bool :=
  fun valFnName _ _ _ =>
    if String.eqb valFnName "fValidatorThrows"
    then Throws (newError "validator bug")
    else if String.eqb valFnName "fValidatorLoops" then Overruns
    else Returns true.

(** A validator that throws [null]: [throw null]. *)
Definition nullThrowingValidators : string -> nat -> Budgeted Result bool :=
  fun _ _ _ _ => Throws (ThrownPrimitive PrimNull).

(** [export function f(flag) { throw "boom"; }] *)
Definition stringThrowingExports (n : string) : option Export :=
  if String.eqb n "f"
  then Some (ExportFunction
               (fun _ _ _ => Throws (ThrownPrimitive (PrimString "boom"))))
  else None.

Definition withoutImplicit (o : FuzzOptions) : FuzzOptions :=
  {| maxTests := maxTests o; maxDupeInputs := maxDupeInputs o;
     maxFailures := maxFailures o; suiteTimeout := suiteTimeout o;
     fnTimeout := fnTimeout o; onlyFailures := onlyFailures o;
     useImplicit := false; useHuman := useHuman o;
     useProperty := useProperty o; seed := seed o;
     argDefaults := argDefaults o |}.

(** The result of running one test on the input [flag = true]. *)
Definition demoTest (host : Host) (env : FuzzEnv) : Exc FuzzTestResult :=
  match mod_ host (getName (function env)) with
  | Some (ExportFunction call) =>
      runTest host env (call 0%nat) 0
        (newResult false (pt_input (pinnedOn (JsBool true))) None)
  | _ => Raise (newError "no function")
  end.

Definition resultOr (fallback : FuzzTestResult) (x : Exc FuzzTestResult)
    : FuzzTestResult :=
  match x with Ok r => r | Raise _ => fallback end.

(** The results of a run that ends normally. *)
Definition demoRun (host : Host) (fuel : nat) (env : FuzzEnv)
    (pinned : list FuzzPinnedTest) : FuzzTestResults :=
  match fuzz host fuel env pinned with
  | Some (Ok res) => res
  | _ => {| res_env := env; stopReason := CRASH; elapsedTime := 0;
            res_inputsGenerated := 0; dupesGenerated := 0;
            inputsSaved := 0; results := [] |}
  end.

(** The stop reason and the final state of a run that ends normally. *)
Definition demoFinal (host : Host) (fuel : nat) (env : FuzzEnv)
    (pinned : list FuzzPinnedTest) : FuzzStopReason * LoopState host :=
  match fuzzRun host fuel env pinned with
  | Some (Ok stop) => stop
  | _ => (CRASH, initialState host env pinned)
  end.

(** A pinned test of a function without arguments. *)
Definition pinnedEmpty : FuzzPinnedTest :=
  {| pt_input := []; pt_pinned := true; pt_expectedOutput := None |}.

(** The state after one turn of the loop body. *)
Definition demoStep (host : Host) (env : FuzzEnv)
    (call : nat -> Budgeted (list JsValue) JsValue) (s : LoopState host)
    : LoopState host :=
  match loopBody host env call s with
  | Ok s' => s'
  | Raise _ => s
  end.

(** The two input hashes of a function of one boolean argument. *)
Definition boolSpace : gset string :=
  {[ showJs (ioListToJs (pt_input (pinnedOn (JsBool true))));
     showJs (ioListToJs (pt_input (pinnedOn (JsBool false)))) ]}.

(** Options with a suite timeout of three clock readings. *)
Definition hurriedOptions : FuzzOptions :=
  {| maxTests := 100; maxDupeInputs := 100; maxFailures := 0;
     suiteTimeout := 3; fnTimeout := 100; onlyFailures := false;
     useImplicit := true; useHuman := true; useProperty := true;
     seed := None; argDefaults := JsObject [] |}.

(** Validators: [fRejects] returns false, any other returns true. *)
Definition verdictValidators : string -> nat -> Budgeted Result bool :=
  fun valFnName _ _ _ =>
    if String.eqb valFnName "fRejects" then Returns false
    else Returns true.

(** A pinned test that expects the call to throw. *)
Definition pinnedExpectingException : FuzzPinnedTest :=
  {| pt_input := pt_input (pinnedOn (JsBool true)); pt_pinned := true;
     pt_expectedOutput :=
       Some [{| name := "0"; offset := 0; value := JsUndefined;
                isTimeout := None; isException := Some true |}] |}.

(** An error that carries the code of a script timeout. *)
Definition forgedTimeout : JsError :=
  {| code := Some "ERR_SCRIPT_EXECUTION_TIMEOUT"; message := "not really" |}.

(** A program with the function [sort], its validator [sortValidator]
    and a validator of another function, [sortByNameValidator]. *)
Definition demoProgram : ExportedFunctions :=
  let fn (n : string) (v : bool) : string * AnalysedFunction :=
    (n, {| fn_def := {| getName := n; getModule := "demo.ts";
                        getArgDefs := []; isVoid := false |};
           fn_isValidator := v;
           fn_getRef := {| ref_name := n |} |}) in
  [fn "sort" false; fn "sortValidator" true; fn "sortByName" false;
   fn "sortByNameValidator" true; fn "f" false].

(* ===================================================================== *)
(** ** Vocabulary of the specification *)
(* ===================================================================== *)

(** The "by outcome kind" sub-rule, in the specification's words:
    [exception] if the call threw, else [timeout] if it exceeded its
    budget, else [badValue]. *)
Definition byOutcomeKind (threw timedOut : bool) : FuzzResultCategory :=
  if threw then Category.exception
  else if timedOut then Category.timeout
  else Category.badValue.

(** The values the implicit oracle rejects on sight. *)
Definition Disallowed (x : JsValue) : Prop :=
  x = JsNull \/ x = JsUndefined \/ x = JsNumber S754_nan
  \/ x = JsNumber (S754_infinity false) \/ x = JsNumber (S754_infinity true).

(** [x] is, or recursively contains, a disallowed value: arrays are
    searched element-wise and objects value-wise. *)
Inductive ContainsDisallowed : JsValue -> Prop :=
| contains_here x : Disallowed x -> ContainsDisallowed x
| contains_element elems e :
    In e elems -> ContainsDisallowed e -> ContainsDisallowed (JsArray elems)
| contains_value props k v :
    In (k, v) props -> ContainsDisallowed v ->
    ContainsDisallowed (JsObject props).

(** The number [n], for small literals. *)
Definition num (n : Z) : JsValue := JsNumber (numberOfZ n).

(** Two results record the same call: the validators and the final
    categorisation leave these fields alone. *)
Definition SameCall (a b : FuzzTestResult) : Prop :=
  pinned a = pinned b /\ input a = input b /\ output a = output b
  /\ exception a = exception b /\ timeout a = timeout b
  /\ passedImplicit a = passedImplicit b /\ passedHuman a = passedHuman b
  /\ expectedOutput a = expectedOutput b.

(** The result as it stands when the validators start, [called] being
    the result as the call left it. *)
Definition tested (host : Host) (env : FuzzEnv) (called : FuzzTestResult)
    : FuzzTestResult :=
  applyHuman host env (applyImplicit env called).

(** The [code] property of a thrown object is that of a script
    timeout. *)
Definition hasTimeoutCode (c : option string) : bool :=
  match c with
  | Some c => String.eqb c "ERR_SCRIPT_EXECUTION_TIMEOUT"
  | None => false
  end.

(** The function under test throws objects only, never a value that is
    not an object. *)
Definition ThrowsObjects (call : nat -> Budgeted (list JsValue) JsValue)
    : Prop :=
  forall n budget args v, call n budget args <> Throws (ThrownPrimitive v).

(** The input an iteration took, and the dedup keys of the inputs a log
    holds, in order. *)
Definition eventInput (ev : Event) : list FuzzIoElement :=
  match ev with
  | Consumed t => pt_input t
  | Generated inp => inp
  end.

Definition seenHashes (host : Host) (log : list Event) : list string :=
  map (fun ev => stringifyIo host (eventInput ev)) log.

(** A bound on the iterations the loop can still make from [s]: every
    pinned test costs at most one duplicate and one reset of the
    duplicate counter, every new distinct input a reset, every
    duplicate one step. *)
Definition loopMeasure {host : Host} (env : FuzzEnv) (s : LoopState host)
    : Z :=
  let dupes := Z.max 0 (maxDupeInputs (options env)) in
  (2 * dupes + 2) * Z.of_nat (length (pinnedTests s))
  + (dupes + 1)
    * Z.max 0 (maxTests (options env)
               - (inputsGenerated s - totalDupeCount s))
  + Z.max 0 (maxDupeInputs (options env) - currentDupeCount s).

(** The pinned tests an event log consumed, in order of consumption. *)
Definition consumedTests (log : list Event) : list FuzzPinnedTest :=
  omap (fun ev => match ev with Consumed t => Some t | Generated _ => None end)
    log.

(** What a validator may do without ending the run: it does not run
    over the budget, and it throws neither [null] nor [undefined]. *)
Definition Recovered {A : Type} (c : Completion A) : Prop :=
  c <> Overruns
  /\ c <> Throws (ThrownPrimitive PrimNull)
  /\ c <> Throws (ThrownPrimitive PrimUndefined).

(** Every validator of the host's module stays within that, on every
    test. *)
Definition ValidatorsRecovered (host : Host) (env : FuzzEnv) : Prop :=
  forall valFn testNo vin,
    In valFn (validators env) ->
    Recovered
      (validatorFn host (ref_name valFn) testNo (fnTimeout (options env))
         vin).

(** A result records its call consistently: at most one of the two
    flags, an output slot exactly when neither is set, and a validator
    input whose [out] is the sentinel in the first case and the copied
    return value in the second. *)
Definition CallRecorded (host : Host) (r : FuzzTestResult) : Prop :=
  (exception r = true -> timeout r = true -> False)
  /\ (output r = [] <-> exception r = true \/ timeout r = true)
  /\ (output r <> [] -> length (output r) = 1%nat)
  /\ (exception r = true \/ timeout r = true ->
      res_out (validatorIn (copyResult host r))
      = JsString "timeout or exception")
  /\ (exception r = false -> timeout r = false ->
      exists e, output r = [e]
                /\ res_out (validatorIn (copyResult host r))
                   = JSON5_copy host (value e)).

(** The shape of the event log while a run drains [pinned]: the first
    [k] pinned tests in the order [pop] hands them out, which is from
    the end of the list, then generated inputs, none of them before the
    pool is empty. *)
Definition DrainedSoFar {host : Host} (pinned : list FuzzPinnedTest)
    (s : LoopState host) : Prop :=
  exists (k : nat) (gens : list (list FuzzIoElement)),
    (k <= length pinned)%nat
    /\ history s = map Consumed (take k (rev pinned)) ++ map Generated gens
    /\ pinnedTests s = rev (drop k (rev pinned))
    /\ (gens <> [] -> k = length pinned)
    /\ inputsGenerated s = Z.of_nat (length gens)
    /\ savedCount s = Z.of_nat k.

(** The dedup table against the log of the run: the table holds
    exactly the serialisations of the inputs taken so far, each of them
    was run once, every other turn was counted as a duplicate, and every
    pinned test taken was counted in [savedCount]. *)
Definition SeenSoFar {host : Host} (s : LoopState host) : Prop :=
  (dom (allInputs s) : gset string)
  = list_to_set (seenHashes host (history s))
  /\ calls s = size (dom (allInputs s) : gset string)
  /\ totalDupeCount s
     = Z.of_nat (length (history s)) - Z.of_nat (calls s)
  /\ savedCount s = Z.of_nat (length (consumedTests (history s))).

(** [inputsGenerated - totalDupeCount], the count that [maxTests]
    bounds, never exceeds the number of hashes of the input space that
    the dedup table holds. *)
Definition DistinctBound {host : Host} (space : gset string)
    (s : LoopState host) : Prop :=
  inputsGenerated s - totalDupeCount s
  <= Z.of_nat (size (dom (allInputs s) ∩ space)).

(** What validator [valFn] does on the call recorded in [result]. *)
Definition verdictOf (host : Host) (env : FuzzEnv) (testNo : nat)
    (valFn : FunctionRef) (result : FuzzTestResult) : Completion bool :=
  validatorFn host (ref_name valFn) testNo (fnTimeout (options env))
    (validatorIn (copyResult host result)).

(** The stop check of an iteration found no count at its limit. *)
Definition Unstopped {host : Host} (env : FuzzEnv) (s : LoopState host)
    : Prop :=
  inputsGenerated s - totalDupeCount s < maxTests (options env)
  /\ currentDupeCount s < maxDupeInputs (options env)
  /\ (maxFailures (options env) = 0
      \/ failureCount s < maxFailures (options env)).

(** The number of results whose category is not [ok]. *)
Definition failures (l : list FuzzTestResult) : nat :=
  length (List.filter (fun r => notOk (category r)) l).

(** How the counters of a run hang together: every iteration is a
    duplicate or a call, every call comes from a pinned test or from a
    generated input, every failure is stored. *)
Definition Accounting {host : Host} (env : FuzzEnv)
    (pinned : list FuzzPinnedTest) (s : LoopState host) : Prop :=
  Z.of_nat (calls s)
  = savedCount s + inputsGenerated s - totalDupeCount s
  /\ savedCount s + Z.of_nat (length (pinnedTests s))
     = Z.of_nat (length pinned)
  /\ 0 <= currentDupeCount s <= totalDupeCount s
  /\ (0 <= inputsGenerated s /\ 0 <= savedCount s)
  /\ (length (resultsSoFar s) <= calls s)%nat
  /\ (onlyFailures (options env) = false ->
      length (resultsSoFar s) = calls s)
  /\ (onlyFailures (options env) = true ->
      Forall (fun r => category r <> Category.ok) (resultsSoFar s))
  /\ failureCount s = Z.of_nat (failures (resultsSoFar s)).

(** No count is beyond its limit. *)
Definition WithinLimits {host : Host} (env : FuzzEnv) (s : LoopState host)
    : Prop :=
  inputsGenerated s - totalDupeCount s <= maxTests (options env)
  /\ currentDupeCount s <= maxDupeInputs (options env)
  /\ (maxFailures (options env) <> 0 ->
      failureCount s <= maxFailures (options env)).

(** The dedup key of a stored result. *)
Definition hashOfResult (host : Host) (r : FuzzTestResult) : string :=
  stringifyIo host (input r).

(** Where a stored result got its input from: a pinned test of the
    pool, whose flag and expected output it carries, or the generators,
    one value per argument under the argument's name and offset. *)
Definition Provenance (env : FuzzEnv) (pool : list FuzzPinnedTest)
    (r : FuzzTestResult) : Prop :=
  (exists t,
      In t pool /\ input r = pt_input t /\ pinned r = pt_pinned t
      /\ expectedOutput r = pt_expectedOutput t)
  \/ (pinned r = false /\ expectedOutput r = None
      /\ map name (input r)
         = map arg_getName (getArgDefs (function env))
      /\ map offset (input r)
         = map arg_getOffset (getArgDefs (function env))).

(** Whether the call of a test is recorded as a timeout. *)
Definition recordedAsTimeout {A : Type} (c : Completion A) : bool :=
  match c with
  | Returns _ => false
  | Throws e =>
      match isTimeoutError e with
      | Ok timedOut => timedOut
      | Raise _ => false
      end
  | Overruns => true
  end.

(** Whether the first expected output carries the mark [which]. *)
Definition expectsMark (which : FuzzIoElement -> option bool)
    (expected : list FuzzIoElement) : bool :=
  match expected with
  | e :: _ => truthy (which e)
  | [] => false
  end.

(** The string holds no dot. *)
Fixpoint dotFree (s : string) : bool :=
  match s with
  | EmptyString => true
  | String c rest => negb (Ascii.eqb c "."%char) && dotFree rest
  end.

(** The saved test becomes a Jest test: it is pinned and does not
    expect a timeout. *)
Definition exported (test : FuzzPinnedTest) : bool :=
  pt_pinned test
  && negb (match pt_expectedOutput test with
           | Some (e :: _) => truthy (isTimeout e)
           | _ => false
           end).

(** The saved tests of a function that become Jest tests, in order. *)
Definition exportedTests (tests : list (string * FuzzPinnedTest))
    : list FuzzPinnedTest :=
  List.filter exported (map snd tests).

(** A decimal printer for the examples. *)
Definition showZ (n : Z) : string :=
  NilZero.string_of_int (Z.to_int n).

(** Saved tests of a function [f]: one pinned with an expected value,
    one not pinned, one pinned expecting a timeout, one pinned with no
    expectation. *)
Definition savedTests : list (string * list (string * FuzzPinnedTest)) :=
  [ ("f",
     [ ("a", {| pt_input := [ {| name := "x"; offset := 0;
                                 value := JsBool true;
                                 isTimeout := None; isException := None |} ];
                pt_pinned := true;
                pt_expectedOutput :=
                  Some [ {| name := "0"; offset := 0; value := JsBool true;
                            isTimeout := None; isException := None |} ] |});
       ("b", {| pt_input := []; pt_pinned := false;
                pt_expectedOutput := None |});
       ("c", {| pt_input := []; pt_pinned := true;
                pt_expectedOutput :=
                  Some [ {| name := "0"; offset := 0; value := JsUndefined;
                            isTimeout := Some true;
                            isException := None |} ] |});
       ("d", {| pt_input := []; pt_pinned := true;
                pt_expectedOutput := None |}) ]) ].

(* ===================================================================== *)
(** * Properties *)
(* ===================================================================== *)

(** ** The implicit oracle *)

Lemma implicitOracle_array (elems : list JsValue) :
  implicitOracle (JsArray elems)
  = negb (some (fun e => negb (implicitOracle e)) (flat elems)).
Proof.
  cbn [implicitOracle]. f_equal. unfold some, flat.
  induction elems as [|e r IH]; [reflexivity|].
  cbn [flat_map]. rewrite existsb_app, <- IH.
  destruct e as [| | | | | |inner|];
    try (cbn [existsb]; rewrite orb_false_r; reflexivity).
  induction inner as [|e' r' IH']; [reflexivity|].
  cbn [existsb]. rewrite <- orb_assoc, <- IH'. reflexivity.
Qed.

Lemma implicitOracle_object (props : list (string * JsValue)) :
  implicitOracle (JsObject props)
  = negb (some (fun e => negb (implicitOracle e)) (Object_values props)).
Proof.
  cbn [implicitOracle]. f_equal. unfold some, Object_values.
  induction props as [|kv r IH]; [reflexivity|].
  cbn [map existsb]. rewrite <- IH. reflexivity.
Qed.

(** Flattening one level before the search changes nothing: an array
    passes exactly when each of its elements passes. *)
Lemma implicitOracle_array_elementwise (elems : list JsValue) :
  implicitOracle (JsArray elems)
  = negb (existsb (fun e => negb (implicitOracle e)) elems).
Proof.
  set (g := fun e => negb (implicitOracle e)).
  enough (H : forall x l, x = JsArray l ->
                implicitOracle (JsArray l) = negb (existsb g l))
    by (apply (H (JsArray elems)); reflexivity).
  clear elems. intros x.
  induction x as [| | | | | |elems IH|props _] using JsValue_nested_ind;
    intros l Hx; try discriminate.
  injection Hx as <-.
  rewrite implicitOracle_array. unfold some, flat. fold g. f_equal.
  induction IH as [|e r He _ IHr]; [reflexivity|].
  cbn [flat_map existsb]. rewrite existsb_app, IHr. f_equal.
  destruct e as [| | | | | |inner|];
    cbn [existsb]; rewrite ?orb_false_r; try reflexivity.
  unfold g at 2. rewrite (He inner eq_refl), negb_involutive. reflexivity.
Qed.

Lemma implicitOracle_number (x : spec_float) :
  implicitOracle (JsNumber x) = false <->
  x = S754_nan \/ x = S754_infinity false \/ x = S754_infinity true.
Proof.
  cbn [implicitOracle].
  destruct x as [s|[|]| |s m e]; cbn; split; intros H; auto;
    try discriminate; destruct H as [H|[H|H]]; discriminate.
Qed.

Lemma implicitOracle_false_iff (x : JsValue) :
  implicitOracle x = false <-> ContainsDisallowed x.
Proof.
  induction x as [| | | | | |elems IH|props IH] using JsValue_nested_ind.
  - split; [intros _|reflexivity]. apply contains_here. unfold Disallowed. auto.
  - split; [intros _|reflexivity]. apply contains_here. unfold Disallowed. auto.
  - split; [discriminate|]. intros H. inversion H as [x Hd| |]; subst.
    destruct Hd as [Hd|[Hd|[Hd|[Hd|Hd]]]]; discriminate.
  - rewrite implicitOracle_number. split.
    + intros H. apply contains_here. unfold Disallowed.
      destruct H as [ -> | [ -> | -> ] ]; auto.
    + intros H. inversion H as [y Hd| |]; subst.
      destruct Hd as [Hd|[Hd|[Hd|[Hd|Hd]]]]; try discriminate;
        injection Hd as ->; auto.
  - split; [discriminate|]. intros H. inversion H as [x Hd| |]; subst.
    destruct Hd as [Hd|[Hd|[Hd|[Hd|Hd]]]]; discriminate.
  - split; [discriminate|]. intros H. inversion H as [x Hd| |]; subst.
    destruct Hd as [Hd|[Hd|[Hd|[Hd|Hd]]]]; discriminate.
  - rewrite implicitOracle_array_elementwise, negb_false_iff, existsb_exists.
    rewrite Forall_forall in IH. split.
    + intros (e & Hin & He). apply negb_true_iff in He.
      apply contains_element with e; [exact Hin|].
      apply IH; [apply list_elem_of_In; exact Hin | exact He].
    + intros H. inversion H as [x Hd|l e Hin He|]; subst.
      * destruct Hd as [Hd|[Hd|[Hd|[Hd|Hd]]]]; discriminate.
      * exists e. split; [exact Hin|]. apply negb_true_iff.
        apply IH; [apply list_elem_of_In; exact Hin | exact He].
  - rewrite implicitOracle_object, negb_false_iff. unfold some, Object_values.
    rewrite existsb_exists. rewrite Forall_forall in IH. split.
    + intros (v & Hin & Hv). apply negb_true_iff in Hv.
      apply in_map_iff in Hin as ([k v'] & Heq & Hin). cbn in Heq. subst v'.
      apply contains_value with k v; [exact Hin|].
      apply (IH (k, v)); [apply list_elem_of_In; exact Hin | exact Hv].
    + intros H. inversion H as [x Hd| |l k v Hin Hv]; subst.
      * destruct Hd as [Hd|[Hd|[Hd|[Hd|Hd]]]]; discriminate.
      * exists v. split; [apply in_map_iff; exists (k, v); auto|].
        apply negb_true_iff.
        apply (IH (k, v)); [apply list_elem_of_In; exact Hin | exact Hv].
Qed.

(** ** The classifier and the stop conditions *)

(** C1. On a result that records no validator exception,
    [categorizeResult] merges the human and property verdicts by the
    precedence table, falling back on the implicit verdict and on the
    outcome kind. *)
Theorem categorizeResult_precedence_table
    (result : FuzzTestResult) (env : FuzzEnv) :
  validatorException result = false ->
  let human := passedHuman result in
  let property := passedValidator result in
  let kind := byOutcomeKind (exception result) (timeout result) in
  let c := categorizeResult result env in
  (human = Some true -> property = Some false -> c = Category.disagree)
  /\ (human = Some true -> property = Some true \/ property = None ->
      c = Category.ok)
  /\ (human = Some false -> property = Some true -> c = Category.disagree)
  /\ (human = Some false -> property = Some false \/ property = None ->
      c = kind)
  /\ (human = None -> property = Some true -> c = Category.ok)
  /\ (human = None -> property = Some false -> c = Category.badValue)
  /\ (human = None -> property = None ->
      c = if passedImplicit result then Category.ok else kind).
Proof.
  intros Hve. cbv zeta. unfold categorizeResult, byOutcomeKind.
  rewrite Hve.
  repeat split; intros Hh Hp; rewrite Hh;
    try (destruct Hp as [Hp|Hp]); rewrite Hp; cbn;
    destruct (passedImplicit result); reflexivity.
Qed.

Lemma categorizeResult_precedence_table_witness :
  categorizeResult
    (set_exception true None
       (set_passedValidator (Some false)
          (set_passedHuman (Some false) (newResult true [] None))))
    (envOf (demoOptions 5 100) [boolArg] [])
  = Category.exception.
Proof.
  refine (proj1 (proj2 (proj2 (proj2
    (categorizeResult_precedence_table _ _ _)))) _ _);
    cbn; auto.
Defined.

(** C3. [_checkStopCondition] tries the four stop conditions in the
    order time, tests, failures, duplicates; the first that holds gives
    the reason, and none holding gives no reason. *)
Theorem checkStopCondition_priority (env : FuzzEnv)
    (inputsGenerated currentDupeCount totalDupeCount failureCount : Z)
    (startTime now : Z) :
  let o := options env in
  let stop := _checkStopCondition env inputsGenerated currentDupeCount
                totalDupeCount failureCount startTime now in
  let time := now - startTime >= suiteTimeout o in
  let tests := inputsGenerated - totalDupeCount >= maxTests o in
  let failures := maxFailures o <> 0 /\ failureCount >= maxFailures o in
  let dupes := currentDupeCount >= maxDupeInputs o in
  (time -> stop = Some MAXTIME)
  /\ (~ time -> tests -> stop = Some MAXTESTS)
  /\ (~ time -> ~ tests -> failures -> stop = Some MAXFAILURES)
  /\ (~ time -> ~ tests -> ~ failures -> dupes -> stop = Some MAXDUPES)
  /\ (~ time -> ~ tests -> ~ failures -> ~ dupes -> stop = None).
Proof.
  cbv zeta. unfold _checkStopCondition.
  destruct (Z.geb_spec (now - startTime) (suiteTimeout (options env)));
  destruct (Z.geb_spec (inputsGenerated - totalDupeCount)
              (maxTests (options env)));
  destruct (Z.eqb_spec (maxFailures (options env)) 0);
  destruct (Z.geb_spec failureCount (maxFailures (options env)));
  destruct (Z.geb_spec currentDupeCount (maxDupeInputs (options env)));
  cbn; repeat split; intros; try reflexivity; try lia; tauto.
Qed.

Lemma checkStopCondition_priority_witness :
  _checkStopCondition (envOf (demoOptions 5 100) [boolArg] [])
    7 100 2 0 0 10 = Some MAXTESTS.
Proof.
  refine (proj1 (proj2
    (checkStopCondition_priority _ 7 100 2 0 0 10)) _ _); cbn; lia.
Defined.

(** ** One test *)

Section PipelineFacts.
Variable host : Host.

Lemma SameCall_refl (a : FuzzTestResult) : SameCall a a.
Proof. repeat split. Qed.

Lemma SameCall_trans (a b c : FuzzTestResult) :
  SameCall a b -> SameCall b c -> SameCall a c.
Proof.
  unfold SameCall. intros H1 H2.
  repeat match goal with H : _ /\ _ |- _ => destruct H end.
  repeat split; congruence.
Qed.

(** The validator's input depends on the recorded call only. *)
Lemma validatorIn_SameCall (a b : FuzzTestResult) :
  SameCall a b ->
  validatorIn (copyResult host a) = validatorIn (copyResult host b).
Proof.
  unfold SameCall, validatorIn, copyResult. cbn.
  intros (_ & -> & -> & -> & -> & _). reflexivity.
Qed.

(** An iteration of the validator loop: what the wrapper gives back,
    and what the loop then stores. *)
Lemma validatorFnWrapper_cases (env : FuzzEnv) (testNo : nat)
    (valFnName : string) (copy : FuzzTestResult) :
  match validatorFn host valFnName testNo (fnTimeout (options env))
          (validatorIn copy) with
  | Returns b =>
      functionTimeout (validatorBody host valFnName testNo)
        (fnTimeout (options env)) copy
      = Ok (set_passedValidators (Some [])
              (set_passedValidator (Some b) copy))
  | Throws e =>
      functionTimeout (validatorBody host valFnName testNo)
        (fnTimeout (options env)) copy
      = match messageOf e with
        | Ok msg =>
            Ok (set_validatorException true (Some valFnName) msg copy)
        | Raise typeErr => Raise typeErr
        end
  | Overruns =>
      functionTimeout (validatorBody host valFnName testNo)
        (fnTimeout (options env)) copy
      = Raise scriptTimeoutError
  end.
Proof.
  unfold functionTimeout, validatorBody.
  destruct (validatorFn host valFnName testNo _ _) as [b|e|];
    try reflexivity.
  destruct (messageOf e); reflexivity.
Qed.

Lemma forValidators_frame (env : FuzzEnv) (testNo : nat)
    (vals : list FunctionRef) (result r : FuzzTestResult) :
  forValidators host env testNo vals result = Ok r -> SameCall result r.
Proof.
  revert result. induction vals as [|valFn rest IH]; intros result H.
  - injection H as <-. apply SameCall_refl.
  - cbn [forValidators] in H. cbv zeta in H.
    destruct (functionTimeout _ _ _) as [validatorResult|e];
      [|discriminate].
    cbn [bindExc] in H. apply IH in H.
    eapply SameCall_trans; [|exact H]. repeat split.
Qed.

(** Once the verdict vector exists it stays. *)
Lemma forValidators_vector (env : FuzzEnv) (testNo : nat)
    (vals : list FunctionRef) (result r : FuzzTestResult) :
  forValidators host env testNo vals result = Ok r ->
  passedValidators result <> None -> passedValidators r <> None.
Proof.
  revert result. induction vals as [|valFn rest IH]; intros result H Hv.
  - injection H as <-. exact Hv.
  - cbn [forValidators] in H. cbv zeta in H.
    destruct (functionTimeout _ _ _) as [validatorResult|e];
      [|discriminate].
    cbn [bindExc] in H. apply IH in H; [exact H|].
    cbn. destruct (passedValidators result); [discriminate|contradiction].
Qed.

Lemma applyValidators_frame (env : FuzzEnv) (testNo : nat)
    (result r : FuzzTestResult) :
  applyValidators host env testNo result = Ok r -> SameCall result r.
Proof.
  unfold applyValidators.
  destruct (negb _ && _); [|intros H; injection H as <-; apply SameCall_refl].
  destruct (forValidators _ _ _ _ _) as [r'|e] eqn:Hfor; [|discriminate].
  cbn [bindExc]. intros H. injection H as <-.
  apply forValidators_frame in Hfor.
  eapply SameCall_trans; [|eapply SameCall_trans; [exact Hfor|]];
    repeat split.
Qed.

(** When no verdict vector is left behind, the validators did not run. *)
Lemma applyValidators_not_run (env : FuzzEnv) (testNo : nat)
    (result r : FuzzTestResult) :
  applyValidators host env testNo result = Ok r ->
  passedValidators r = None -> r = result.
Proof.
  unfold applyValidators.
  destruct (negb _ && _); [|intros H; injection H as <-; reflexivity].
  destruct (forValidators _ _ _ _ _) as [r'|e] eqn:Hfor; [|discriminate].
  cbn [bindExc]. intros H Hnone. injection H as <-. cbn in Hnone.
  apply forValidators_vector in Hfor; [contradiction|]. cbn. discriminate.
Qed.

(** A test that gives a result recorded its call first, and then ran
    the validators on it. *)
Lemma runTest_called (env : FuzzEnv)
    (target : Budgeted (list JsValue) JsValue) (testNo : nat)
    (result r : FuzzTestResult) :
  runTest host env target testNo result = Ok r ->
  exists called checked,
    callFunction host env target result = Ok called
    /\ applyValidators host env testNo (tested host env called)
       = Ok checked
    /\ r = set_category (categorizeResult checked env) checked.
Proof.
  unfold runTest, tested.
  destruct (callFunction _ _ _ _) as [called|e]; [|discriminate].
  cbn [bindExc]. cbv zeta.
  destruct (applyValidators _ _ _ _) as [checked|e] eqn:Hval;
    [|discriminate].
  cbn [bindExc]. intros H. injection H as <-.
  exists called, checked. repeat split. exact Hval.
Qed.

(** Conversely, a recorded call and validators that give a result make
    the test give one. *)
Lemma runTest_of_called (env : FuzzEnv)
    (target : Budgeted (list JsValue) JsValue) (testNo : nat)
    (result called checked : FuzzTestResult) :
  callFunction host env target result = Ok called ->
  applyValidators host env testNo (tested host env called) = Ok checked ->
  runTest host env target testNo result
  = Ok (set_category (categorizeResult checked env) checked).
Proof.
  unfold runTest, tested. intros -> Hval. cbn [bindExc]. cbv zeta.
  rewrite Hval. reflexivity.
Qed.

Lemma runTest_frame (env : FuzzEnv)
    (target : Budgeted (list JsValue) JsValue) (testNo : nat)
    (result r : FuzzTestResult) :
  runTest host env target testNo result = Ok r ->
  exists called,
    callFunction host env target result = Ok called
    /\ SameCall (tested host env called) r.
Proof.
  intros H. apply runTest_called in H as (called & checked & Hc & Hval & ->).
  exists called. split; [exact Hc|].
  apply applyValidators_frame in Hval.
  eapply SameCall_trans; [exact Hval|]. repeat split.
Qed.

(** How the call is recorded, lines 211-230. *)
Lemma callFunction_cases (env : FuzzEnv)
    (target : Budgeted (list JsValue) JsValue) (result : FuzzTestResult) :
  let args := map value (map (copyIo host) (input result)) in
  let r := callFunction host env target result in
  match target (fnTimeout (options env)) args with
  | Returns v =>
      r = Ok (set_output
                (output result
                 ++ [{| name := "0"; offset := 0; value := v;
                        isTimeout := None; isException := None |}]) result)
  | Throws (ThrownObject c m) =>
      r = Ok (if hasTimeoutCode c then set_timeout true result
              else set_exception true m result)
  | Throws (ThrownPrimitive _) =>
      r = Raise (typeError "Cannot use 'in' operator to search for 'code'")
  | Overruns => r = Ok (set_timeout true result)
  end.
Proof.
  cbv zeta. unfold callFunction, fnWrapper, functionTimeout.
  destruct (target _ _) as [v|[c m|v]|]; try reflexivity.
  cbn. unfold hasTimeoutCode.
  destruct (match c with Some _ => _ | None => _ end); reflexivity.
Qed.

(** The call is recorded whenever what it throws is an object. *)
Lemma callFunction_total (env : FuzzEnv)
    (target : Budgeted (list JsValue) JsValue) (result : FuzzTestResult) :
  (forall v,
      target (fnTimeout (options env))
        (map value (map (copyIo host) (input result)))
      <> Throws (ThrownPrimitive v)) ->
  exists called, callFunction host env target result = Ok called.
Proof.
  intros Hobj. pose proof (callFunction_cases env target result) as H.
  cbv zeta in H.
  destruct (target _ _) as [v|[c m|v]|]; try (eexists; exact H).
  exfalso. exact (Hobj v eq_refl).
Qed.

Lemma applyImplicit_call (env : FuzzEnv) (result : FuzzTestResult) :
  let r := applyImplicit env result in
  pinned r = pinned result /\ input r = input result
  /\ output r = output result /\ exception r = exception result
  /\ timeout r = timeout result /\ passedHuman r = passedHuman result
  /\ expectedOutput r = expectedOutput result
  /\ validatorException r = validatorException result
  /\ passedValidator r = passedValidator result
  /\ passedValidators r = passedValidators result.
Proof.
  cbv zeta. unfold applyImplicit.
  destruct (useImplicit _); [|repeat split].
  destruct (exception result || timeout result); [repeat split|].
  destruct (isVoid _); repeat split.
Qed.

Lemma applyHuman_call (env : FuzzEnv) (result : FuzzTestResult) :
  let r := applyHuman host env result in
  pinned r = pinned result /\ input r = input result
  /\ output r = output result /\ exception r = exception result
  /\ timeout r = timeout result
  /\ passedImplicit r = passedImplicit result
  /\ expectedOutput r = expectedOutput result
  /\ validatorException r = validatorException result
  /\ passedValidator r = passedValidator result
  /\ passedValidators r = passedValidators result.
Proof.
  cbv zeta. unfold applyHuman.
  destruct (useHuman _); [|repeat split].
  destruct (expectedOutput result) eqn:E; repeat split; cbn; auto.
Qed.

End PipelineFacts.

Lemma implicitOracle_ioToJs (e : FuzzIoElement) :
  implicitOracle (ioToJs e) = implicitOracle (value e).
Proof.
  unfold ioToJs. rewrite implicitOracle_object. unfold some, Object_values.
  destruct (isTimeout e), (isException e), (offset e); cbn;
    destruct (implicitOracle (value e)); reflexivity.
Qed.

(** C2. [implicitOracle] rejects exactly the values that are, or
    recursively contain, null, undefined, NaN or an infinity, and accepts
    all others; and with [useImplicit] set, a test whose call threw or
    timed out fails the implicit oracle, as does a test of a void
    function whose output is not undefined. *)
Theorem implicitOracle_rejects_exactly :
  (forall x, implicitOracle x = false <-> ContainsDisallowed x)
  /\ (forall x, implicitOracle x = true <-> ~ ContainsDisallowed x)
  /\ implicitOracle
       (JsObject [("a", num 1);
                  ("b", JsArray [num 1; num 2; JsNumber S754_nan])]) = false
  /\ implicitOracle
       (JsObject [("a", num 1); ("b", JsArray [num 1; num 2])]) = true
  /\ implicitOracle JsUndefined = false
  /\ (forall (host : Host) (env : FuzzEnv)
             (target : Budgeted (list JsValue) JsValue) (testNo : nat)
             (result r : FuzzTestResult),
        useImplicit (options env) = true ->
        runTest host env target testNo result = Ok r ->
        (exception r = true \/ timeout r = true ->
         passedImplicit r = false)
        /\ (isVoid (function env) = true ->
            forall e, In e (output r) -> value e <> JsUndefined ->
            passedImplicit r = false)).
Proof.
  split; [exact implicitOracle_false_iff|].
  split.
  { intros x. rewrite <- implicitOracle_false_iff.
    destruct (implicitOracle x); split; congruence. }
  split; [reflexivity|]. split; [reflexivity|]. split; [reflexivity|].
  intros host env target testNo result r Himp Hrun.
  apply runTest_frame in Hrun as (called & _ & Hrun).
  destruct Hrun as (_ & _ & Hout & Hexc & Hto & Hpi & _).
  unfold tested in *.
  destruct (applyHuman_call host env (applyImplicit env called))
    as (_ & _ & Hout' & Hexc' & Hto' & Hpi' & _).
  rewrite Hout' in Hout. rewrite Hexc' in Hexc. rewrite Hto' in Hto.
  rewrite Hpi' in Hpi. clear Hout' Hexc' Hto' Hpi'.
  destruct (applyImplicit_call env called)
    as (_ & _ & Hout' & Hexc' & Hto' & _).
  rewrite Hout' in Hout. rewrite Hexc' in Hexc. rewrite Hto' in Hto.
  clear Hout' Hexc' Hto'.
  unfold applyImplicit in Hpi. rewrite Himp in Hpi.
  rewrite Hexc, Hto, Hout in Hpi.
  split.
  - intros Hfail. rewrite <- Hpi.
    destruct Hfail as [-> | ->]; rewrite ?orb_true_r; reflexivity.
  - intros Hvoid e Hin Hdef. rewrite <- Hpi, Hvoid.
    destruct (exception r || timeout r); [reflexivity|].
    cbn. apply negb_false_iff. unfold some. apply existsb_exists.
    exists e. split; [exact Hin|].
    destruct (value e) eqn:E; try reflexivity. congruence.
Qed.

Lemma implicitOracle_rejects_exactly_witness :
  passedImplicit
    (resultOr (newResult false [] None)
       (demoTest (demoHost throwingExports noValidator alternatingBool)
          (envOf (demoOptions 5 100) [boolArg] [])))
  = false.
Proof.
  refine (proj1
    (proj2 (proj2 (proj2 (proj2 (proj2 implicitOracle_rejects_exactly))))
       (demoHost throwingExports noValidator alternatingBool)
       (envOf (demoOptions 5 100) [boolArg] [])
       (fun _ _ => Throws (newError "boom")) 0%nat
       (newResult false (pt_input (pinnedOn (JsBool true))) None)
       _ eq_refl eq_refl) (or_introl eq_refl)).
Defined.

Section ValidatorFacts.
Variable host : Host.
Variable env : FuzzEnv.
Variable testNo : nat.

(** One turn of the validator loop, by what the validator does. *)
Lemma forValidators_step (valFn : FunctionRef) (rest : list FunctionRef)
    (result : FuzzTestResult) :
  forValidators host env testNo (valFn :: rest) result
  = match verdictOf host env testNo valFn result with
    | Returns b =>
        forValidators host env testNo rest
          (set_validatorException (validatorException result)
             (validatorExceptionFunction result)
             (validatorExceptionMessage result)
             (push_passedValidators (Some b)
                (set_category (categorizeResult result env) result)))
    | Throws e =>
        match messageOf e with
        | Ok msg =>
            forValidators host env testNo rest
              (set_validatorException true (Some (ref_name valFn)) msg
                 (push_passedValidators (passedValidator result)
                    (set_category (categorizeResult result env) result)))
        | Raise typeErr => Raise typeErr
        end
    | Overruns => Raise scriptTimeoutError
    end.
Proof.
  cbn [forValidators]. cbv zeta.
  pose proof (validatorFnWrapper_cases host env testNo (ref_name valFn)
                (copyResult host
                   (set_category (categorizeResult result env) result)))
    as Hw.
  unfold verdictOf.
  change (validatorIn (copyResult host
            (set_category (categorizeResult result env) result)))
    with (validatorIn (copyResult host result)) in Hw.
  destruct (validatorFn host (ref_name valFn) testNo _ _) as [b|e|];
    rewrite Hw; try reflexivity.
  destruct (messageOf e); reflexivity.
Qed.

Lemma verdict_SameCall (valFn : FunctionRef) (a b : FuzzTestResult) :
  SameCall a b ->
  verdictOf host env testNo valFn a = verdictOf host env testNo valFn b.
Proof.
  intros H. unfold verdictOf. rewrite (validatorIn_SameCall host a b H).
  reflexivity.
Qed.

(** The message of a thrown value can be read unless the value is
    [null] or [undefined]. *)
Lemma messageOf_Recovered {A : Type} (e : JsThrown) :
  Recovered (@Throws A e) -> exists msg, messageOf e = Ok msg.
Proof.
  intros (_ & Hnull & Hundef).
  destruct e as [c m|[| |b|x|str]]; try (eexists; reflexivity);
    exfalso; auto.
Qed.

(** A recorded validator exception survives the remaining validators:
    each of them is handed a copy that carries the flag, and gives it
    back. *)
Lemma forValidators_exception_sticks (vals : list FunctionRef)
    (result r : FuzzTestResult) :
  forValidators host env testNo vals result = Ok r ->
  validatorException result = true -> validatorException r = true.
Proof.
  revert result. induction vals as [|valFn rest IH]; intros result H Hve.
  - injection H as <-. exact Hve.
  - rewrite forValidators_step in H.
    destruct (verdictOf host env testNo valFn result) as [b|e|];
      [|destruct (messageOf e); [|discriminate]|discriminate];
      apply IH in H; auto.
Qed.

Lemma forValidators_throw_recorded (vals : list FunctionRef)
    (result r : FuzzTestResult) :
  (exists valFn e,
      In valFn vals /\ verdictOf host env testNo valFn result = Throws e) ->
  forValidators host env testNo vals result = Ok r ->
  validatorException r = true.
Proof.
  revert result. induction vals as [|valFn rest IH];
    intros result (v & e & Hin & Hthrow) H.
  - destruct Hin.
  - rewrite forValidators_step in H. destruct Hin as [<- | Hin].
    + rewrite Hthrow in H. destruct (messageOf e); [|discriminate].
      apply forValidators_exception_sticks in H; auto.
    + destruct (verdictOf host env testNo valFn result) as [b|e0|];
        [|destruct (messageOf e0); [|discriminate]|discriminate];
        (apply IH in H; [exact H|]); exists v, e; (split; [exact Hin|]);
        rewrite <- Hthrow; apply verdict_SameCall; repeat split.
Qed.

Lemma forValidators_total (vals : list FunctionRef)
    (result : FuzzTestResult) :
  (forall valFn,
      In valFn vals ->
      Recovered (verdictOf host env testNo valFn result)) ->
  exists r, forValidators host env testNo vals result = Ok r.
Proof.
  revert result. induction vals as [|valFn rest IH]; intros result Hno.
  - eexists. reflexivity.
  - rewrite forValidators_step.
    pose proof (Hno valFn (or_introl eq_refl)) as Hhead.
    destruct (verdictOf host env testNo valFn result) as [b|e|] eqn:Hv.
    + apply IH. intros w Hin.
      rewrite <- (verdict_SameCall w result); auto using in_cons.
      repeat split.
    + destruct (messageOf_Recovered e Hhead) as (msg & ->).
      apply IH. intros w Hin.
      rewrite <- (verdict_SameCall w result); auto using in_cons.
      repeat split.
    + destruct Hhead as (Hover & _). contradiction.
Qed.

Lemma applyValidators_total (result : FuzzTestResult) :
  (forall valFn, In valFn (validators env) ->
     Recovered (verdictOf host env testNo valFn result)) ->
  exists r, applyValidators host env testNo result = Ok r.
Proof.
  intros Hno. unfold applyValidators.
  destruct (negb _ && _); [|eexists; reflexivity].
  destruct (forValidators_total (validators env)
              (set_passedValidators (Some []) result)) as (r & Hr).
  - intros v Hin.
    rewrite <- (verdict_SameCall v result); auto. repeat split.
  - rewrite Hr. eexists. reflexivity.
Qed.

(** A test gives a result when its call is recorded and every validator
    is recovered on it. *)
Lemma runTest_total (target : Budgeted (list JsValue) JsValue)
    (result called : FuzzTestResult) :
  callFunction host env target result = Ok called ->
  (forall valFn, In valFn (validators env) ->
     Recovered (verdictOf host env testNo valFn (tested host env called))) ->
  exists r, runTest host env target testNo result = Ok r.
Proof.
  intros Hcall Hno.
  destruct (applyValidators_total _ Hno) as (r & Hr).
  eexists. exact (runTest_of_called host env target testNo _ _ _ Hcall Hr).
Qed.

Lemma runTest_validator_throws (target : Budgeted (list JsValue) JsValue)
    (result called r : FuzzTestResult) :
  callFunction host env target result = Ok called ->
  useProperty (options env) = true ->
  (exists valFn e, In valFn (validators env)
     /\ verdictOf host env testNo valFn (tested host env called)
        = Throws e) ->
  runTest host env target testNo result = Ok r ->
  validatorException r = true /\ category r = Category.failure.
Proof.
  intros Hcall Hprop Hthrow Hrun.
  apply runTest_called in Hrun as (called' & r' & Hcall' & Hval & ->).
  rewrite Hcall in Hcall'. injection Hcall' as <-.
  assert (Hve : validatorException r' = true).
  { unfold applyValidators in Hval. rewrite Hprop in Hval.
    destruct Hthrow as (v & e & Hin & Hv).
    destruct (validators env) as [|v0 vs] eqn:Hvals; [destruct Hin|].
    cbn [length Nat.eqb negb andb] in Hval.
    destruct (forValidators _ _ _ _ _) as [r''|e''] eqn:Hfor;
      [|discriminate].
    cbn [bindExc] in Hval. injection Hval as <-. cbn.
    apply (forValidators_throw_recorded _ _ _) in Hfor; [exact Hfor|].
    exists v, e. split; [exact Hin|].
    rewrite <- Hv. apply verdict_SameCall. repeat split. }
  cbn. unfold categorizeResult. rewrite Hve. auto.
Qed.

End ValidatorFacts.

(** X19. A test on which some enabled validator throws, and which gets
    a result, ends in the category [failure], whatever the implicit
    verdict, the human verdict and the other validators say.  It gets a
    result when no validator runs over its time budget or throws [null]
    or [undefined]. *)
Theorem validator_exception_is_failure (host : Host) (env : FuzzEnv)
    (target : Budgeted (list JsValue) JsValue) (testNo : nat)
    (result called : FuzzTestResult) :
  let verdict (valFn : FunctionRef) :=
    validatorFn host (ref_name valFn) testNo (fnTimeout (options env))
      (validatorIn (copyResult host (tested host env called))) in
  callFunction host env target result = Ok called ->
  useProperty (options env) = true ->
  (exists valFn e, In valFn (validators env) /\ verdict valFn = Throws e) ->
  (forall r, runTest host env target testNo result = Ok r ->
             category r = Category.failure)
  /\ ((forall valFn, In valFn (validators env) ->
         Recovered (verdict valFn)) ->
      exists r, runTest host env target testNo result = Ok r
                /\ category r = Category.failure).
Proof.
  cbv zeta. intros Hcall Hprop Hthrow. split.
  - intros r Hr.
    apply (runTest_validator_throws host env testNo target result called r);
      auto.
  - intros Hno.
    destruct (runTest_total host env testNo target result called Hcall Hno)
      as (r & Hr).
    exists r. split; [exact Hr|].
    apply (runTest_validator_throws host env testNo target result called r);
      auto.
Qed.

Lemma validator_exception_is_failure_witness :
  exists r,
    runTest (demoHost identityExports demoValidators alternatingBool)
      (envOf (demoOptions 5 100) [boolArg]
         [{| ref_name := "fValidatorAccepts" |};
          {| ref_name := "fValidatorThrows" |};
          {| ref_name := "fValidatorAlsoAccepts" |}])
      (fun _ args => Returns (nth 0 args JsUndefined)) 0%nat
      (newResult false (pt_input (pinnedOn (JsBool true))) None) = Ok r
    /\ category r = Category.failure.
Proof.
  apply (proj2 (validator_exception_is_failure
    (demoHost identityExports demoValidators alternatingBool)
    (envOf (demoOptions 5 100) [boolArg]
       [{| ref_name := "fValidatorAccepts" |};
        {| ref_name := "fValidatorThrows" |};
        {| ref_name := "fValidatorAlsoAccepts" |}])
    (fun _ args => Returns (nth 0 args JsUndefined)) 0%nat
    (newResult false (pt_input (pinnedOn (JsBool true))) None)
    _ eq_refl eq_refl
    (ex_intro _ {| ref_name := "fValidatorThrows" |}
       (ex_intro _ (thrownError (newError "validator bug"))
          (conj (or_intror (or_introl eq_refl)) eq_refl))))).
  intros valFn [<- | [<- | [<- | []]]]; repeat split; discriminate.
Defined.

(** C5. A validator that throws [null] ends the run: the [catch] block
    of lines 291-298 reads [e.message], which throws a [TypeError], and
    the call of the wrapper at line 308 is outside any [try].  The test
    gets no category, and the results gathered so far are lost. *)
Example validator_throwing_null_leaves_fuzz :
  fuzz (demoHost identityExports nullThrowingValidators alternatingBool) 5
    (envOf (demoOptions 5 100) [boolArg]
       [{| ref_name := "fValidator" |}]) []
  = Some (Raise
            (typeError
               "Cannot read properties of null (reading 'message')")).
Proof. vm_compute. reflexivity. Qed.

(** C8. With the implicit oracle switched off, a test that gets neither
    a human verdict nor a validator verdict is categorised [ok], even
    when the call threw or timed out.  Such a test gets its result
    whenever what the call throws is an object. *)
Theorem no_oracle_verdict_is_ok (host : Host) (env : FuzzEnv)
    (target : Budgeted (list JsValue) JsValue) (testNo : nat)
    (isPinned : bool) (inp : list FuzzIoElement)
    (expected : option (list FuzzIoElement)) :
  let run := runTest host env target testNo
               (newResult isPinned inp expected) in
  let completion :=
    target (fnTimeout (options env)) (map value (map (copyIo host) inp)) in
  useImplicit (options env) = false ->
  (forall r, run = Ok r ->
     passedHuman r = None -> passedValidators r = None ->
     passedValidator r = None /\ category r = Category.ok)
  /\ (useHuman (options env) = false \/ expected = None ->
      useProperty (options env) = false \/ validators env = [] ->
      (forall v, completion <> Throws (ThrownPrimitive v)) ->
      exists r, run = Ok r /\ passedHuman r = None
                /\ passedValidator r = None /\ category r = Category.ok
                /\ exception r
                   = match completion with
                     | Throws e => negb (recordedAsTimeout completion)
                     | _ => false
                     end
                /\ timeout r = recordedAsTimeout completion).
Proof.
  cbv zeta. intros Himp.
  assert (Hmain : forall r,
    runTest host env target testNo (newResult isPinned inp expected) = Ok r ->
    passedHuman r = None -> passedValidators r = None ->
    passedValidator r = None /\ category r = Category.ok).
  { intros r Hrun Hh Hv.
    apply runTest_called in Hrun as (called & r' & Hcall & Hval & ->).
    cbn in Hh, Hv |- *.
    apply applyValidators_not_run in Hval; [|exact Hv]. subst r'.
    revert Hh. clear Hv.
    unfold tested, applyImplicit. rewrite Himp.
    pose proof (callFunction_cases host env target
                  (newResult isPinned inp expected)) as Hc.
    cbv zeta in Hc. cbn [input newResult] in Hc.
    destruct (target _ _) as [v|[c m|v]|]; rewrite Hcall in Hc;
      try discriminate; injection Hc as ->;
      try destruct (hasTimeoutCode _);
      unfold applyHuman; destruct (useHuman _);
      try destruct expected; cbn; intros Hh; try discriminate; auto. }
  split; [exact Hmain|].
  intros Hhum Hval Hobj.
  destruct (callFunction_total host env target
              (newResult isPinned inp expected) Hobj) as (called & Hcall).
  assert (Hoff : negb (Nat.eqb (length (validators env)) 0)
                 && useProperty (options env) = false).
  { destruct Hval as [-> | ->]; [apply andb_false_r | reflexivity]. }
  assert (Hchecked : applyValidators host env testNo (tested host env called)
                     = Ok (tested host env called)).
  { unfold applyValidators. rewrite Hoff. reflexivity. }
  pose proof (runTest_of_called host env target testNo _ _ _ Hcall Hchecked)
    as Hrun.
  eexists. split; [exact Hrun|].
  assert (Hshape :
    passedHuman (tested host env called) = None
    /\ passedValidators (tested host env called) = None
    /\ exception (tested host env called)
       = match target (fnTimeout (options env))
                 (map value (map (copyIo host) inp)) with
         | Throws e =>
             negb (recordedAsTimeout
                     (target (fnTimeout (options env))
                        (map value (map (copyIo host) inp))))
         | _ => false
         end
    /\ timeout (tested host env called)
       = recordedAsTimeout
           (target (fnTimeout (options env))
              (map value (map (copyIo host) inp)))).
  { unfold tested, applyImplicit. rewrite Himp.
    pose proof (callFunction_cases host env target
                  (newResult isPinned inp expected)) as Hc.
    cbv zeta in Hc. cbn [input newResult] in Hc.
    destruct (target _ _) as [v|[c m|v]|]; rewrite Hcall in Hc;
      try discriminate; injection Hc as ->;
      unfold recordedAsTimeout, isTimeoutError, hasTimeoutCode;
      try destruct (match c with Some _ => _ | None => _ end);
      unfold applyHuman; destruct Hhum as [-> | ->];
      try destruct (useHuman _); cbn; auto. }
  destruct Hshape as (Hh & Hv & Hexc & Hto).
  destruct (Hmain _ Hrun Hh Hv) as (Hpv & Hcat).
  cbn [passedHuman exception timeout set_category] in *.
  repeat (split; [assumption|]). assumption.
Qed.

Lemma no_oracle_verdict_is_ok_witness :
  exists r,
    runTest (demoHost throwingExports noValidator alternatingBool)
      (envOf (withoutImplicit (demoOptions 5 100)) [boolArg] [])
      (fun _ _ => Throws (newError "boom")) 0%nat
      (newResult false (pt_input (pinnedOn (JsBool true))) None) = Ok r
    /\ passedHuman r = None /\ passedValidator r = None
    /\ category r = Category.ok
    /\ exception r = true /\ timeout r = false.
Proof.
  apply (proj2 (no_oracle_verdict_is_ok
    (demoHost throwingExports noValidator alternatingBool)
    (envOf (withoutImplicit (demoOptions 5 100)) [boolArg] [])
    (fun _ _ => Throws (newError "boom")) 0%nat
    false (pt_input (pinnedOn (JsBool true))) None
    eq_refl) (or_intror eq_refl) (or_intror eq_refl)).
  intros v. discriminate.
Defined.

(** ** The loop *)

Section LoopFacts.
Variable host : Host.
Variable env : FuzzEnv.
Variable call : nat -> Budgeted (list JsValue) JsValue.

Lemma pop_nil {A : Type} : pop (@nil A) = (None, []).
Proof. reflexivity. Qed.

Lemma pop_snoc {A : Type} (l : list A) (x : A) :
  pop (l ++ [x]) = (Some x, l).
Proof.
  unfold pop. rewrite rev_app_distr. cbn. rewrite rev_involutive.
  reflexivity.
Qed.

(** Where the next input comes from. *)
Lemma nextInput_cases (s : LoopState host) :
  (exists l t,
      pinnedTests s = l ++ [t]
      /\ nextInput host env s
         = (newResult (pt_pinned t) (pt_input t) (pt_expectedOutput t),
            consumePinned host t l s))
  \/ (pinnedTests s = []
      /\ let '(inp, g) :=
           generateInput host (getArgDefs (function env)) (prng s) in
         nextInput host env s
         = (newResult false inp None, countGenerated host inp g s)).
Proof.
  unfold nextInput.
  destruct (pinnedTests s) as [|t0 l0] eqn:Hp using rev_ind.
  - right. split; [reflexivity|]. rewrite pop_nil.
    destruct (generateInput _ _ _). reflexivity.
  - left. exists l0, t0. split; [reflexivity|]. rewrite pop_snoc. reflexivity.
Qed.

(** The two ways through the body. *)
Lemma loopBody_cases (s s' : LoopState host) :
  loopBody host env call s = Ok s' ->
  exists result s1,
    nextInput host env s = (result, s1)
    /\ let inputHash := stringifyIo host (input result) in
       (is_Some (allInputs s !! inputHash) /\ s' = skipDuplicate host s1)
       \/ (allInputs s !! inputHash = None
           /\ exists r,
               runTest host env (call (calls s)) (calls s) result = Ok r
               /\ s' = storeResult host env r
                         (rememberInput host env inputHash s1)).
Proof.
  unfold loopBody.
  assert (Hs1 : allInputs (snd (nextInput host env s)) = allInputs s
                /\ calls (snd (nextInput host env s)) = calls s).
  { destruct (nextInput_cases s) as [(l & t & _ & ->) | (_ & H)].
    - split; reflexivity.
    - destruct (generateInput _ _ _). rewrite H. split; reflexivity. }
  destruct (nextInput host env s) as [result s1]. cbn [snd] in Hs1.
  destruct Hs1 as [Hall Hcalls]. cbv zeta. rewrite Hall.
  intros H. exists result, s1. split; [reflexivity|].
  destruct (allInputs s !! stringifyIo host (input result)) eqn:Hlook.
  - left. injection H as <-. split; [eexists; reflexivity | reflexivity].
  - right. split; [reflexivity|].
    cbn [calls rememberInput] in H. rewrite Hcalls in H.
    destruct (runTest _ _ _ _ _) as [r|e]; [|discriminate].
    exists r. injection H as <-. split; reflexivity.
Qed.

End LoopFacts.

Lemma checkStopCondition_None (env : FuzzEnv)
    (generated current total failures startTime now : Z) :
  _checkStopCondition env generated current total failures startTime now
  = None ->
  now - startTime < suiteTimeout (options env)
  /\ generated - total < maxTests (options env)
  /\ current < maxDupeInputs (options env).
Proof.
  unfold _checkStopCondition.
  destruct (Z.geb_spec (now - startTime) (suiteTimeout (options env)));
    [discriminate|].
  destruct (Z.geb_spec (generated - total) (maxTests (options env)));
    [discriminate|].
  destruct (negb _ && _); [discriminate|].
  destruct (Z.geb_spec current (maxDupeInputs (options env)));
    [discriminate|].
  intros _. lia.
Qed.

Lemma checkStopCondition_Some (env : FuzzEnv)
    (generated current total failures startTime now : Z)
    (reason : FuzzStopReason) :
  _checkStopCondition env generated current total failures startTime now
  = Some reason ->
  (reason = MAXTIME \/ reason = MAXTESTS \/ reason = MAXFAILURES
   \/ reason = MAXDUPES)
  /\ (reason = MAXTESTS -> generated - total >= maxTests (options env))
  /\ (reason = MAXDUPES ->
      generated - total < maxTests (options env)
      /\ current >= maxDupeInputs (options env)).
Proof.
  unfold _checkStopCondition.
  destruct (Z.geb_spec (now - startTime) (suiteTimeout (options env))).
  { intros Heq. injection Heq as <-. repeat split; auto; discriminate. }
  destruct (Z.geb_spec (generated - total) (maxTests (options env))).
  { intros Heq. injection Heq as <-.
    repeat split; auto; try discriminate. lia. }
  destruct (negb _ && _).
  { intros Heq. injection Heq as <-. repeat split; auto 6; discriminate. }
  destruct (Z.geb_spec current (maxDupeInputs (options env)));
    [|discriminate].
  intros Heq. injection Heq as <-. repeat split; auto 6; try discriminate; lia.
Qed.

Section Termination.
Variable host : Host.
Variable env : FuzzEnv.
Variable call : nat -> Budgeted (list JsValue) JsValue.

Lemma loopMeasure_nonneg (s : LoopState host) : 0 <= loopMeasure env s.
Proof. unfold loopMeasure. cbv zeta. nia. Qed.

Lemma loopMeasure_tick (s : LoopState host) :
  loopMeasure env (tick host s) = loopMeasure env s.
Proof. reflexivity. Qed.

(** Every turn of the body that follows a stop check that found no
    reason to stop brings the loop closer to one. *)
Lemma loopBody_measure (s s' : LoopState host) :
  inputsGenerated s - totalDupeCount s < maxTests (options env) ->
  currentDupeCount s < maxDupeInputs (options env) ->
  loopBody host env call s = Ok s' ->
  loopMeasure env s' < loopMeasure env s.
Proof.
  intros Htests Hdupes Hbody.
  apply loopBody_cases in Hbody as (result & s1 & Hnext & Hcase).
  cbv zeta in Hcase.
  destruct (nextInput_cases host env s) as [(l & t & Hp & Hn) | (Hp & Hn)].
  - rewrite Hn in Hnext. injection Hnext as <- <-.
    destruct Hcase as [(_ & ->) | (_ & r & _ & ->)];
      unfold loopMeasure; cbn; rewrite Hp, length_app; cbn [length]; nia.
  - destruct (generateInput _ _ _) as [inp g]. rewrite Hn in Hnext.
    injection Hnext as <- <-.
    destruct Hcase as [(_ & ->) | (_ & r & _ & ->)];
      unfold loopMeasure; cbn; rewrite Hp; cbn [length]; nia.
Qed.

(** The loop ends: with enough fuel it stops or raises. *)
Lemma fuzzLoop_terminates (startTime : Z) (fuel : nat)
    (s : LoopState host) :
  loopMeasure env s < Z.of_nat fuel ->
  fuzzLoop host env call startTime fuel s <> None.
Proof.
  revert s. induction fuel as [|fuel IH]; intros s Hfuel.
  - pose proof (loopMeasure_nonneg s). lia.
  - cbn [fuzzLoop].
    destruct (_checkStopCondition _ _ _ _ _ _ _) eqn:Hstop; [discriminate|].
    apply checkStopCondition_None in Hstop as (_ & Htests & Hdupes).
    destruct (loopBody host env call (tick host s)) as [s'|e] eqn:Hbody;
      [|discriminate].
    apply IH. apply loopBody_measure in Hbody; [|exact Htests|exact Hdupes].
    rewrite loopMeasure_tick in Hbody. lia.
Qed.

(** What holds at the start and is kept by the body holds when the
    loop stops, and the stop check named the reason. *)
Lemma fuzzLoop_invariant (Inv : LoopState host -> Prop) (startTime : Z) :
  (forall s, Inv s -> Inv (tick host s)) ->
  (forall s s', Inv s -> loopBody host env call s = Ok s' -> Inv s') ->
  forall fuel s reason s',
    Inv s ->
    fuzzLoop host env call startTime fuel s = Some (Ok (reason, s')) ->
    Inv s'
    /\ _checkStopCondition env (inputsGenerated s') (currentDupeCount s')
         (totalDupeCount s') (failureCount s') startTime
         (getTime host (Nat.pred (ticks s'))) = Some reason.
Proof.
  intros Htick Hbody. induction fuel as [|fuel IH];
    intros s reason s' Hinv Hloop; [discriminate|].
  cbn [fuzzLoop] in Hloop.
  destruct (_checkStopCondition _ _ _ _ _ _ _) eqn:Hstop.
  - injection Hloop as <- <-. split; [auto|exact Hstop].
  - destruct (loopBody host env call (tick host s)) as [s1|e] eqn:Hb;
      [|discriminate].
    apply (IH s1); [|exact Hloop]. eapply Hbody; [|exact Hb]. auto.
Qed.

(** The body raises only what the two [catch] blocks or a validator
    wrapper raised. *)
Lemma loopBody_no_raise (s : LoopState host) :
  ThrowsObjects call -> ValidatorsRecovered host env ->
  exists s', loopBody host env call s = Ok s'.
Proof.
  intros Hobj Hval. unfold loopBody.
  destruct (nextInput host env s) as [result s1]. cbv zeta.
  destruct (allInputs s1 !! _); [eexists; reflexivity|].
  destruct (callFunction_total host env
              (call (calls (rememberInput host env
                        (stringifyIo host (input result)) s1)))
              result) as (called & Hcalled).
  { intros v. apply Hobj. }
  destruct (runTest_total host env
              (calls (rememberInput host env
                        (stringifyIo host (input result)) s1))
              (call (calls (rememberInput host env
                        (stringifyIo host (input result)) s1)))
              result called Hcalled) as (r & Hr).
  - intros valFn Hin. apply Hval. exact Hin.
  - rewrite Hr. eexists. reflexivity.
Qed.

Lemma fuzzLoop_no_raise (startTime : Z) (fuel : nat) (s : LoopState host)
    (e : JsThrown) :
  ThrowsObjects call -> ValidatorsRecovered host env ->
  fuzzLoop host env call startTime fuel s <> Some (Raise e).
Proof.
  intros Hobj Hval. revert s. induction fuel as [|fuel IH]; intros s;
    [discriminate|].
  cbn [fuzzLoop].
  destruct (_checkStopCondition _ _ _ _ _ _ _); [discriminate|].
  destruct (loopBody_no_raise (tick host s) Hobj Hval) as (s' & ->).
  apply IH.
Qed.

End Termination.

(** How a finished test records its call: the returned value in the
    single output slot, or one of the two flags and no output. *)
Lemma runTest_call_recorded (host : Host) (env : FuzzEnv)
    (target : Budgeted (list JsValue) JsValue) (testNo : nat)
    (isPinned : bool) (inp : list FuzzIoElement)
    (expected : option (list FuzzIoElement)) (r : FuzzTestResult) :
  runTest host env target testNo (newResult isPinned inp expected) = Ok r ->
  match target (fnTimeout (options env))
          (map value (map (copyIo host) inp)) with
  | Returns v =>
      output r = [{| name := "0"; offset := 0; value := v;
                     isTimeout := None; isException := None |}]
      /\ exception r = false /\ timeout r = false
  | Throws e =>
      output r = []
      /\ isTimeoutError e = Ok (timeout r)
      /\ exception r = negb (timeout r)
  | Overruns => output r = [] /\ exception r = false /\ timeout r = true
  end.
Proof.
  intros Hrun. apply runTest_frame in Hrun as (called & Hcalled & Hrun).
  destruct Hrun as (_ & _ & Hout & Hexc & Hto & _). unfold tested in *.
  destruct (applyHuman_call host env (applyImplicit env called))
    as (_ & _ & Hout1 & Hexc1 & Hto1 & _).
  destruct (applyImplicit_call env called)
    as (_ & _ & Hout2 & Hexc2 & Hto2 & _).
  rewrite Hout1, Hout2 in Hout. rewrite Hexc1, Hexc2 in Hexc.
  rewrite Hto1, Hto2 in Hto. rewrite <- Hout, <- Hexc, <- Hto.
  pose proof (callFunction_cases host env target
                (newResult isPinned inp expected)) as Hcall.
  cbv zeta in Hcall. cbn [input newResult] in Hcall.
  destruct (target _ _) as [v|[c m|v]|]; rewrite Hcalled in Hcall;
    try discriminate; injection Hcall as ->;
    unfold isTimeoutError, hasTimeoutCode;
    try destruct (match c with Some _ => _ | None => _ end); cbn; auto.
Qed.





(** A validator that runs over its budget: the error of the wrapper is
    not caught at line 308 and leaves [fuzz]. *)
Example validator_overrun_leaves_fuzz :
  fuzz (demoHost identityExports demoValidators alternatingBool) 5
    (envOf (demoOptions 5 100) [boolArg]
       [{| ref_name := "fValidatorLoops" |}]) []
  = Some (Raise scriptTimeoutError).
Proof. vm_compute. reflexivity. Qed.

(** A function under test that throws a string: [isTimeoutError] throws
    inside the [catch] block of lines 221-229, and that error leaves
    [fuzz]. *)
Example thrown_string_leaves_fuzz :
  fuzz (demoHost stringThrowingExports noValidator alternatingBool) 5
    (envOf (demoOptions 5 100) [boolArg] []) []
  = Some (Raise
            (typeError "Cannot use 'in' operator to search for 'code'")).
Proof. vm_compute. reflexivity. Qed.

(** ** Results of a run *)

Lemma runTest_CallRecorded (host : Host) (env : FuzzEnv)
    (target : Budgeted (list JsValue) JsValue) (testNo : nat)
    (isPinned : bool) (inp : list FuzzIoElement)
    (expected : option (list FuzzIoElement)) (r : FuzzTestResult) :
  runTest host env target testNo (newResult isPinned inp expected) = Ok r ->
  CallRecorded host r.
Proof.
  intros Hrun. apply runTest_call_recorded in Hrun.
  unfold CallRecorded, validatorIn, copyResult. cbn.
  destruct (target _ _) as [v|e|];
    [destruct Hrun as (-> & -> & ->)
    |destruct Hrun as (-> & _ & ->); destruct (timeout r)
    |destruct Hrun as (-> & -> & ->)];
    cbn; repeat split; intros; try discriminate; try tauto; auto;
    try (destruct H; discriminate);
    eexists; split; reflexivity.
Qed.

Section ResultFacts.
Variable host : Host.
Variable env : FuzzEnv.
Variable call : nat -> Budgeted (list JsValue) JsValue.

(** The result under construction is a fresh one, and choosing the
    input stores nothing. *)
Lemma nextInput_fresh (s s1 : LoopState host) (result : FuzzTestResult) :
  nextInput host env s = (result, s1) ->
  (exists isPinned inp expected, result = newResult isPinned inp expected)
  /\ resultsSoFar s1 = resultsSoFar s.
Proof.
  intros Hnext.
  destruct (nextInput_cases host env s) as [(l & t & _ & Hn) | (_ & Hn)].
  - rewrite Hn in Hnext. injection Hnext as <- <-. split; eauto.
  - destruct (generateInput _ _ _) as [inp g]. rewrite Hn in Hnext.
    injection Hnext as <- <-. split; eauto.
Qed.

Lemma loopBody_results (P : FuzzTestResult -> Prop) :
  (forall testNo isPinned inp expected r,
      runTest host env (call testNo) testNo
        (newResult isPinned inp expected) = Ok r -> P r) ->
  forall s s', Forall P (resultsSoFar s) ->
               loopBody host env call s = Ok s' ->
               Forall P (resultsSoFar s').
Proof.
  intros Hrun s s' Hall Hbody.
  apply loopBody_cases in Hbody as (result & s1 & Hnext & Hcase).
  apply nextInput_fresh in Hnext as ((p & inp & ex & ->) & Hres).
  cbv zeta in Hcase.
  destruct Hcase as [(_ & ->) | (_ & r & Hr & ->)]; cbn.
  - rewrite Hres. exact Hall.
  - rewrite Hres. destruct (_ || _); [|exact Hall].
    apply Forall_app. split; [exact Hall|].
    constructor; [eapply Hrun; exact Hr | constructor].
Qed.

End ResultFacts.

(** C10, as the code has it.  In every result of a run the exception
    and timeout flags are never both set, the output list is empty
    exactly when one of them is set and has one element otherwise; the
    validator input's [out] is the sentinel whenever one of them is set,
    and is the copy of the returned value otherwise. *)
Theorem results_record_their_call (host : Host) (fuel : nat)
    (env : FuzzEnv) (pinned : list FuzzPinnedTest) (res : FuzzTestResults) :
  fuzz host fuel env pinned = Some (Ok res) ->
  Forall (CallRecorded host) (results res).
Proof.
  unfold fuzz, fuzzRun.
  destruct (negb _); [discriminate|].
  destruct (mod_ host _) as [[|call]|]; try discriminate.
  destruct (fuzzLoop _ _ _ _ _ _) as [[[reason s]|e]|] eqn:Hloop;
    try discriminate.
  intros H. injection H as <-. cbn [results finish].
  refine (proj1 (fuzzLoop_invariant host env call
           (fun s => Forall (CallRecorded host) (resultsSoFar s))
           _ (fun s0 Hs0 => Hs0) _ _ _ _ _ _ Hloop)).
  - intros s0 s1. apply loopBody_results.
    intros testNo p inp ex r. apply runTest_CallRecorded.
  - constructor.
Qed.

Lemma results_record_their_call_witness :
  Forall
    (CallRecorded (demoHost throwingExports noValidator alternatingBool))
    (results
       (demoRun (demoHost throwingExports noValidator alternatingBool) 10
          (envOf (demoOptions 1 100) [boolArg] [])
          [pinnedOn (JsBool true)])).
Proof.
  apply (results_record_their_call
           (demoHost throwingExports noValidator alternatingBool) 10
           (envOf (demoOptions 1 100) [boolArg] [])
           [pinnedOn (JsBool true)]).
  vm_compute. reflexivity.
Defined.

(** A function that returns the string "timeout or exception": its call
    neither threw nor timed out, and the validator input's [out] is the
    sentinel. *)
Lemma sentinel_without_failure :
  let host := demoHost sentinelExports noValidator alternatingBool in
  let env := envOf (demoOptions 1 100) [boolArg] [] in
  let pinned := [pinnedOn (JsBool true)] in
  fuzz host 10 env pinned = Some (Ok (demoRun host 10 env pinned))
  /\ exists r,
       In r (results (demoRun host 10 env pinned))
       /\ exception r = false /\ timeout r = false
       /\ res_out (validatorIn (copyResult host r))
          = JsString "timeout or exception".
Proof.
  cbv zeta. split; [vm_compute; reflexivity|].
  eexists. split; [vm_compute; left; reflexivity|].
  vm_compute. auto.
Qed.

(** ** Pinned tests *)

Section PinnedFacts.
Variable host : Host.
Variable env : FuzzEnv.
Variable call : nat -> Budgeted (list JsValue) JsValue.

(** After the input is chosen, the body leaves the log, the pool and
    the two input counters alone. *)
Lemma loopBody_source (s s' : LoopState host) :
  loopBody host env call s = Ok s' ->
  exists result s1,
    nextInput host env s = (result, s1)
    /\ history s' = history s1 /\ pinnedTests s' = pinnedTests s1
    /\ inputsGenerated s' = inputsGenerated s1
    /\ savedCount s' = savedCount s1
    /\ totalDupeCount s1 <= totalDupeCount s'.
Proof.
  intros Hbody.
  apply loopBody_cases in Hbody as (result & s1 & Hnext & Hcase).
  exists result, s1. split; [exact Hnext|]. cbv zeta in Hcase.
  destruct Hcase as [(_ & ->) | (_ & r & _ & ->)]; cbn;
    repeat split; lia.
Qed.

Lemma loopBody_DrainedSoFar (pinned : list FuzzPinnedTest)
    (s s' : LoopState host) :
  DrainedSoFar pinned s -> loopBody host env call s = Ok s' ->
  DrainedSoFar pinned s'.
Proof.
  intros (k & gens & Hk & Hlog & Hpool & Hgens & Hig & Hsaved) Hbody.
  unfold DrainedSoFar.
  apply loopBody_source in Hbody
    as (result & s1 & Hnext & -> & -> & -> & -> & _).
  destruct (nextInput_cases host env s) as [(l & t & Hp & Hn) | (Hp & Hn)].
  - rewrite Hn in Hnext. injection Hnext as <- <-. cbn.
    rewrite Hp in Hpool.
    assert (Hdrop : drop k (rev pinned) = t :: rev l).
    { rewrite <- (rev_involutive (drop k (rev pinned))), <- Hpool.
      rewrite rev_app_distr. reflexivity. }
    assert (Hlook : rev pinned !! k = Some t).
    { rewrite <- (Nat.add_0_r k), <- lookup_drop, Hdrop. reflexivity. }
    assert (Hnil : gens = []).
    { destruct gens as [|g0 gs]; [reflexivity|].
      assert (k = length pinned) by (apply Hgens; discriminate).
      apply lookup_lt_Some in Hlook. rewrite length_rev in Hlook. lia. }
    subst gens. exists (S k), [].
    pose proof (lookup_lt_Some _ _ _ Hlook) as Hlt.
    rewrite length_rev in Hlt.
    split; [lia|]. split.
    { rewrite Hlog, (take_S_r _ _ _ Hlook). cbn.
      rewrite !app_nil_r, map_app. reflexivity. }
    split.
    { rewrite (drop_S _ _ _ Hlook) in Hdrop. injection Hdrop as Hrest.
      rewrite Hrest, rev_involutive. reflexivity. }
    split; [intros []; reflexivity|].
    split; [exact Hig | lia].
  - destruct (generateInput _ _ _) as [inp g]. rewrite Hn in Hnext.
    injection Hnext as <- <-. cbn.
    assert (Hfull : k = length pinned).
    { rewrite Hp in Hpool.
      assert (Hd : drop k (rev pinned) = []).
      { rewrite <- (rev_involutive (drop k (rev pinned))), <- Hpool.
        reflexivity. }
      apply drop_nil_inv in Hd. rewrite length_rev in Hd. lia. }
    exists k, (gens ++ [inp]). split; [exact Hk|]. split.
    { rewrite Hlog, map_app, app_assoc. reflexivity. }
    split; [exact Hpool|].
    split; [intros _; exact Hfull|].
    split; [rewrite length_app; cbn; lia | exact Hsaved].
Qed.

Lemma initialState_DrainedSoFar (pinned : list FuzzPinnedTest) :
  DrainedSoFar pinned (initialState host env pinned).
Proof.
  exists 0%nat, []. cbn. rewrite drop_0, rev_involutive.
  repeat split; try lia. intros []. reflexivity.
Qed.

End PinnedFacts.

(** C4, as the code has it.  A run takes its inputs from the pinned pool
    until the pool is empty and only then generates new ones; [pop]
    hands the pinned tests out from the end of the list, so they are
    consumed in the reverse of the order of [pinnedTests]; and a turn
    of the loop that consumes a pinned test leaves [inputsGenerated]
    unchanged and does not raise [inputsGenerated - totalDupeCount],
    the count that [maxTests] bounds. *)
Theorem pinned_tests_drained_first (host : Host) (fuel : nat)
    (env : FuzzEnv) (pinned : list FuzzPinnedTest)
    (reason : FuzzStopReason) (s : LoopState host) :
  fuzzRun host fuel env pinned = Some (Ok (reason, s)) ->
  (exists (k : nat) (gens : list (list FuzzIoElement)),
      (k <= length pinned)%nat
      /\ history s = map Consumed (take k (rev pinned)) ++ map Generated gens
      /\ (gens <> [] -> k = length pinned)
      /\ inputsGenerated s = Z.of_nat (length gens)
      /\ savedCount s = Z.of_nat k)
  /\ (forall call (s0 s1 : LoopState host),
        pinnedTests s0 <> [] -> loopBody host env call s0 = Ok s1 ->
        inputsGenerated s1 = inputsGenerated s0
        /\ inputsGenerated s1 - totalDupeCount s1
           <= inputsGenerated s0 - totalDupeCount s0).
Proof.
  intros Hrun. split.
  - unfold fuzzRun in Hrun.
    destruct (negb _); [discriminate|].
    destruct (mod_ host _) as [[|call]|]; try discriminate.
    destruct (fuzzLoop_invariant host env call (DrainedSoFar pinned)
                (getTime host 0)
                (fun s0 Hs0 => Hs0)
                (loopBody_DrainedSoFar host env call pinned)
                fuel _ reason s
                (initialState_DrainedSoFar host env pinned) Hrun)
      as [(k & gens & Hk & Hlog & _ & Hgens & Hig & Hsaved) _].
    exists k, gens. auto.
  - intros call s0 s1 Hpool Hbody.
    apply loopBody_source in Hbody
      as (result & s' & Hnext & _ & _ & -> & _ & Htd).
    destruct (nextInput_cases host env s0) as [(l & t & Hp & Hn) | (Hp & _)];
      [|contradiction].
    rewrite Hn in Hnext. injection Hnext as <- <-. cbn in *. lia.
Qed.

Lemma pinned_tests_drained_first_witness :
  let host := demoHost identityExports noValidator alternatingBool in
  let env := envOf (demoOptions 1 2) [boolArg] [] in
  let pinned := [pinnedOn (JsBool true); pinnedOn (JsBool false)] in
  let s := snd (demoFinal host 10 env pinned) in
  exists (k : nat) (gens : list (list FuzzIoElement)),
    (k <= length pinned)%nat
    /\ history s = map Consumed (take k (rev pinned)) ++ map Generated gens
    /\ (gens <> [] -> k = length pinned)
    /\ inputsGenerated s = Z.of_nat (length gens)
    /\ savedCount s = Z.of_nat k.
Proof.
  cbv zeta.
  refine (proj1 (pinned_tests_drained_first
    (demoHost identityExports noValidator alternatingBool) 10
    (envOf (demoOptions 1 2) [boolArg] [])
    [pinnedOn (JsBool true); pinnedOn (JsBool false)]
    (fst (demoFinal (demoHost identityExports noValidator alternatingBool)
            10 (envOf (demoOptions 1 2) [boolArg] [])
            [pinnedOn (JsBool true); pinnedOn (JsBool false)]))
    _ _)).
  vm_compute. reflexivity.
Defined.

(** Two pinned tests are consumed last one first, not in the order of
    the list. *)
Lemma pinned_tests_popped_from_the_end :
  let host := demoHost identityExports noValidator alternatingBool in
  let env := envOf (demoOptions 1 2) [boolArg] [] in
  let pinned := [pinnedOn (JsBool true); pinnedOn (JsBool false)] in
  fuzzRun host 10 env pinned = Some (Ok (demoFinal host 10 env pinned))
  /\ consumedTests (history (snd (demoFinal host 10 env pinned)))
     = [pinnedOn (JsBool false); pinnedOn (JsBool true)]
  /\ consumedTests (history (snd (demoFinal host 10 env pinned))) <> pinned.
Proof.
  cbv zeta. split; [vm_compute; reflexivity|].
  split; [vm_compute; reflexivity|].
  vm_compute. discriminate.
Qed.

(** ** Duplicates *)

Section DuplicateFacts.
Variable host : Host.
Variable env : FuzzEnv.
Variable call : nat -> Budgeted (list JsValue) JsValue.

(** Choosing the input touches neither the dedup table nor the
    duplicate, failure and call counters. *)
Lemma nextInput_counters (s s1 : LoopState host)
    (result : FuzzTestResult) :
  nextInput host env s = (result, s1) ->
  allInputs s1 = allInputs s /\ calls s1 = calls s
  /\ currentDupeCount s1 = currentDupeCount s
  /\ totalDupeCount s1 = totalDupeCount s
  /\ failureCount s1 = failureCount s
  /\ resultsSoFar s1 = resultsSoFar s.
Proof.
  intros Hnext.
  destruct (nextInput_cases host env s) as [(l & t & _ & Hn) | (_ & Hn)].
  - rewrite Hn in Hnext. injection Hnext as <- <-. repeat split.
  - destruct (generateInput _ _ _) as [inp g]. rewrite Hn in Hnext.
    injection Hnext as <- <-. repeat split.
Qed.

Lemma loopBody_duplicate (s s' : LoopState host) :
  loopBody host env call s = Ok s' ->
  is_Some (allInputs s
             !! stringifyIo host (input (fst (nextInput host env s)))) ->
  calls s' = calls s /\ resultsSoFar s' = resultsSoFar s
  /\ failureCount s' = failureCount s
  /\ currentDupeCount s' = currentDupeCount s + 1
  /\ totalDupeCount s' = totalDupeCount s + 1.
Proof.
  intros Hbody Hseen.
  apply loopBody_cases in Hbody as (result & s1 & Hnext & Hcase).
  rewrite Hnext in Hseen. cbn [fst] in Hseen. cbv zeta in Hcase.
  apply nextInput_counters in Hnext as (_ & Hc & Hcd & Htd & Hf & Hr).
  destruct Hcase as [(_ & ->) | (Hnone & _)].
  - cbn. rewrite Hc, Hr, Hf, Hcd, Htd. repeat split.
  - rewrite Hnone in Hseen. destruct Hseen as [? ?]. discriminate.
Qed.

Lemma loopBody_new_input (s s' : LoopState host) :
  loopBody host env call s = Ok s' ->
  allInputs s !! stringifyIo host (input (fst (nextInput host env s)))
  = None ->
  calls s' = S (calls s) /\ currentDupeCount s' = 0
  /\ totalDupeCount s' = totalDupeCount s
  /\ allInputs s'
     = if negb (Nat.eqb (length (getArgDefs (function env))) 0)
       then <[stringifyIo host (input (fst (nextInput host env s)))
              := true]> (allInputs s)
       else allInputs s.
Proof.
  intros Hbody Hnew.
  apply loopBody_cases in Hbody as (result & s1 & Hnext & Hcase).
  rewrite Hnext in Hnew |- *. cbn [fst] in Hnew |- *. cbv zeta in Hcase.
  apply nextInput_counters in Hnext as (Ha & Hc & Hcd & Htd & Hf & Hr).
  destruct Hcase as [(Hseen & _) | (_ & r & _ & ->)].
  - rewrite Hnew in Hseen. destruct Hseen as [? ?]. discriminate.
  - cbn. rewrite Hc, Htd, Ha. repeat split.
Qed.

(** Without arguments nothing is ever entered in the dedup table. *)
Lemma loopBody_no_arguments (s s' : LoopState host) :
  getArgDefs (function env) = [] ->
  allInputs s = ∅ /\ totalDupeCount s = 0 ->
  loopBody host env call s = Ok s' ->
  allInputs s' = ∅ /\ totalDupeCount s' = 0.
Proof.
  intros Hargs [Hempty Htd] Hbody.
  assert (Hnew : allInputs s
                   !! stringifyIo host
                        (input (fst (nextInput host env s))) = None)
    by (rewrite Hempty; apply lookup_empty).
  destruct (loopBody_new_input s s' Hbody Hnew) as (_ & _ & Htd' & Ha).
  rewrite Hargs in Ha. cbn in Ha. split; congruence.
Qed.

(** The second of two identical pinned tests finds the hash of the
    first and is skipped. *)
Lemma loopBody_twin_pinned (s s1 : LoopState host)
    (l : list FuzzPinnedTest) (t : FuzzPinnedTest) :
  getArgDefs (function env) <> [] ->
  pinnedTests s = l ++ [t; t] ->
  loopBody host env call s = Ok s1 ->
  loopBody host env call (tick host s1)
  = Ok (skipDuplicate host (consumePinned host t l (tick host s1)))
  /\ savedCount s1 = savedCount s + 1.
Proof.
  intros Hargs Hpool Hbody.
  assert (Hlen : negb (Nat.eqb (length (getArgDefs (function env))) 0)
                 = true)
    by (destruct (getArgDefs (function env)); [contradiction|reflexivity]).
  assert (Hfirst : nextInput host env s
                   = (newResult (pt_pinned t) (pt_input t)
                        (pt_expectedOutput t),
                      consumePinned host t (l ++ [t]) s)).
  { unfold nextInput. rewrite Hpool.
    change (l ++ [t; t]) with (l ++ [t] ++ [t]).
    rewrite app_assoc, pop_snoc. reflexivity. }
  assert (Hs1 : is_Some (allInputs s1 !! stringifyIo host (pt_input t))
                /\ pinnedTests s1 = l ++ [t]
                /\ savedCount s1 = savedCount s + 1).
  { apply loopBody_cases in Hbody as (result & s0 & Hnext & Hcase).
    rewrite Hfirst in Hnext. injection Hnext as <- <-.
    cbv zeta in Hcase. cbn [input newResult] in Hcase.
    destruct Hcase as [(Hseen & ->) | (_ & r & _ & ->)]; cbn.
    - auto.
    - rewrite Hlen. rewrite lookup_insert_eq. split; [eauto|auto]. }
  destruct Hs1 as (Hseen & Hpool1 & Hsaved). split; [|exact Hsaved].
  assert (Hsecond : nextInput host env (tick host s1)
                    = (newResult (pt_pinned t) (pt_input t)
                         (pt_expectedOutput t),
                       consumePinned host t l (tick host s1))).
  { unfold nextInput. cbn [pinnedTests tick]. rewrite Hpool1, pop_snoc.
    reflexivity. }
  unfold loopBody. rewrite Hsecond. cbv beta iota zeta.
  change (allInputs (consumePinned host t l (tick host s1)))
    with (allInputs s1).
  change (input (newResult (pt_pinned t) (pt_input t)
                   (pt_expectedOutput t)))
    with (pt_input t).
  destruct Hseen as [b ->]. reflexivity.
Qed.

(** What choosing the input adds to the log. *)
Lemma nextInput_event (s s1 : LoopState host) (result : FuzzTestResult) :
  nextInput host env s = (result, s1) ->
  exists ev,
    history s1 = history s ++ [ev]
    /\ eventInput ev = input result
    /\ savedCount s1
       = savedCount s + Z.of_nat (length (consumedTests [ev])).
Proof.
  intros Hnext.
  destruct (nextInput_cases host env s) as [(l & t & _ & Hn) | (_ & Hn)].
  - rewrite Hn in Hnext. injection Hnext as <- <-.
    exists (Consumed t). repeat split.
  - destruct (generateInput _ _ _) as [inp g]. rewrite Hn in Hnext.
    injection Hnext as <- <-. exists (Generated inp). cbn.
    repeat split. lia.
Qed.

(** For a function with arguments, a turn of the loop keeps the dedup
    table in step with the log. *)
Lemma loopBody_SeenSoFar (s s' : LoopState host) :
  getArgDefs (function env) <> [] ->
  SeenSoFar s -> loopBody host env call s = Ok s' -> SeenSoFar s'.
Proof.
  intros Hargs (Hdom & Hcalls & Hdupes & Hsaved) Hbody.
  assert (Hlen : negb (Nat.eqb (length (getArgDefs (function env))) 0)
                 = true)
    by (destruct (getArgDefs (function env)); [contradiction|reflexivity]).
  apply loopBody_cases in Hbody as (result & s1 & Hnext & Hcase).
  cbv zeta in Hcase.
  destruct (nextInput_event s s1 result Hnext) as (ev & Hlog & Hev & Hsv).
  apply nextInput_counters in Hnext as (Ha & Hc & _ & Htd & _ & _).
  assert (Hseen : seenHashes host (history s1)
                  = seenHashes host (history s)
                    ++ [stringifyIo host (input result)]).
  { unfold seenHashes. rewrite Hlog, map_app. cbn. rewrite Hev.
    reflexivity. }
  assert (Hcons : length (consumedTests (history s1))
                  = (length (consumedTests (history s))
                     + length (consumedTests [ev]))%nat).
  { unfold consumedTests. rewrite Hlog, omap_app, length_app.
    reflexivity. }
  assert (Hlength : length (history s1) = S (length (history s)))
    by (rewrite Hlog, length_app; cbn; lia).
  destruct Hcase as [(Hin & ->) | (Hnone & r & _ & ->)];
    unfold SeenSoFar;
    cbn [allInputs history calls totalDupeCount savedCount skipDuplicate
         storeResult rememberInput];
    rewrite ?Hlen, ?Ha, ?Hc, ?Htd, ?Hseen, ?Hcons, ?Hlength, ?Hsv.
  - apply elem_of_dom in Hin.
    split; [rewrite list_to_set_app_L; set_solver|].
    split; [exact Hcalls|]. split; lia.
  - apply not_elem_of_dom in Hnone.
    split; [rewrite dom_insert_L, list_to_set_app_L; set_solver|].
    split.
    + rewrite dom_insert_L, size_union by set_solver.
      rewrite size_singleton, Hcalls. reflexivity.
    + split; lia.
Qed.

Lemma initialState_SeenSoFar (pinned : list FuzzPinnedTest) :
  SeenSoFar (initialState host env pinned).
Proof.
  unfold SeenSoFar. cbn. rewrite dom_empty_L, size_empty.
  repeat split.
Qed.

(** A pinned test whose input was taken before, by a pinned test or a
    generated input, is skipped. *)
Lemma loopBody_seen_pinned (s : LoopState host)
    (l : list FuzzPinnedTest) (t : FuzzPinnedTest) :
  SeenSoFar s ->
  pinnedTests s = l ++ [t] ->
  In (stringifyIo host (pt_input t)) (seenHashes host (history s)) ->
  loopBody host env call s
  = Ok (skipDuplicate host (consumePinned host t l s)).
Proof.
  intros (Hdom & _) Hpool Hin.
  assert (Hseen : is_Some (allInputs s !! stringifyIo host (pt_input t))).
  { apply elem_of_dom. rewrite Hdom. apply elem_of_list_to_set.
    apply list_elem_of_In. exact Hin. }
  unfold loopBody, nextInput. rewrite Hpool, pop_snoc.
  cbv beta iota zeta.
  change (allInputs (consumePinned host t l s)) with (allInputs s).
  change (input (newResult (pt_pinned t) (pt_input t)
                   (pt_expectedOutput t)))
    with (pt_input t).
  destruct Hseen as [b ->]. reflexivity.
Qed.

End DuplicateFacts.

(** C6, as the code has it.  An iteration whose input hash is in the
    dedup table does not call the function under test and stores
    nothing; it adds one to both duplicate counters.  An iteration with
    a new hash calls the function, resets [currentDupeCount] to 0 and,
    for a function with arguments, enters the hash in the table.  For a
    function without arguments the table stays empty, so no input is
    ever a duplicate.  For a function with arguments the table holds,
    at every turn of a run, exactly the serialisations of the inputs
    taken so far: an input seen before is never run again, each distinct
    input is run once, and every repeat is counted as a duplicate.  So a
    pinned test whose input was taken before, wherever in the list the
    other one stood, is skipped: it is neither run nor stored, though
    both were counted in [savedCount]. *)
Theorem duplicates_are_skipped_before_the_call (host : Host)
    (env : FuzzEnv) (call : nat -> Budgeted (list JsValue) JsValue) :
  let hashOf (s : LoopState host) :=
    stringifyIo host (input (fst (nextInput host env s))) in
  (forall s s',
      loopBody host env call s = Ok s' ->
      is_Some (allInputs s !! hashOf s) ->
      calls s' = calls s /\ resultsSoFar s' = resultsSoFar s
      /\ currentDupeCount s' = currentDupeCount s + 1
      /\ totalDupeCount s' = totalDupeCount s + 1)
  /\ (forall s s',
        loopBody host env call s = Ok s' ->
        allInputs s !! hashOf s = None ->
        calls s' = S (calls s) /\ currentDupeCount s' = 0
        /\ totalDupeCount s' = totalDupeCount s
        /\ allInputs s'
           = if negb (Nat.eqb (length (getArgDefs (function env))) 0)
             then <[hashOf s := true]> (allInputs s)
             else allInputs s)
  /\ (getArgDefs (function env) = [] ->
      forall fuel pinned reason s,
        fuzzRun host fuel env pinned = Some (Ok (reason, s)) ->
        allInputs s = ∅ /\ totalDupeCount s = 0)
  /\ (getArgDefs (function env) <> [] ->
      (forall pinned, SeenSoFar (initialState host env pinned))
      /\ (forall s, SeenSoFar s -> SeenSoFar (tick host s))
      /\ (forall s s',
            SeenSoFar s -> loopBody host env call s = Ok s' -> SeenSoFar s')
      /\ (forall (s : LoopState host) h,
            SeenSoFar s ->
            (is_Some (allInputs s !! h)
             <-> In h (seenHashes host (history s))))
      /\ (forall fuel pinned reason s,
            fuzzRun host fuel env pinned = Some (Ok (reason, s)) ->
            SeenSoFar s))
  /\ (getArgDefs (function env) <> [] ->
      forall (s : LoopState host) l t,
        SeenSoFar s ->
        pinnedTests s = l ++ [t] ->
        In (stringifyIo host (pt_input t)) (seenHashes host (history s)) ->
        exists s',
          loopBody host env call s = Ok s'
          /\ calls s' = calls s /\ resultsSoFar s' = resultsSoFar s
          /\ totalDupeCount s' = totalDupeCount s + 1
          /\ savedCount s' = savedCount s + 1
          /\ pinnedTests s' = l)
  /\ (getArgDefs (function env) <> [] ->
      forall s s1 l t,
        pinnedTests s = l ++ [t; t] ->
        loopBody host env call s = Ok s1 ->
        exists s2,
          loopBody host env call (tick host s1) = Ok s2
          /\ calls s2 = calls s1 /\ resultsSoFar s2 = resultsSoFar s1
          /\ totalDupeCount s2 = totalDupeCount s1 + 1
          /\ savedCount s2 = savedCount s + 2
          /\ pinnedTests s2 = l).
Proof.
  cbv zeta. split.
  { intros s s' Hbody Hseen.
    destruct (loopBody_duplicate host env call s s' Hbody Hseen)
      as (? & ? & _ & ? & ?). auto. }
  split.
  { intros s s' Hbody Hnew.
    exact (loopBody_new_input host env call s s' Hbody Hnew). }
  split.
  { intros Hargs fuel pinned reason s Hrun. unfold fuzzRun in Hrun.
    destruct (negb _); [discriminate|].
    destruct (mod_ host _) as [[|call']|]; try discriminate.
    refine (proj1 (fuzzLoop_invariant host env call'
              (fun s0 => allInputs s0 = ∅ /\ totalDupeCount s0 = 0)
              _ (fun s0 Hs0 => Hs0) _ _ _ _ _ _ Hrun)).
    - intros s0 s1 Hs0. apply loopBody_no_arguments; assumption.
    - split; reflexivity. }
  split.
  { intros Hargs.
    split; [intros pinned; apply initialState_SeenSoFar|].
    split; [intros s0 Hs0; exact Hs0|].
    split; [intros s0 s1; apply loopBody_SeenSoFar; exact Hargs|].
    split.
    { intros s0 h (Hdom & _). rewrite <- elem_of_dom, Hdom.
      rewrite elem_of_list_to_set. apply list_elem_of_In. }
    intros fuel pinned reason s Hrun. unfold fuzzRun in Hrun.
    destruct (negb _); [discriminate|].
    destruct (mod_ host _) as [[|call']|]; try discriminate.
    refine (proj1 (fuzzLoop_invariant host env call' SeenSoFar
              _ (fun s0 Hs0 => Hs0) _ _ _ _ _ _ Hrun)).
    - intros s0 s1. apply loopBody_SeenSoFar. exact Hargs.
    - apply initialState_SeenSoFar. }
  split.
  { intros Hargs s l t Hseen Hpool Hin.
    eexists. split.
    - exact (loopBody_seen_pinned host env call s l t Hseen Hpool Hin).
    - cbn. repeat split. }
  intros Hargs s s1 l t Hpool Hbody.
  destruct (loopBody_twin_pinned host env call s s1 l t Hargs Hpool Hbody)
    as [Hsecond Hsaved].
  eexists. split; [exact Hsecond|]. cbn. repeat split. lia.
Qed.

Lemma duplicates_are_skipped_before_the_call_witness :
  let host := demoHost identityExports noValidator alternatingBool in
  let env := envOf (demoOptions 5 2) [boolArg] [] in
  let pool := [pinnedOn (JsBool true); pinnedOn (JsBool false);
               pinnedOn (JsBool true)] in
  let s := snd (demoFinal host 20 env pool) in
  SeenSoFar s
  /\ calls s = 2%nat /\ totalDupeCount s = 2 /\ savedCount s = 3
  /\ length (resultsSoFar s) = 2%nat.
Proof.
  intros host env pool s.
  assert (Hargs : getArgDefs (function env) <> []) by discriminate.
  assert (Hrun : fuzzRun host 20 env pool
                 = Some (Ok (fst (demoFinal host 20 env pool), s)))
    by (vm_compute; reflexivity).
  split.
  { exact (proj2 (proj2 (proj2 (proj2 (proj1 (proj2 (proj2 (proj2
             (duplicates_are_skipped_before_the_call host env
                (fun _ _ args => Returns (nth 0 args JsUndefined)))))) Hargs))))
             20%nat pool _ s Hrun). }
  split; [vm_compute; reflexivity|].
  split; [vm_compute; reflexivity|].
  split; vm_compute; reflexivity.
Defined.

(** A function without arguments and two identical pinned tests: both
    are run and both are stored, and no duplicate is counted. *)
Lemma identical_pinned_tests_both_stored :
  let host := demoHost identityExports noValidator alternatingBool in
  let env := envOf (demoOptions 1 100) [] [] in
  let pool := [pinnedEmpty; pinnedEmpty] in
  fuzz host 10 env pool = Some (Ok (demoRun host 10 env pool))
  /\ map pinned (results (demoRun host 10 env pool)) = [true; true; false]
  /\ map input (results (demoRun host 10 env pool)) = [[]; []; []]
  /\ dupesGenerated (demoRun host 10 env pool) = 0
  /\ inputsSaved (demoRun host 10 env pool) = 2.
Proof.
  cbv zeta.
  split; [vm_compute; reflexivity|].
  split; [vm_compute; reflexivity|].
  split; [vm_compute; reflexivity|].
  split; vm_compute; reflexivity.
Qed.

(** ** Small input spaces *)

Lemma size_insert_in_space (space : gset string) (m : gmap string bool)
    (h : string) :
  (size (dom m ∩ space) <= size (dom (<[h := true]> m) ∩ space))%nat.
Proof. apply subseteq_size. rewrite dom_insert_L. set_solver. Qed.

Lemma size_insert_new_in_space (space : gset string)
    (m : gmap string bool) (h : string) :
  m !! h = None -> h ∈ space ->
  size (dom (<[h := true]> m) ∩ space) = S (size (dom m ∩ space)).
Proof.
  intros Hnone Hin. apply not_elem_of_dom in Hnone.
  replace (dom (<[h := true]> m) ∩ space)
    with ({[h]} ∪ (dom m ∩ space))
    by (rewrite dom_insert_L; set_solver).
  rewrite size_union by set_solver. rewrite size_singleton. reflexivity.
Qed.

Lemma DistinctBound_space {host : Host} (space : gset string)
    (s : LoopState host) :
  DistinctBound space s ->
  inputsGenerated s - totalDupeCount s <= Z.of_nat (size space).
Proof.
  unfold DistinctBound. intros H.
  assert (size (dom (allInputs s) ∩ space) <= size space)%nat
    by (apply subseteq_size; set_solver).
  lia.
Qed.

Section SmallSpace.
Variable host : Host.
Variable env : FuzzEnv.
Variable call : nat -> Budgeted (list JsValue) JsValue.
Variable space : gset string.
Hypothesis Hargs : getArgDefs (function env) <> [].
Hypothesis Hspace :
  forall g,
    stringifyIo host
      (fst (generateInput host (getArgDefs (function env)) g)) ∈ space.

Lemma loopBody_DistinctBound (s s' : LoopState host) :
  DistinctBound space s -> loopBody host env call s = Ok s' ->
  DistinctBound space s'.
Proof.
  unfold DistinctBound. intros Hinv Hbody.
  assert (Hlen : negb (Nat.eqb (length (getArgDefs (function env))) 0)
                 = true)
    by (destruct (getArgDefs (function env)); [contradiction|reflexivity]).
  apply loopBody_cases in Hbody as (result & s1 & Hnext & Hcase).
  cbv zeta in Hcase.
  destruct (nextInput_cases host env s) as [(l & t & Hp & Hn) | (Hp & Hn)].
  - rewrite Hn in Hnext. injection Hnext as <- <-.
    destruct Hcase as [(_ & ->) | (_ & r & _ & ->)]; cbn.
    + lia.
    + rewrite Hlen.
      pose proof (size_insert_in_space space (allInputs s)
                    (stringifyIo host (pt_input t))).
      lia.
  - pose proof (Hspace (prng s)) as Hin.
    destruct (generateInput _ _ _) as [inp g]. cbn [fst] in Hin.
    rewrite Hn in Hnext. injection Hnext as <- <-.
    destruct Hcase as [(_ & ->) | (Hnone & r & _ & ->)]; cbn.
    + lia.
    + rewrite Hlen. cbn [input newResult] in Hnone.
      rewrite (size_insert_new_in_space space _ _ Hnone Hin). lia.
Qed.

End SmallSpace.

(** C7, as the code has it.  Take a function with at least one argument
    whose inputs have fewer distinct serialisations than [maxTests].
    Then every run ends, and never with the reason [MAXTESTS]:
    [inputsGenerated - totalDupeCount] stays below [maxTests], so unless
    the suite timeout or the failure limit fires first the reason is
    [MAXDUPES], reached with [currentDupeCount >= maxDupeInputs].  The
    run ends with a stop reason when the options are valid, the target
    is a function that throws objects only, and no validator runs over
    its budget or throws [null] or [undefined]; otherwise an error may
    leave [fuzz] first. *)
Theorem small_input_space_stops_on_duplicates (host : Host)
    (env : FuzzEnv) (pinned : list FuzzPinnedTest) (space : gset string) :
  getArgDefs (function env) <> [] ->
  (forall g,
      stringifyIo host
        (fst (generateInput host (getArgDefs (function env)) g)) ∈ space) ->
  Z.of_nat (size space) < maxTests (options env) ->
  exists fuel, forall n, (fuel <= n)%nat ->
    fuzzRun host n env pinned <> None
    /\ (forall reason s,
          fuzzRun host n env pinned = Some (Ok (reason, s)) ->
          reason <> MAXTESTS
          /\ inputsGenerated s - totalDupeCount s < maxTests (options env)
          /\ (reason <> MAXTIME -> reason <> MAXFAILURES ->
              reason = MAXDUPES
              /\ currentDupeCount s >= maxDupeInputs (options env)))
    /\ (isOptionValid host (options env) = true ->
        forall call,
          mod_ host (getName (function env)) = Some (ExportFunction call) ->
          ThrowsObjects call -> ValidatorsRecovered host env ->
          exists reason s, fuzzRun host n env pinned = Some (Ok (reason, s))).
Proof.
  intros Hargs Hspace Hsmall.
  exists (S (Z.to_nat (loopMeasure env (initialState host env pinned)))).
  intros n Hn.
  assert (Hends : fuzzRun host n env pinned <> None).
  { unfold fuzzRun. destruct (negb _); [discriminate|].
    destruct (mod_ host _) as [[|call]|]; try discriminate.
    apply fuzzLoop_terminates.
    pose proof (loopMeasure_nonneg host env (initialState host env pinned)).
    lia. }
  split; [exact Hends|]. split.
  - intros reason s Hrun. unfold fuzzRun in Hrun.
    destruct (negb _); [discriminate|].
    destruct (mod_ host _) as [[|call]|]; try discriminate.
    destruct (fuzzLoop_invariant host env call (DistinctBound space)
                (getTime host 0) (fun s0 Hs0 => Hs0)
                (loopBody_DistinctBound host env call space Hargs Hspace)
                n (initialState host env pinned) reason s)
      as [Hinv Hstop]; [|exact Hrun|].
    { unfold DistinctBound. cbn. lia. }
    apply DistinctBound_space in Hinv.
    apply checkStopCondition_Some in Hstop as (Hany & Htests & Hdupes).
    assert (Hnot : reason <> MAXTESTS)
      by (intros ->; specialize (Htests eq_refl); lia).
    split; [exact Hnot|]. split; [lia|].
    intros Htime Hfail.
    destruct Hany as [?|[?|[?|Hd]]]; try contradiction.
    split; [exact Hd|]. apply Hdupes. exact Hd.
  - intros Hvalid call Hmember Hobj Hval.
    unfold fuzzRun in *. rewrite Hvalid, Hmember in *. cbn [negb] in *.
    destruct (fuzzLoop _ _ _ _ _ _) as [[[reason s]|e]|] eqn:Hloop.
    + eauto.
    + exfalso.
      exact (fuzzLoop_no_raise host env call _ _ _ e Hobj Hval Hloop).
    + contradiction.
Qed.

Lemma small_input_space_stops_on_duplicates_witness :
  let host := demoHost identityExports noValidator alternatingBool in
  let env := envOf (demoOptions 5 100) [boolArg] [] in
  exists fuel, forall n, (fuel <= n)%nat ->
    fuzzRun host n env [] <> None
    /\ (forall reason s,
          fuzzRun host n env [] = Some (Ok (reason, s)) ->
          reason <> MAXTESTS
          /\ inputsGenerated s - totalDupeCount s < maxTests (options env)
          /\ (reason <> MAXTIME -> reason <> MAXFAILURES ->
              reason = MAXDUPES
              /\ currentDupeCount s >= maxDupeInputs (options env)))
    /\ (isOptionValid host (options env) = true ->
        forall call,
          mod_ host (getName (function env)) = Some (ExportFunction call) ->
          ThrowsObjects call -> ValidatorsRecovered host env ->
          exists reason s, fuzzRun host n env [] = Some (Ok (reason, s))).
Proof.
  intros host env.
  assert (Hargs : getArgDefs (function env) <> []) by discriminate.
  assert (Hspace : forall g,
             stringifyIo host
               (fst (generateInput host (getArgDefs (function env)) g))
             ∈ boolSpace).
  { intros g. cbn. unfold alternatingBool, boolSpace.
    destruct (Nat.even g);
      [apply elem_of_union_l | apply elem_of_union_r];
      apply elem_of_singleton; reflexivity. }
  assert (Hsmall : Z.of_nat (size boolSpace) < maxTests (options env))
    by (vm_compute; reflexivity).
  exact (small_input_space_stops_on_duplicates host env [] boolSpace
           Hargs Hspace Hsmall).
Defined.

(** The run of the specification's example: [maxTests = 5],
    [maxDupeInputs = 100], one boolean argument. *)
Example boolean_argument_stops_on_duplicates :
  let host := demoHost identityExports noValidator alternatingBool in
  let env := envOf (demoOptions 5 100) [boolArg] [] in
  fuzz host 200 env [] = Some (Ok (demoRun host 200 env []))
  /\ stopReason (demoRun host 200 env []) = MAXDUPES
  /\ res_inputsGenerated (demoRun host 200 env []) = 102
  /\ dupesGenerated (demoRun host 200 env []) = 100
  /\ length (results (demoRun host 200 env [])) = 2%nat.
Proof.
  cbv zeta.
  split; [vm_compute; reflexivity|].
  split; [vm_compute; reflexivity|].
  split; [vm_compute; reflexivity|].
  split; vm_compute; reflexivity.
Qed.

(** A function without arguments has a single input, the empty list,
    fewer than [maxTests = 5]; its run stops on [MAXTESTS]. *)
Lemma no_arguments_stops_on_tests :
  let host := demoHost identityExports noValidator alternatingBool in
  let env := envOf (demoOptions 5 100) [] [] in
  (forall g,
      stringifyIo host
        (fst (generateInput host (getArgDefs (function env)) g)) = "[]")
  /\ fuzz host 10 env [] = Some (Ok (demoRun host 10 env []))
  /\ stopReason (demoRun host 10 env []) = MAXTESTS
  /\ res_inputsGenerated (demoRun host 10 env []) = 5
  /\ dupesGenerated (demoRun host 10 env []) = 0.
Proof.
  cbv zeta.
  split; [intros g; reflexivity|].
  split; [vm_compute; reflexivity|].
  split; [vm_compute; reflexivity|].
  split; vm_compute; reflexivity.
Qed.

(* ===================================================================== *)
(** * Further properties of the loop *)
(* ===================================================================== *)

Lemma checkStopCondition_None_failures (env : FuzzEnv)
    (generated current total failed startTime now : Z) :
  _checkStopCondition env generated current total failed startTime now
  = None ->
  maxFailures (options env) = 0 \/ failed < maxFailures (options env).
Proof.
  unfold _checkStopCondition.
  destruct (_ >=? suiteTimeout _); [discriminate|].
  destruct (_ >=? maxTests _); [discriminate|].
  destruct (Z.eqb_spec (maxFailures (options env)) 0) as [Hz|Hz];
    [intros _; left; exact Hz|].
  destruct (Z.geb_spec failed (maxFailures (options env))) as [Hf|Hf];
    [discriminate|].
  intros _. right. lia.
Qed.

Lemma checkStopCondition_reason (env : FuzzEnv)
    (generated current total failed startTime now : Z)
    (reason : FuzzStopReason) :
  _checkStopCondition env generated current total failed startTime now
  = Some reason ->
  (reason = MAXTIME -> now - startTime >= suiteTimeout (options env))
  /\ (reason = MAXFAILURES ->
      maxFailures (options env) <> 0
      /\ failed >= maxFailures (options env)).
Proof.
  unfold _checkStopCondition.
  destruct (Z.geb_spec (now - startTime) (suiteTimeout (options env)))
    as [Ht|Ht].
  { intros Heq. injection Heq as <-. split; [lia|discriminate]. }
  destruct (_ >=? maxTests _).
  { intros Heq. injection Heq as <-. split; discriminate. }
  destruct (Z.eqb_spec (maxFailures (options env)) 0) as [Hz|Hz];
    destruct (Z.geb_spec failed (maxFailures (options env))) as [Hf|Hf];
    cbn; try destruct (_ >=? maxDupeInputs _);
    intros Heq; try discriminate; injection Heq as <-;
    split; intros; try discriminate; split; [assumption|lia].
Qed.

Section CheckedInvariant.
Variable host : Host.
Variable env : FuzzEnv.
Variable call : nat -> Budgeted (list JsValue) JsValue.

(** The invariant rule for properties that rely on the stop check: the
    body runs only in states in which no count is at its limit. *)
Lemma fuzzLoop_invariant_unstopped (Inv : LoopState host -> Prop)
    (startTime : Z) :
  (forall s, Inv s -> Inv (tick host s)) ->
  (forall s s', Inv s -> Unstopped env s ->
                loopBody host env call s = Ok s' -> Inv s') ->
  forall fuel s reason s',
    Inv s ->
    fuzzLoop host env call startTime fuel s = Some (Ok (reason, s')) ->
    Inv s'
    /\ _checkStopCondition env (inputsGenerated s') (currentDupeCount s')
         (totalDupeCount s') (failureCount s') startTime
         (getTime host (Nat.pred (ticks s'))) = Some reason.
Proof.
  intros Htick Hbody. induction fuel as [|fuel IH];
    intros s reason s' Hinv Hloop; [discriminate|].
  cbn [fuzzLoop] in Hloop.
  destruct (_checkStopCondition _ _ _ _ _ _ _) eqn:Hstop.
  - injection Hloop as <- <-. split; [auto|exact Hstop].
  - destruct (loopBody host env call (tick host s)) as [s1|e] eqn:Hb;
      [|discriminate].
    apply (IH s1); [|exact Hloop].
    apply (Hbody (tick host s)); [auto| |exact Hb].
    pose proof (checkStopCondition_None _ _ _ _ _ _ _ Hstop)
      as (_ & Htests & Hdupes).
    pose proof (checkStopCondition_None_failures _ _ _ _ _ _ _ Hstop).
    repeat split; assumption.
Qed.

Lemma failures_app (l : list FuzzTestResult) (r : FuzzTestResult) :
  failures (l ++ [r])
  = (failures l + if notOk (category r) then 1 else 0)%nat.
Proof.
  unfold failures. rewrite List.filter_app, length_app. cbn.
  destruct (notOk (category r)); reflexivity.
Qed.

Lemma loopBody_Accounting (pinned : list FuzzPinnedTest)
    (s s' : LoopState host) :
  Accounting env pinned s -> loopBody host env call s = Ok s' ->
  Accounting env pinned s'.
Proof.
  unfold Accounting.
  intros (Hcalls & Hpool & Hcd & Hig & Hlen & Hall & Honly & Hfail) Hbody.
  apply loopBody_cases in Hbody as (result & s1 & Hnext & Hcase).
  cbv zeta in Hcase.
  assert (Hstore : forall (r : FuzzTestResult) (s0 : LoopState host),
    resultsSoFar s0 = resultsSoFar s -> calls s0 = calls s ->
    failureCount s0 = failureCount s ->
    (length (resultsSoFar (storeResult host env r s0))
     <= calls (storeResult host env r s0))%nat
    /\ (onlyFailures (options env) = false ->
        length (resultsSoFar (storeResult host env r s0))
        = calls (storeResult host env r s0))
    /\ (onlyFailures (options env) = true ->
        Forall (fun r0 => category r0 <> Category.ok)
          (resultsSoFar (storeResult host env r s0)))
    /\ failureCount (storeResult host env r s0)
       = Z.of_nat (failures (resultsSoFar (storeResult host env r s0)))).
  { intros r s0 Hr Hc Hf. cbn -[failures]. rewrite Hr, Hc, Hf.
    destruct (onlyFailures (options env)) eqn:Ho.
    - specialize (Honly eq_refl). clear Hall.
      destruct (notOk (category r)) eqn:Hn; cbn -[failures];
        rewrite ?length_app, ?failures_app, ?Hn; cbn -[failures];
        (split; [lia|]); (split; [discriminate|]); (split; [|lia]);
        intros _; [|exact Honly].
      apply Forall_app. split; [exact Honly|]. constructor; [|constructor].
      intros Hok. rewrite Hok in Hn. discriminate.
    - specialize (Hall eq_refl). clear Honly.
      destruct (notOk (category r)) eqn:Hn; cbn -[failures];
        rewrite ?length_app, ?failures_app, ?Hn; cbn -[failures];
        (split; [lia|]); (split; [intros _; lia|]);
        (split; [discriminate|lia]). }
  destruct (nextInput_cases host env s) as [(l & t & Hp & Hn) | (Hp & Hn)].
  - rewrite Hn in Hnext. injection Hnext as <- <-.
    rewrite Hp, length_app in Hpool. cbn [length] in Hpool.
    destruct Hcase as [(_ & ->) | (_ & r & _ & ->)].
    + cbn -[failures]. repeat split; auto; lia.
    + destruct (Hstore r (rememberInput host env
                            (stringifyIo host (pt_input t))
                            (consumePinned host t l s)))
        as (H1 & H2 & H3 & H4); try reflexivity.
      split; [cbn; lia|]. split; [cbn; lia|]. split; [cbn; lia|].
      split; [cbn; lia|]. auto.
  - destruct (generateInput _ _ _) as [inp g]. rewrite Hn in Hnext.
    injection Hnext as <- <-.
    destruct Hcase as [(_ & ->) | (_ & r & _ & ->)].
    + cbn -[failures]. repeat split; auto; lia.
    + destruct (Hstore r (rememberInput host env (stringifyIo host inp)
                            (countGenerated host inp g s)))
        as (H1 & H2 & H3 & H4); try reflexivity.
      split; [cbn; lia|]. split; [cbn; lia|]. split; [cbn; lia|].
      split; [cbn; lia|]. auto.
Qed.

Lemma initialState_Accounting (pinned : list FuzzPinnedTest) :
  Accounting env pinned (initialState host env pinned).
Proof.
  unfold Accounting. cbn. repeat split; auto; try lia.
Qed.

Lemma loopBody_WithinLimits (s s' : LoopState host) :
  WithinLimits env s -> Unstopped env s -> 0 <= currentDupeCount s ->
  maxDupeInputs (options env) >= 0 ->
  loopBody host env call s = Ok s' -> WithinLimits env s'.
Proof.
  unfold WithinLimits, Unstopped.
  intros (Ht & Hd & Hf) (Ut & Ud & Uf) Hcd Hvalid Hbody.
  apply loopBody_cases in Hbody as (result & s1 & Hnext & Hcase).
  cbv zeta in Hcase.
  destruct (nextInput_cases host env s) as [(l & t & Hp & Hn) | (Hp & Hn)].
  - rewrite Hn in Hnext. injection Hnext as <- <-.
    destruct Hcase as [(_ & ->) | (_ & r & _ & ->)]; cbn;
      try destruct (notOk (category r)); repeat split; intros; lia.
  - destruct (generateInput _ _ _) as [inp g]. rewrite Hn in Hnext.
    injection Hnext as <- <-.
    destruct Hcase as [(_ & ->) | (_ & r & _ & ->)]; cbn;
      try destruct (notOk (category r)); repeat split; intros; lia.
Qed.

End CheckedInvariant.

Lemma fuzzRun_Ok (host : Host) (fuel : nat) (env : FuzzEnv)
    (pinned : list FuzzPinnedTest) (stop : FuzzStopReason * LoopState host) :
  fuzzRun host fuel env pinned = Some (Ok stop) ->
  isOptionValid host (options env) = true
  /\ exists call,
      mod_ host (getName (function env)) = Some (ExportFunction call)
      /\ fuzzLoop host env call (getTime host 0) fuel
           (initialState host env pinned) = Some (Ok stop).
Proof.
  unfold fuzzRun.
  destruct (isOptionValid host (options env)); [|discriminate].
  cbn [negb].
  destruct (mod_ host _) as [[|call]|]; try discriminate.
  intros H. split; [reflexivity|]. exists call. auto.
Qed.

Lemma fuzz_Ok (host : Host) (fuel : nat) (env : FuzzEnv)
    (pinned : list FuzzPinnedTest) (res : FuzzTestResults) :
  fuzz host fuel env pinned = Some (Ok res) ->
  exists reason s,
    fuzzRun host fuel env pinned = Some (Ok (reason, s))
    /\ res = finish host env (reason, s).
Proof.
  unfold fuzz.
  destruct (fuzzRun host fuel env pinned) as [[[reason s]|e]|];
    try discriminate.
  intros H. injection H as <-. eauto.
Qed.

Lemma fuzzRun_Accounting (host : Host) (fuel : nat) (env : FuzzEnv)
    (pinned : list FuzzPinnedTest) (reason : FuzzStopReason)
    (s : LoopState host) :
  fuzzRun host fuel env pinned = Some (Ok (reason, s)) ->
  Accounting env pinned s.
Proof.
  intros Hrun. apply fuzzRun_Ok in Hrun as (_ & call & _ & Hloop).
  exact (proj1 (fuzzLoop_invariant host env call (Accounting env pinned)
                  (getTime host 0) (fun s0 Hs0 => Hs0)
                  (loopBody_Accounting host env call pinned)
                  fuel _ reason s
                  (initialState_Accounting host env pinned) Hloop)).
Qed.

Lemma isOptionValid_true (host : Host) (o : FuzzOptions) :
  isOptionValid host o = true ->
  maxTests o >= 0 /\ maxDupeInputs o >= 0 /\ maxFailures o >= 0.
Proof.
  unfold isOptionValid.
  destruct (Z.geb_spec (maxTests o) 0), (Z.geb_spec (maxDupeInputs o) 0),
    (Z.geb_spec (maxFailures o) 0); cbn; try discriminate. lia.
Qed.

Lemma fuzzRun_WithinLimits (host : Host) (fuel : nat) (env : FuzzEnv)
    (pinned : list FuzzPinnedTest) (reason : FuzzStopReason)
    (s : LoopState host) :
  fuzzRun host fuel env pinned = Some (Ok (reason, s)) ->
  WithinLimits env s
  /\ _checkStopCondition env (inputsGenerated s) (currentDupeCount s)
       (totalDupeCount s) (failureCount s) (getTime host 0)
       (getTime host (Nat.pred (ticks s))) = Some reason.
Proof.
  intros Hrun. apply fuzzRun_Ok in Hrun as (Hvalid & call & _ & Hloop).
  apply isOptionValid_true in Hvalid as (Ht & Hd & Hf).
  assert (Hbody : forall s0 s1 : LoopState host,
    WithinLimits env s0 /\ 0 <= currentDupeCount s0 ->
    Unstopped env s0 -> loopBody host env call s0 = Ok s1 ->
    WithinLimits env s1 /\ 0 <= currentDupeCount s1).
  { intros s0 s1 [Hlim Hcd] Hun Hbody. split.
    - eapply loopBody_WithinLimits; eauto.
    - apply loopBody_cases in Hbody as (result & s2 & Hnext & Hcase).
      cbv zeta in Hcase.
      assert (Hcd2 : currentDupeCount s2 = currentDupeCount s0).
      { destruct (nextInput_cases host env s0)
          as [(l & t & _ & Hn) | (_ & Hn)].
        - rewrite Hn in Hnext. injection Hnext as <- <-. reflexivity.
        - destruct (generateInput _ _ _). rewrite Hn in Hnext.
          injection Hnext as <- <-. reflexivity. }
      destruct Hcase as [(_ & ->) | (_ & r & _ & ->)]; cbn; lia. }
  assert (Hinit : WithinLimits env (initialState host env pinned)
                  /\ 0 <= currentDupeCount (initialState host env pinned)).
  { unfold WithinLimits. cbn. repeat split; lia. }
  destruct (fuzzLoop_invariant_unstopped host env call
              (fun s0 => WithinLimits env s0 /\ 0 <= currentDupeCount s0)
              (getTime host 0) (fun s0 Hs0 => Hs0) Hbody
              fuel _ reason s Hinit Hloop) as [[Hlim _] Hstop].
  auto.
Qed.

(** X1.  What a finished run reports adds up: it holds at most one
    result per input that was not a duplicate, exactly one when
    [onlyFailures] is off; and it replayed no more saved inputs than were
    supplied. *)
Theorem results_add_up (host : Host) (fuel : nat) (env : FuzzEnv)
    (pinned : list FuzzPinnedTest) (res : FuzzTestResults) :
  fuzz host fuel env pinned = Some (Ok res) ->
  Z.of_nat (length (results res))
  <= inputsSaved res + res_inputsGenerated res - dupesGenerated res
  /\ (onlyFailures (options env) = false ->
      Z.of_nat (length (results res))
      = inputsSaved res + res_inputsGenerated res - dupesGenerated res)
  /\ 0 <= inputsSaved res <= Z.of_nat (length pinned)
  /\ 0 <= dupesGenerated res
  /\ 0 <= res_inputsGenerated res.
Proof.
  intros Hfuzz. apply fuzz_Ok in Hfuzz as (reason & s & Hrun & ->).
  apply fuzzRun_Accounting in Hrun
    as (Hcalls & Hpool & Hcd & Hig & Hlen & Hall & _ & _).
  cbn. split; [lia|]. split; [|lia].
  intros Hoff. specialize (Hall Hoff). lia.
Qed.

Lemma results_add_up_witness :
  let host := demoHost throwingExports noValidator alternatingBool in
  let env := envOf (demoOptions 5 3) [boolArg] [] in
  let pool := [pinnedOn (JsBool true); pinnedOn (JsBool true)] in
  let res := demoRun host 20 env pool in
  Z.of_nat (length (results res))
  = inputsSaved res + res_inputsGenerated res - dupesGenerated res.
Proof.
  intros host env pool res.
  assert (Hrun : fuzz host 20 env pool = Some (Ok res))
    by (vm_compute; reflexivity).
  exact (proj1 (proj2 (results_add_up host 20 env pool res Hrun)) eq_refl).
Defined.

(** X2.  [failureCount] is the number of stored results whose category
    is not [ok]: a failing test is always stored, and with [onlyFailures]
    set nothing else is. *)
Theorem failures_are_stored (host : Host) (fuel : nat) (env : FuzzEnv)
    (pinned : list FuzzPinnedTest) (reason : FuzzStopReason)
    (s : LoopState host) :
  fuzzRun host fuel env pinned = Some (Ok (reason, s)) ->
  failureCount s = Z.of_nat (failures (resultsSoFar s))
  /\ (onlyFailures (options env) = true ->
      Forall (fun r => category r <> Category.ok) (resultsSoFar s)
      /\ failureCount s = Z.of_nat (length (resultsSoFar s))).
Proof.
  intros Hrun.
  apply fuzzRun_Accounting in Hrun as (_ & _ & _ & _ & _ & _ & Honly & Hf).
  split; [exact Hf|]. intros Hon. specialize (Honly Hon).
  split; [exact Honly|]. rewrite Hf. f_equal. unfold failures.
  clear Hf. induction Honly as [|r l Hr _ IH]; [reflexivity|].
  cbn. destruct (category r); cbn; congruence.
Qed.

Lemma failures_are_stored_witness :
  let host := demoHost throwingExports noValidator alternatingBool in
  let env := envOf (demoOptions 5 3) [boolArg] [] in
  let s := snd (demoFinal host 20 env []) in
  failureCount s = Z.of_nat (failures (resultsSoFar s)).
Proof.
  intros host env s.
  assert (Hrun : fuzzRun host 20 env []
                 = Some (Ok (fst (demoFinal host 20 env []), s)))
    by (vm_compute; reflexivity).
  exact (proj1 (failures_are_stored host 20 env [] _ s Hrun)).
Defined.

(** X3.  A finished run never reports [CRASH] and never overshoots a
    limit: [inputsGenerated - totalDupeCount <= maxTests],
    [currentDupeCount <= maxDupeInputs] and, when [maxFailures] is not
    0, [failureCount <= maxFailures]; and the count named by the stop
    reason has reached its limit exactly. *)
Theorem limits_are_met_exactly (host : Host) (fuel : nat) (env : FuzzEnv)
    (pinned : list FuzzPinnedTest) (reason : FuzzStopReason)
    (s : LoopState host) :
  fuzzRun host fuel env pinned = Some (Ok (reason, s)) ->
  reason <> CRASH
  /\ inputsGenerated s - totalDupeCount s <= maxTests (options env)
  /\ currentDupeCount s <= maxDupeInputs (options env)
  /\ (maxFailures (options env) <> 0 ->
      failureCount s <= maxFailures (options env))
  /\ (reason = MAXTESTS ->
      inputsGenerated s - totalDupeCount s = maxTests (options env))
  /\ (reason = MAXFAILURES ->
      maxFailures (options env) <> 0
      /\ failureCount s = maxFailures (options env))
  /\ (reason = MAXDUPES ->
      currentDupeCount s = maxDupeInputs (options env)).
Proof.
  intros Hrun.
  apply fuzzRun_WithinLimits in Hrun as [(Ht & Hd & Hf) Hstop].
  pose proof (checkStopCondition_Some _ _ _ _ _ _ _ _ Hstop)
    as (Hany & Htests & Hdupes).
  pose proof (checkStopCondition_reason _ _ _ _ _ _ _ _ Hstop)
    as (_ & Hfail).
  split.
  { destruct Hany as [->|[->|[->| ->]]]; discriminate. }
  split; [exact Ht|]. split; [exact Hd|]. split; [exact Hf|].
  split; [intros Hr; specialize (Htests Hr); lia|].
  split.
  - intros Hr. destruct (Hfail Hr) as [Hnz Hge]. split; [exact Hnz|].
    specialize (Hf Hnz). lia.
  - intros Hr. destruct (Hdupes Hr). lia.
Qed.

Lemma limits_are_met_exactly_witness :
  let host := demoHost throwingExports noValidator alternatingBool in
  let env := envOf (demoOptions 5 3) [boolArg] [] in
  let reason := fst (demoFinal host 20 env []) in
  let s := snd (demoFinal host 20 env []) in
  reason = MAXDUPES /\ currentDupeCount s = maxDupeInputs (options env).
Proof.
  intros host env reason s.
  assert (Hrun : fuzzRun host 20 env [] = Some (Ok (reason, s)))
    by (vm_compute; reflexivity).
  assert (Hreason : reason = MAXDUPES) by (vm_compute; reflexivity).
  split; [exact Hreason|].
  exact (proj2 (proj2 (proj2 (proj2 (proj2 (proj2
           (limits_are_met_exactly host 20 env [] reason s Hrun))))))
         Hreason).
Defined.

(** X4.  In a finished run the function under test was called at most
    once per pinned test plus [maxTests] times, and no more results are
    stored than calls were made. *)
Theorem calls_are_bounded (host : Host) (fuel : nat) (env : FuzzEnv)
    (pinned : list FuzzPinnedTest) (reason : FuzzStopReason)
    (s : LoopState host) :
  fuzzRun host fuel env pinned = Some (Ok (reason, s)) ->
  Z.of_nat (calls s)
  <= Z.of_nat (length pinned) + maxTests (options env)
  /\ (length (resultsSoFar s) <= calls s)%nat.
Proof.
  intros Hrun.
  pose proof (fuzzRun_WithinLimits _ _ _ _ _ _ Hrun) as [(Ht & _) _].
  apply fuzzRun_Accounting in Hrun
    as (Hcalls & Hpool & _ & _ & Hlen & _).
  split; [lia|exact Hlen].
Qed.

Lemma calls_are_bounded_witness :
  let host := demoHost identityExports noValidator alternatingBool in
  let env := envOf (demoOptions 5 3) [boolArg] [] in
  let pool := [pinnedOn (JsBool true); pinnedOn (JsBool true)] in
  let s := snd (demoFinal host 20 env pool) in
  Z.of_nat (calls s) <= Z.of_nat (length pool) + maxTests (options env)
  /\ (length (resultsSoFar s) <= calls s)%nat.
Proof.
  intros host env pool s.
  assert (Hrun : fuzzRun host 20 env pool
                 = Some (Ok (fst (demoFinal host 20 env pool), s)))
    by (vm_compute; reflexivity).
  exact (calls_are_bounded host 20 env pool _ s Hrun).
Defined.

(** X5.  Every run ends, whatever the options, the module, the
    generators and the clock: the loop makes at most
    [(2 d + 2) p + (d + 1) max(0, maxTests) + d] turns, where [p] is the
    number of pinned tests and [d] is [max(0, maxDupeInputs)]. *)
Theorem fuzz_always_ends (host : Host) (env : FuzzEnv)
    (pinned : list FuzzPinnedTest) (fuel : nat) :
  let d := Z.max 0 (maxDupeInputs (options env)) in
  (2 * d + 2) * Z.of_nat (length pinned)
  + (d + 1) * Z.max 0 (maxTests (options env)) + d
  < Z.of_nat fuel ->
  fuzz host fuel env pinned <> None.
Proof.
  cbv zeta. intros Hfuel. unfold fuzz.
  enough (fuzzRun host fuel env pinned <> None) as Hrun
    by (destruct (fuzzRun host fuel env pinned) as [[?|?]|];
        [discriminate|discriminate|contradiction]).
  unfold fuzzRun. destruct (negb _); [discriminate|].
  destruct (mod_ host _) as [[|call]|]; try discriminate.
  apply fuzzLoop_terminates. unfold loopMeasure. cbn.
  rewrite Z.sub_0_r. lia.
Qed.

Lemma fuzz_always_ends_witness :
  fuzz (demoHost identityExports noValidator alternatingBool) 30
    (envOf (demoOptions 5 3) [boolArg] []) [] <> None.
Proof.
  apply (fuzz_always_ends
           (demoHost identityExports noValidator alternatingBool)
           (envOf (demoOptions 5 3) [boolArg] []) [] 30).
  vm_compute. reflexivity.
Defined.

(** X6.  With [maxTests = 0] or [maxDupeInputs = 0], both valid, the
    first stop check stops the run: no pinned test is replayed, no input
    is generated and no result is returned. *)
Theorem zero_limit_runs_nothing (host : Host) (env : FuzzEnv)
    (pinned : list FuzzPinnedTest) (fuel : nat)
    (call : nat -> Budgeted (list JsValue) JsValue) :
  isOptionValid host (options env) = true ->
  mod_ host (getName (function env)) = Some (ExportFunction call) ->
  maxTests (options env) = 0 \/ maxDupeInputs (options env) = 0 ->
  exists res,
    fuzz host (S fuel) env pinned = Some (Ok res)
    /\ results res = [] /\ inputsSaved res = 0
    /\ res_inputsGenerated res = 0 /\ dupesGenerated res = 0
    /\ (stopReason res = MAXTIME \/ stopReason res = MAXTESTS
        \/ stopReason res = MAXFAILURES \/ stopReason res = MAXDUPES).
Proof.
  intros Hvalid Hmember Hzero.
  unfold fuzz, fuzzRun. rewrite Hvalid, Hmember. cbn [negb fuzzLoop].
  destruct (_checkStopCondition _ _ _ _ _ _ _) as [reason|] eqn:Hstop.
  - eexists. split; [reflexivity|]. cbn.
    apply checkStopCondition_Some in Hstop as (Hany & _). auto.
  - exfalso. apply checkStopCondition_None in Hstop as (_ & Ht & Hd).
    cbn in Ht, Hd. lia.
Qed.

Lemma zero_limit_runs_nothing_witness :
  exists res,
    fuzz (demoHost identityExports noValidator alternatingBool) 1
      (envOf (demoOptions 0 100) [boolArg] [])
      [pinnedOn (JsBool true)] = Some (Ok res)
    /\ results res = [] /\ inputsSaved res = 0
    /\ res_inputsGenerated res = 0 /\ dupesGenerated res = 0
    /\ (stopReason res = MAXTIME \/ stopReason res = MAXTESTS
        \/ stopReason res = MAXFAILURES \/ stopReason res = MAXDUPES).
Proof.
  exact (zero_limit_runs_nothing
           (demoHost identityExports noValidator alternatingBool)
           (envOf (demoOptions 0 100) [boolArg] [])
           [pinnedOn (JsBool true)] 0
           (fun _ _ args => Returns (nth 0 args JsUndefined))
           eq_refl eq_refl (or_introl eq_refl)).
Defined.

(** X7.  When a run stops on [MAXTIME] and the clock does not run
    backwards, the elapsed time it reports is at least [suiteTimeout]. *)
Theorem maxtime_means_time_is_up (host : Host) (fuel : nat)
    (env : FuzzEnv) (pinned : list FuzzPinnedTest)
    (res : FuzzTestResults) :
  (forall i j, (i <= j)%nat -> getTime host i <= getTime host j) ->
  fuzz host fuel env pinned = Some (Ok res) ->
  stopReason res = MAXTIME ->
  elapsedTime res >= suiteTimeout (options env).
Proof.
  intros Hmono Hfuzz Hreason.
  apply fuzz_Ok in Hfuzz as (reason & s & Hrun & ->). cbn in *. subst reason.
  apply fuzzRun_WithinLimits in Hrun as [_ Hstop].
  apply checkStopCondition_reason in Hstop as (Htime & _).
  specialize (Htime eq_refl).
  pose proof (Hmono (Nat.pred (ticks s)) (ticks s) (Nat.le_pred_l _)). lia.
Qed.

Lemma maxtime_means_time_is_up_witness :
  let host := demoHost identityExports noValidator alternatingBool in
  let env := envOf hurriedOptions [boolArg] [] in
  let res := demoRun host 10 env [] in
  elapsedTime res >= suiteTimeout (options env).
Proof.
  intros host env res.
  assert (Hmono : forall i j, (i <= j)%nat ->
                    getTime host i <= getTime host j)
    by (intros i j Hij; cbn; lia).
  assert (Hrun : fuzz host 10 env [] = Some (Ok res))
    by (vm_compute; reflexivity).
  assert (Hreason : stopReason res = MAXTIME) by (vm_compute; reflexivity).
  exact (maxtime_means_time_is_up host 10 env [] res Hmono Hrun Hreason).
Defined.

(** ** What the stored results are *)

Lemma callFunction_identity (host : Host) (env : FuzzEnv)
    (target : Budgeted (list JsValue) JsValue)
    (result r : FuzzTestResult) :
  callFunction host env target result = Ok r ->
  pinned r = pinned result /\ input r = input result
  /\ expectedOutput r = expectedOutput result.
Proof.
  unfold callFunction.
  destruct (fnWrapper _ _ _) as [v|e].
  - intros H. injection H as <-. repeat split.
  - destruct (isTimeoutError e) as [[|]|]; cbn [bindExc];
      [| destruct (messageOf e); cbn [bindExc] |];
      intros H; try discriminate; injection H as <-; repeat split.
Qed.

Lemma runTest_identity (host : Host) (env : FuzzEnv)
    (target : Budgeted (list JsValue) JsValue) (testNo : nat)
    (result r : FuzzTestResult) :
  runTest host env target testNo result = Ok r ->
  pinned r = pinned result /\ input r = input result
  /\ expectedOutput r = expectedOutput result.
Proof.
  intros Hrun. apply runTest_frame in Hrun as (called & Hcalled & Hrun).
  destruct Hrun as (Hp & Hi & _ & _ & _ & _ & _ & He). unfold tested in *.
  destruct (applyHuman_call host env (applyImplicit env called))
    as (Hp1 & Hi1 & _ & _ & _ & _ & He1 & _).
  destruct (applyImplicit_call env called)
    as (Hp2 & Hi2 & _ & _ & _ & _ & He2 & _).
  destruct (callFunction_identity host env target result called Hcalled)
    as (Hp3 & Hi3 & He3).
  repeat split; congruence.
Qed.

Lemma generateInput_names (host : Host) (args : list ArgDef)
    (g : Prng host) :
  map name (fst (generateInput host args g)) = map arg_getName args
  /\ map offset (fst (generateInput host args g))
     = map arg_getOffset args.
Proof.
  revert g. induction args as [|a rest IH]; intros g; [split; reflexivity|].
  cbn [generateInput]. destruct (GeneratorFactory host a g) as [v g1].
  specialize (IH g1). destruct (generateInput host rest g1) as [more g2].
  cbn in *. destruct IH as [-> ->]. split; reflexivity.
Qed.

Section StoredResults.
Variable host : Host.
Variable env : FuzzEnv.
Variable call : nat -> Budgeted (list JsValue) JsValue.

Lemma loopBody_hashes (s s' : LoopState host) :
  getArgDefs (function env) <> [] ->
  NoDup (map (hashOfResult host) (resultsSoFar s))
  /\ (forall r, In r (resultsSoFar s) ->
        is_Some (allInputs s !! hashOfResult host r)) ->
  loopBody host env call s = Ok s' ->
  NoDup (map (hashOfResult host) (resultsSoFar s'))
  /\ (forall r, In r (resultsSoFar s') ->
        is_Some (allInputs s' !! hashOfResult host r)).
Proof.
  intros Hargs [Hnodup Hseen] Hbody.
  assert (Hlen : negb (Nat.eqb (length (getArgDefs (function env))) 0)
                 = true)
    by (destruct (getArgDefs (function env)); [contradiction|reflexivity]).
  apply loopBody_cases in Hbody as (result & s1 & Hnext & Hcase).
  cbv zeta in Hcase.
  assert (Hs1 : allInputs s1 = allInputs s
                /\ resultsSoFar s1 = resultsSoFar s).
  { destruct (nextInput_cases host env s) as [(l & t & _ & Hn) | (_ & Hn)].
    - rewrite Hn in Hnext. injection Hnext as <- <-. split; reflexivity.
    - destruct (generateInput _ _ _). rewrite Hn in Hnext.
      injection Hnext as <- <-. split; reflexivity. }
  destruct Hs1 as [Ha Hr].
  destruct Hcase as [(_ & ->) | (Hnone & r & Hrun & ->)]; cbn.
  - rewrite Ha, Hr. split; assumption.
  - rewrite Ha, Hr, Hlen.
    apply runTest_identity in Hrun as (_ & Hin & _).
    assert (Hkey : hashOfResult host r = stringifyIo host (input result))
      by (unfold hashOfResult; rewrite Hin; reflexivity).
    assert (Hold : forall r0, In r0 (resultsSoFar s) ->
              is_Some (<[stringifyIo host (input result) := true]>
                         (allInputs s) !! hashOfResult host r0)).
    { intros r0 Hr0. specialize (Hseen r0 Hr0).
      destruct (decide (stringifyIo host (input result)
                        = hashOfResult host r0)) as [<-|Hne].
      - rewrite lookup_insert_eq. eauto.
      - rewrite lookup_insert_ne by exact Hne. exact Hseen. }
    destruct (_ || _); [|split; assumption].
    split.
    + rewrite map_app. apply NoDup_app. split; [exact Hnodup|].
      split; [|cbn; apply NoDup_singleton].
      intros h Hh Hh'. cbn in Hh'. apply list_elem_of_singleton in Hh'.
      subst h. rewrite Hkey in Hh.
      apply list_elem_of_In, in_map_iff in Hh as (r0 & Hk0 & Hr0).
      specialize (Hseen r0 Hr0). rewrite Hk0, Hnone in Hseen.
      destruct Hseen as [? ?]. discriminate.
    + intros r0 Hr0. apply in_app_or in Hr0 as [Hr0|[<-|[]]]; [auto|].
      rewrite Hkey, lookup_insert_eq. eauto.
Qed.

Lemma loopBody_Provenance (pool : list FuzzPinnedTest)
    (s s' : LoopState host) :
  (forall t, In t (pinnedTests s) -> In t pool)
  /\ Forall (Provenance env pool) (resultsSoFar s) ->
  loopBody host env call s = Ok s' ->
  (forall t, In t (pinnedTests s') -> In t pool)
  /\ Forall (Provenance env pool) (resultsSoFar s').
Proof.
  intros [Hpool Hall] Hbody.
  apply loopBody_cases in Hbody as (result & s1 & Hnext & Hcase).
  cbv zeta in Hcase.
  assert (Hres : Provenance env pool result
                 /\ (forall t, In t (pinnedTests s1) -> In t pool)
                 /\ resultsSoFar s1 = resultsSoFar s).
  { destruct (nextInput_cases host env s) as [(l & t & Hp & Hn) | (Hp & Hn)].
    - rewrite Hn in Hnext. injection Hnext as <- <-. cbn.
      rewrite Hp in Hpool. split; [|split; [|reflexivity]].
      + left. exists t. split; [|repeat split].
        apply Hpool, in_or_app. right. left. reflexivity.
      + intros t0 Ht0. apply Hpool, in_or_app. left. exact Ht0.
    - pose proof (generateInput_names host (getArgDefs (function env))
                    (prng s)) as [Hnames Hoffs].
      destruct (generateInput _ _ _) as [inp g]. rewrite Hn in Hnext.
      injection Hnext as <- <-. cbn in *.
      split; [|split; [|reflexivity]].
      + right. repeat split; assumption.
      + exact Hpool. }
  destruct Hres as (Hprov & Hpool1 & Hr).
  destruct Hcase as [(_ & ->) | (_ & r & Hrun & ->)]; cbn.
  - rewrite Hr. split; assumption.
  - rewrite Hr. split; [exact Hpool1|].
    destruct (_ || _); [|exact Hall].
    apply Forall_app. split; [exact Hall|]. constructor; [|constructor].
    apply runTest_identity in Hrun as (Hp & Hi & He).
    unfold Provenance in *. rewrite Hp, Hi, He. exact Hprov.
Qed.

End StoredResults.

(** X8.  For a function with at least one argument, no input is stored
    twice: the stored results have pairwise distinct input
    serialisations. *)
Theorem no_input_is_stored_twice (host : Host) (fuel : nat)
    (env : FuzzEnv) (pinned : list FuzzPinnedTest)
    (res : FuzzTestResults) :
  getArgDefs (function env) <> [] ->
  fuzz host fuel env pinned = Some (Ok res) ->
  NoDup (map (fun r => stringifyIo host (input r)) (results res)).
Proof.
  intros Hargs Hfuzz. apply fuzz_Ok in Hfuzz as (reason & s & Hrun & ->).
  apply fuzzRun_Ok in Hrun as (_ & call & _ & Hloop). cbn [results finish].
  refine (proj1 (proj1 (fuzzLoop_invariant host env call
            (fun s0 =>
               NoDup (map (hashOfResult host) (resultsSoFar s0))
               /\ (forall r, In r (resultsSoFar s0) ->
                     is_Some (allInputs s0 !! hashOfResult host r)))
            _ (fun s0 Hs0 => Hs0) _ _ _ _ _ _ Hloop))).
  - intros s0 s1. apply loopBody_hashes. exact Hargs.
  - cbn. split; [apply NoDup_nil_2 | intros r []].
Qed.

(** X9.  Every stored result is either the replay of one of the pinned
    tests supplied, with that test's input, pinned flag and expected
    output, or the test of a generated input: not pinned, without
    expected output, and holding one value per argument under the
    argument's name and offset, in declared order. *)
Theorem results_come_from_pinned_or_generated (host : Host) (fuel : nat)
    (env : FuzzEnv) (pool : list FuzzPinnedTest) (res : FuzzTestResults) :
  fuzz host fuel env pool = Some (Ok res) ->
  Forall (Provenance env pool) (results res).
Proof.
  intros Hfuzz. apply fuzz_Ok in Hfuzz as (reason & s & Hrun & ->).
  apply fuzzRun_Ok in Hrun as (_ & call & _ & Hloop). cbn [results finish].
  refine (proj2 (proj1 (fuzzLoop_invariant host env call
            (fun s0 =>
               (forall t, In t (pinnedTests s0) -> In t pool)
               /\ Forall (Provenance env pool) (resultsSoFar s0))
            _ (fun s0 Hs0 => Hs0) _ _ _ _ _ _ Hloop))).
  - intros s0 s1. apply loopBody_Provenance.
  - cbn. split; [auto|constructor].
Qed.

Lemma no_input_is_stored_twice_witness :
  let host := demoHost identityExports noValidator alternatingBool in
  let env := envOf (demoOptions 5 3) [boolArg] [] in
  let pool := [pinnedOn (JsBool true); pinnedOn (JsBool true)] in
  NoDup (map (fun r => stringifyIo host (input r))
           (results (demoRun host 20 env pool))).
Proof.
  intros host env pool.
  assert (Hargs : getArgDefs (function env) <> []) by discriminate.
  assert (Hrun : fuzz host 20 env pool
                 = Some (Ok (demoRun host 20 env pool)))
    by (vm_compute; reflexivity).
  exact (no_input_is_stored_twice host 20 env pool _ Hargs Hrun).
Defined.

Lemma results_come_from_pinned_or_generated_witness :
  let host := demoHost identityExports noValidator alternatingBool in
  let env := envOf (demoOptions 5 3) [boolArg] [] in
  let pool := [pinnedOn (JsBool true)] in
  Forall (Provenance env pool) (results (demoRun host 20 env pool)).
Proof.
  intros host env pool.
  assert (Hrun : fuzz host 20 env pool
                 = Some (Ok (demoRun host 20 env pool)))
    by (vm_compute; reflexivity).
  exact (results_come_from_pinned_or_generated host 20 env pool _ Hrun).
Defined.

(** ** More on one test *)

Section OneTest.
Variable host : Host.
Variable env : FuzzEnv.
Variable testNo : nat.

Lemma forValidators_message (vals : list FunctionRef)
    (result r : FuzzTestResult) :
  forValidators host env testNo vals result = Ok r ->
  exceptionMessage r = exceptionMessage result.
Proof.
  revert result. induction vals as [|valFn rest IH]; intros result H.
  - injection H as <-. reflexivity.
  - rewrite forValidators_step in H.
    destruct (verdictOf host env testNo valFn result) as [b|e|];
      [|destruct (messageOf e); [|discriminate]|discriminate];
      apply IH in H; rewrite H; reflexivity.
Qed.

Lemma runTest_message (target : Budgeted (list JsValue) JsValue)
    (result r : FuzzTestResult) :
  runTest host env target testNo result = Ok r ->
  exists called,
    callFunction host env target result = Ok called
    /\ exceptionMessage r = exceptionMessage called.
Proof.
  intros Hrun.
  apply runTest_called in Hrun as (called & checked & Hcalled & Hval & ->).
  exists called. split; [exact Hcalled|]. cbn.
  assert (Ht : exceptionMessage (tested host env called)
               = exceptionMessage called).
  { unfold tested, applyHuman, applyImplicit.
    destruct (useHuman _), (useImplicit _); cbn;
      try destruct (expectedOutput _);
      try destruct (exception _ || timeout _);
      try destruct (isVoid _); reflexivity. }
  rewrite <- Ht. unfold applyValidators in Hval.
  destruct (negb _ && _).
  - destruct (forValidators _ _ _ _ _) as [r'|e] eqn:Hfor; [|discriminate].
    cbn [bindExc] in Hval. injection Hval as <-.
    apply forValidators_message in Hfor. cbn in *. congruence.
  - injection Hval as <-. reflexivity.
Qed.

(** When every validator returns, the loop collects the verdicts in
    order and leaves the exception fields alone. *)
Lemma forValidators_all_return (vals : list FunctionRef) (bs : list bool)
    (result : FuzzTestResult) (acc : list (option bool)) :
  Forall2 (fun valFn b =>
             verdictOf host env testNo valFn result = Returns b) vals bs ->
  passedValidators result = Some acc ->
  exists r,
    forValidators host env testNo vals result = Ok r
    /\ passedValidators r = Some (acc ++ map Some bs)
    /\ validatorException r = validatorException result.
Proof.
  revert bs result acc.
  induction vals as [|valFn rest IH]; intros bs result acc Hall Hacc.
  - inversion Hall; subst. exists result. cbn. rewrite app_nil_r. auto.
  - inversion Hall as [|? b ? bs' Hhead Hrest]; subst.
    rewrite forValidators_step, Hhead.
    destruct (IH bs'
                (set_validatorException (validatorException result)
                   (validatorExceptionFunction result)
                   (validatorExceptionMessage result)
                   (push_passedValidators (Some b)
                      (set_category (categorizeResult result env) result)))
                (acc ++ [Some b])) as (r & Hr & Hv & He).
    + eapply Forall2_impl; [exact Hrest|]. intros v b' Hv.
      rewrite <- Hv. apply verdict_SameCall. repeat split.
    + cbn. rewrite Hacc. reflexivity.
    + exists r. split; [exact Hr|]. split; [|exact He].
      rewrite Hv, <- app_assoc. reflexivity.
Qed.

End OneTest.

Lemma fold_jsAnd (bs : list bool) (a : bool) :
  fold_left jsAnd (map Some bs) (Some a) = Some (a && forallb id bs).
Proof.
  revert a. induction bs as [|b rest IH]; intros a.
  - cbn. rewrite andb_true_r. reflexivity.
  - cbn [map fold_left forallb]. 
    replace (jsAnd (Some a) (Some b)) with (Some (a && b))
      by (destruct a, b; reflexivity).
    rewrite IH, andb_assoc. reflexivity.
Qed.

(** X10.  When the call is recorded and every validator returns,
    [passedValidators] holds their verdicts in the order of
    [env.validators], [passedValidator] is their conjunction, and no
    validator exception is recorded. *)
Theorem validator_verdicts_are_anded (host : Host) (env : FuzzEnv)
    (target : Budgeted (list JsValue) JsValue) (testNo : nat)
    (isPinned : bool) (inp : list FuzzIoElement)
    (expected : option (list FuzzIoElement)) (called : FuzzTestResult)
    (bs : list bool) :
  let result := newResult isPinned inp expected in
  callFunction host env target result = Ok called ->
  useProperty (options env) = true ->
  validators env <> [] ->
  Forall2 (fun valFn b =>
             verdictOf host env testNo valFn (tested host env called)
             = Returns b)
    (validators env) bs ->
  exists r,
    runTest host env target testNo result = Ok r
    /\ passedValidators r = Some (map Some bs)
    /\ passedValidator r = Some (forallb id bs)
    /\ validatorException r = false.
Proof.
  cbv zeta. intros Hcalled Hprop Hsome Hall.
  destruct (forValidators_all_return host env testNo (validators env) bs
              (set_passedValidators (Some []) (tested host env called))
              []) as (r & Hr & Hv & He).
  { eapply Forall2_impl; [exact Hall|]. intros v b Hv.
    rewrite <- Hv. apply verdict_SameCall. repeat split. }
  { reflexivity. }
  assert (Hchecked :
    applyValidators host env testNo (tested host env called)
    = Ok (set_passedValidator
            (fold_left jsAnd
               (match passedValidators r with Some l => l | None => [] end)
               (Some true)) r)).
  { unfold applyValidators. rewrite Hprop.
    destruct (validators env) as [|v0 vs] eqn:Hvals; [contradiction|].
    cbn [length Nat.eqb negb andb]. rewrite Hr. reflexivity. }
  eexists. split.
  { exact (runTest_of_called host env target testNo _ _ _ Hcalled Hchecked). }
  cbn. rewrite Hv. cbn [app]. split; [reflexivity|].
  split; [rewrite fold_jsAnd; reflexivity|].
  rewrite He. cbn.
  destruct (applyHuman_call host env (applyImplicit env called))
    as (_ & _ & _ & _ & _ & _ & _ & Hve & _).
  destruct (applyImplicit_call env called)
    as (_ & _ & _ & _ & _ & _ & _ & Hve2 & _).
  unfold tested. rewrite Hve, Hve2.
  pose proof (callFunction_cases host env target
                (newResult isPinned inp expected)) as Hc.
  cbv zeta in Hc.
  destruct (target _ _) as [v|[c m|v]|]; rewrite Hcalled in Hc;
    try discriminate; injection Hc as ->;
    try destruct (hasTimeoutCode c); reflexivity.
Qed.

Lemma validator_verdicts_are_anded_witness :
  exists r,
    runTest (demoHost identityExports verdictValidators alternatingBool)
      (envOf (demoOptions 5 3) [boolArg]
         [{| ref_name := "fAccepts" |}; {| ref_name := "fRejects" |}])
      (fun _ args => Returns (nth 0 args JsUndefined)) 0%nat
      (newResult false (pt_input (pinnedOn (JsBool true))) None) = Ok r
    /\ passedValidators r = Some (map Some [true; false])
    /\ passedValidator r = Some (forallb id [true; false])
    /\ validatorException r = false.
Proof.
  apply (validator_verdicts_are_anded
           (demoHost identityExports verdictValidators alternatingBool)
           (envOf (demoOptions 5 3) [boolArg]
              [{| ref_name := "fAccepts" |}; {| ref_name := "fRejects" |}])
           (fun _ args => Returns (nth 0 args JsUndefined)) 0%nat
           false (pt_input (pinnedOn (JsBool true))) None _ [true; false]
           eq_refl).
  - reflexivity.
  - discriminate.
  - repeat constructor.
Defined.

(** X11.  When the call timed out or threw an object, the human oracle
    passes the test exactly when the first expected output carries the
    matching mark: [isTimeout] for a timeout, [isException] for an
    exception.  With no validator run, such a test is then categorised
    [ok], whatever the implicit oracle says, and otherwise [timeout] or
    [exception].  A thrown value that is not an object ends the run
    before the human oracle is reached. *)
Theorem expected_failure_passes (host : Host) (env : FuzzEnv)
    (target : Budgeted (list JsValue) JsValue) (testNo : nat)
    (isPinned : bool) (inp expected : list FuzzIoElement) :
  let completion :=
    target (fnTimeout (options env)) (map value (map (copyIo host) inp)) in
  let run :=
    runTest host env target testNo (newResult isPinned inp (Some expected)) in
  let timedOut := recordedAsTimeout completion in
  let matches :=
    expectsMark (if timedOut then isTimeout else isException) expected in
  useHuman (options env) = true ->
  useProperty (options env) = false \/ validators env = [] ->
  (forall v, completion <> Returns v) ->
  ((forall v, completion <> Throws (ThrownPrimitive v)) ->
   exists r,
     run = Ok r
     /\ passedHuman r = Some matches
     /\ category r
        = if matches then Category.ok
          else if timedOut then Category.timeout else Category.exception)
  /\ (forall v, completion = Throws (ThrownPrimitive v) ->
      exists typeErr, run = Raise typeErr).
Proof.
  cbv zeta. intros Hhuman Hidle Hfail.
  assert (Hoff : negb (Nat.eqb (length (validators env)) 0)
                 && useProperty (options env) = false).
  { destruct Hidle as [-> | ->]; [apply andb_false_r | reflexivity]. }
  pose proof (callFunction_cases host env target
                (newResult isPinned inp (Some expected))) as Hc.
  cbv zeta in Hc. cbn [input newResult] in Hc.
  split.
  - intros Hobj.
    destruct (callFunction_total host env target
                (newResult isPinned inp (Some expected)) Hobj)
      as (called & Hcalled).
    assert (Hchecked :
      applyValidators host env testNo (tested host env called)
      = Ok (tested host env called)).
    { unfold applyValidators. rewrite Hoff. reflexivity. }
    eexists. split.
    { exact (runTest_of_called host env target testNo _ _ _
               Hcalled Hchecked). }
    destruct (target _ _) as [v|[c m|v]|];
      [exfalso; exact (Hfail v eq_refl)| | |];
      rewrite Hcalled in Hc; try discriminate; injection Hc as ->.
    + unfold recordedAsTimeout, isTimeoutError. fold (hasTimeoutCode c).
      destruct (hasTimeoutCode c); unfold tested, applyImplicit;
        destruct (useImplicit _); cbn; unfold applyHuman; rewrite Hhuman;
        cbn; unfold expectsMark, truthy;
        destruct expected as [|x rest]; cbn;
        try destruct (isTimeout x) as [[|]|];
        try destruct (isException x) as [[|]|]; cbn; auto.
    + unfold recordedAsTimeout. cbn.
      unfold tested, applyImplicit; destruct (useImplicit _); cbn;
        unfold applyHuman; rewrite Hhuman; cbn; unfold expectsMark, truthy;
        destruct expected as [|x rest]; cbn;
        try destruct (isTimeout x) as [[|]|]; cbn; auto.
  - intros v Hthrow. rewrite Hthrow in Hc. unfold runTest. rewrite Hc.
    eexists. reflexivity.
Qed.

Lemma expected_failure_passes_witness :
  exists r,
    runTest (demoHost throwingExports noValidator alternatingBool)
      (envOf (demoOptions 5 3) [boolArg] [])
      (fun _ _ => Throws (newError "boom")) 0%nat
      (newResult true (pt_input pinnedExpectingException)
         (pt_expectedOutput pinnedExpectingException)) = Ok r
    /\ passedHuman r = Some true /\ category r = Category.ok.
Proof.
  refine (proj1 (expected_failure_passes
            (demoHost throwingExports noValidator alternatingBool)
            (envOf (demoOptions 5 3) [boolArg] [])
            (fun _ _ => Throws (newError "boom")) 0%nat true
            (pt_input pinnedExpectingException) _ eq_refl
            (or_intror eq_refl) _) _).
  - intros v; discriminate.
  - intros v; discriminate.
Defined.

(** X12.  With [useImplicit] off every test passes the implicit oracle.
    With it on, a call that returned [v] passes exactly when
    [implicitOracle v] holds, or, for a void function, when [v] is
    undefined: the wrapping output element adds nothing to the verdict. *)
Theorem implicit_verdict_of_a_return (host : Host) (env : FuzzEnv)
    (target : Budgeted (list JsValue) JsValue) (testNo : nat)
    (isPinned : bool) (inp : list FuzzIoElement)
    (expected : option (list FuzzIoElement)) (r : FuzzTestResult) :
  runTest host env target testNo (newResult isPinned inp expected) = Ok r ->
  (useImplicit (options env) = false -> passedImplicit r = true)
  /\ (useImplicit (options env) = true ->
      forall v,
        target (fnTimeout (options env))
          (map value (map (copyIo host) inp)) = Returns v ->
        passedImplicit r
        = if isVoid (function env) then negb (isDefined v)
          else implicitOracle v).
Proof.
  intros Hrun. apply runTest_frame in Hrun as (called & Hcalled & Hrun).
  destruct Hrun as (_ & _ & _ & _ & _ & Hpi & _). unfold tested in Hpi.
  destruct (applyHuman_call host env (applyImplicit env called))
    as (_ & _ & _ & _ & _ & Hpi' & _).
  rewrite Hpi' in Hpi. clear Hpi'. rewrite <- Hpi. clear Hpi.
  pose proof (callFunction_cases host env target
                (newResult isPinned inp expected)) as Hcall.
  cbv zeta in Hcall. cbn [input newResult] in Hcall.
  unfold applyImplicit. split.
  - intros ->.
    destruct (target _ _) as [v|[c m|v]|]; rewrite Hcalled in Hcall;
      try discriminate; injection Hcall as ->;
      try destruct (hasTimeoutCode c); reflexivity.
  - intros -> v Hret.
    rewrite Hret, Hcalled in Hcall. injection Hcall as ->. cbn.
    destruct (isVoid (function env)); cbn.
    + rewrite orb_false_r. reflexivity.
    + rewrite orb_false_r, negb_involutive.
      exact (implicitOracle_ioToJs
               {| name := "0"; offset := 0; value := v;
                  isTimeout := None; isException := None |}).
Qed.

Lemma implicit_verdict_of_a_return_witness :
  let host := demoHost identityExports noValidator alternatingBool in
  let env := envOf (demoOptions 5 3) [boolArg] [] in
  passedImplicit (resultOr (newResult false [] None) (demoTest host env))
  = implicitOracle (JsBool true).
Proof.
  intros host env.
  assert (Hrun : runTest host env
                   (fun _ args => Returns (nth 0 args JsUndefined)) 0%nat
                   (newResult false (pt_input (pinnedOn (JsBool true)))
                      None)
                 = Ok (resultOr (newResult false [] None)
                         (demoTest host env)))
    by (vm_compute; reflexivity).
  exact (proj2 (implicit_verdict_of_a_return host env _ 0%nat false _ None
                  _ Hrun) eq_refl (JsBool true) eq_refl).
Defined.

(** X13.  A thrown error is filed by its code alone: with the code
    [ERR_SCRIPT_EXECUTION_TIMEOUT] the test is recorded as a timeout,
    without a message, even when the function under test threw it
    itself; with any other code, or none, it is recorded as an exception
    with the error's message.  Either way there is no output. *)
Theorem thrown_error_is_filed_by_code (host : Host) (env : FuzzEnv)
    (target : Budgeted (list JsValue) JsValue) (testNo : nat)
    (isPinned : bool) (inp : list FuzzIoElement)
    (expected : option (list FuzzIoElement)) (r : FuzzTestResult)
    (e : JsError) :
  target (fnTimeout (options env)) (map value (map (copyIo host) inp))
  = Throws e ->
  runTest host env target testNo (newResult isPinned inp expected) = Ok r ->
  (isTimeoutError e = Ok true <->
   code e = Some "ERR_SCRIPT_EXECUTION_TIMEOUT")
  /\ output r = []
  /\ isTimeoutError e = Ok (timeout r)
  /\ exception r = negb (timeout r)
  /\ exceptionMessage r
     = if timeout r then None else Some (message e).
Proof.
  intros Hthrow Hrun. split.
  { unfold isTimeoutError, thrownError. destruct (code e) as [c|].
    - split.
      + intros H. injection H as H. apply String.eqb_eq in H. congruence.
      + intros H. injection H as ->. rewrite String.eqb_refl. reflexivity.
    - split; discriminate. }
  destruct (runTest_message host env testNo target _ r Hrun)
    as (called & Hcalled & Hmsg).
  apply runTest_call_recorded in Hrun. rewrite Hthrow in Hrun.
  destruct Hrun as (Hout & Hto & Hexc).
  split; [exact Hout|]. split; [exact Hto|]. split; [exact Hexc|].
  rewrite Hmsg.
  pose proof (callFunction_cases host env target
                (newResult isPinned inp expected)) as Hcall.
  cbv zeta in Hcall. cbn [input newResult] in Hcall.
  rewrite Hthrow in Hcall. unfold thrownError in Hcall, Hto.
  rewrite Hcalled in Hcall. injection Hcall as ->.
  cbn [isTimeoutError] in Hto. fold (hasTimeoutCode (code e)) in Hto.
  injection Hto as <-.
  destruct (hasTimeoutCode (code e)); reflexivity.
Qed.

Lemma thrown_error_is_filed_by_code_witness :
  let host := demoHost throwingExports noValidator alternatingBool in
  let env := envOf (demoOptions 5 3) [boolArg] [] in
  let target := fun (_ : Z) (_ : list JsValue) =>
                  @Throws JsValue forgedTimeout in
  let r := resultOr (newResult false [] None)
             (runTest host env target 0
                (newResult false (pt_input (pinnedOn (JsBool true))) None)) in
  timeout r = true /\ exception r = false /\ exceptionMessage r = None.
Proof.
  intros host env target r.
  assert (Hrun : runTest host env target 0
                   (newResult false (pt_input (pinnedOn (JsBool true)))
                      None) = Ok r)
    by (vm_compute; reflexivity).
  destruct (thrown_error_is_filed_by_code host env target 0%nat false _
              None r forgedTimeout eq_refl Hrun)
    as (_ & _ & Hto & Hexc & Hmsg).
  assert (Htimeout : timeout r = true) by (vm_compute; reflexivity).
  rewrite Htimeout in Hexc, Hmsg.
  exact (conj Htimeout (conj Hexc Hmsg)).
Defined.

(* ===================================================================== *)
(** * Setup, validator discovery and the callers' helpers *)
(* ===================================================================== *)

Lemma prefix_trans (a b c : string) :
  String.prefix a b = true -> String.prefix b c = true ->
  String.prefix a c = true.
Proof.
  revert b c. induction a as [|x a IH]; intros b c Hab Hbc;
    [destruct c; reflexivity|].
  destruct b as [|y b]; [discriminate|].
  destruct c as [|z c]; [discriminate|].
  cbn in *.
  destruct (ascii_dec x y) as [->|]; [|discriminate].
  destruct (ascii_dec y z) as [->|]; [|discriminate].
  eauto.
Qed.

(** X14.  [getValidators] returns references of exported validators
    whose name starts with the name of the function under test, and of
    nothing else.  The match is by prefix only, so the validators found
    for a function are also found for every function whose name is a
    prefix of its name. *)
Theorem validators_follow_the_name_prefix (program : ExportedFunctions)
    (f g : FunctionDef) :
  (forall ref,
      In ref (getValidators program f) <->
      exists fn,
        In fn (values program) /\ fn_isValidator fn = true
        /\ startsWith (getName (fn_def fn)) (getName f) = true
        /\ ref = fn_getRef fn)
  /\ (startsWith (getName g) (getName f) = true ->
      incl (getValidators program g) (getValidators program f)).
Proof.
  assert (Hiff : forall h ref,
    In ref (getValidators program h) <->
    exists fn,
      In fn (values program) /\ fn_isValidator fn = true
      /\ startsWith (getName (fn_def fn)) (getName h) = true
      /\ ref = fn_getRef fn).
  { intros h ref. unfold getValidators. rewrite in_map_iff. split.
    - intros (fn & <- & Hin). apply List.filter_In in Hin as [Hin Hok].
      apply andb_true_iff in Hok as [Hv Hp]. exists fn. auto.
    - intros (fn & Hin & Hv & Hp & ->). exists fn. split; [reflexivity|].
      apply List.filter_In. split; [exact Hin|]. rewrite Hv, Hp. reflexivity. }
  split; [apply Hiff|].
  intros Hpre ref Hin. apply Hiff in Hin as (fn & Hin & Hv & Hp & ->).
  apply Hiff. exists fn. repeat split; auto.
  unfold startsWith in *. eapply prefix_trans; eassumption.
Qed.

Lemma validators_follow_the_name_prefix_witness :
  let def (n : string) :=
    {| getName := n; getModule := "demo.ts"; getArgDefs := [];
       isVoid := false |} in
  incl (getValidators demoProgram (def "sortByName"))
    (getValidators demoProgram (def "sort")).
Proof.
  intros def.
  exact (proj2 (validators_follow_the_name_prefix demoProgram
                  (def "sort") (def "sortByName")) eq_refl).
Defined.

Lemma fuzz_succeeds (host : Host) (env : FuzzEnv)
    (call : nat -> Budgeted (list JsValue) JsValue)
    (pinned : list FuzzPinnedTest) :
  isOptionValid host (options env) = true ->
  mod_ host (getName (function env)) = Some (ExportFunction call) ->
  ThrowsObjects call -> ValidatorsRecovered host env ->
  exists fuel res, fuzz host fuel env pinned = Some (Ok res).
Proof.
  intros Hvalid Hmember Hobj Hval.
  exists (S (Z.to_nat (loopMeasure env (initialState host env pinned)))).
  pose proof (fuzzLoop_terminates host env call (getTime host 0)
                (S (Z.to_nat (loopMeasure env
                                (initialState host env pinned))))
                (initialState host env pinned)) as Hterm.
  unfold fuzz, fuzzRun. rewrite Hvalid, Hmember. cbn [negb].
  destruct (fuzzLoop _ _ _ _ _ _) as [[stop|e]|] eqn:Hloop.
  - eexists. reflexivity.
  - exfalso.
    exact (fuzzLoop_no_raise host env call _ _ _ e Hobj Hval Hloop).
  - exfalso. apply Hterm; [|reflexivity].
    pose proof (loopMeasure_nonneg host env (initialState host env pinned)).
    lia.
Qed.

(** X15.  [setup] checks the options before it looks for the function:
    invalid options raise whether or not the function exists.  When it
    returns an environment, the options in it are the valid ones given,
    the function is the exported one of that name, and the validators
    are those [getValidators] finds for it; [fuzz] on that environment
    then ends with results when the loaded module has the function, the
    function throws objects only, and no validator runs over its budget
    or throws [null] or [undefined]. *)
Theorem setup_gives_a_runnable_environment (host : Host)
    (program : ExportedFunctions) (opts : FuzzOptions) (fnName : string) :
  (isOptionValid host opts = false ->
   setup host program opts fnName
   = Raise (newError "Invalid options provided"))
  /\ (forall env,
        setup host program opts fnName = Ok env ->
        options env = opts
        /\ isOptionValid host (options env) = true
        /\ (exists fn,
               member fnName program = Some fn
               /\ function env = fn_def fn
               /\ validators env = getValidators program (fn_def fn))
        /\ (forall call pinned,
               mod_ host (getName (function env))
               = Some (ExportFunction call) ->
               ThrowsObjects call -> ValidatorsRecovered host env ->
               exists fuel res,
                 fuzz host fuel env pinned = Some (Ok res))).
Proof.
  split.
  - intros Hinv. unfold setup. rewrite Hinv. reflexivity.
  - intros env. unfold setup.
    destruct (isOptionValid host opts) eqn:Hvalid; [|discriminate].
    cbn [negb]. destruct (member fnName program) as [fn|] eqn:Hfn;
      [|discriminate].
    intros H. injection H as <-. cbn.
    split; [reflexivity|]. split; [exact Hvalid|].
    split; [exists fn; auto|].
    intros call pinned Hmember Hobj Hval.
    apply (fuzz_succeeds host _ call pinned); auto.
Qed.

Lemma setup_gives_a_runnable_environment_witness :
  let host := demoHost identityExports noValidator alternatingBool in
  exists env fuel res,
    setup host demoProgram (demoOptions 5 3) "f" = Ok env
    /\ fuzz host fuel env [] = Some (Ok res).
Proof.
  intros host.
  pose (env := {| options := demoOptions 5 3;
                  function := {| getName := "f"; getModule := "demo.ts";
                                 getArgDefs := []; isVoid := false |};
                  validators := [] |}).
  assert (Hsetup : setup host demoProgram (demoOptions 5 3) "f" = Ok env)
    by reflexivity.
  assert (Hobj : ThrowsObjects
                   (fun (_ : nat) (_ : Z) (args : list JsValue) =>
                      Returns (nth 0 args JsUndefined)))
    by (intros n budget args v; discriminate).
  assert (Hval : ValidatorsRecovered host env)
    by (intros valFn testNo vin []).
  destruct (proj2 (setup_gives_a_runnable_environment host demoProgram
                     (demoOptions 5 3) "f") env Hsetup)
    as (_ & _ & _ & Hruns).
  destruct (Hruns _ [] eq_refl Hobj Hval) as (fuel & res & Hrun).
  exists env, fuel, res. split; [exact Hsetup|exact Hrun].
Defined.

Lemma string_append_assoc (a b c : string) :
  (a +:+ b) +:+ c = a +:+ (b +:+ c).
Proof.
  induction a as [|x a IH]; [reflexivity|].
  change (String x ((a +:+ b) +:+ c) = String x (a +:+ (b +:+ c))).
  f_equal. exact IH.
Qed.

Lemma string_append_nil_r (a : string) : a +:+ "" = a.
Proof.
  induction a as [|x a IH]; [reflexivity|].
  change (String x (a +:+ "") = String x a). f_equal. exact IH.
Qed.

Lemma join_merge (sep a b : string) (rest : list string) :
  join sep ((a +:+ sep +:+ b) :: rest) = join sep (a :: b :: rest).
Proof.
  destruct rest as [|r0 rs]; cbn [join]; [reflexivity|].
  rewrite !string_append_assoc. reflexivity.
Qed.

Lemma reduceFrom_pretty (array mid : list string) (z acc : string)
    (i : nat) :
  (i + length mid)%nat = (length array - 1)%nat ->
  reduceFrom
    (fun a b i array =>
       a +:+ (if Nat.ltb i (length array - 1) then ", " else ", and ")
         +:+ b)
    array i (mid ++ [z]) acc
  = join ", " (acc :: mid) +:+ ", and " +:+ z.
Proof.
  revert acc i. induction mid as [|m rest IH]; intros acc i Hi.
  - cbn [app reduceFrom join]. cbn [length] in Hi.
    rewrite Nat.add_0_r in Hi. rewrite Hi, Nat.ltb_irrefl. reflexivity.
  - cbn [app reduceFrom]. cbn [length] in Hi.
    assert (Hlt : Nat.ltb i (length array - 1) = true)
      by (apply Nat.ltb_lt; lia).
    rewrite Hlt, IH by lia. rewrite join_merge. reflexivity.
Qed.

(** X16.  [toPrettyList] throws on the empty list, returns a single
    element as it is, joins two elements with " and ", and for three or
    more joins all but the last with ", " and appends ", and " and the
    last. *)
Theorem toPrettyList_shapes :
  toPrettyList []
  = Raise (newError "Reduce of empty array with no initial value")
  /\ (forall a, toPrettyList [a] = Ok a)
  /\ (forall a b, toPrettyList [a; b] = Ok (a +:+ " and " +:+ b))
  /\ (forall a mid z,
        mid <> [] ->
        toPrettyList (a :: mid ++ [z])
        = Ok (join ", " (a :: mid) +:+ ", and " +:+ z)).
Proof.
  split; [reflexivity|]. split; [reflexivity|]. split; [reflexivity|].
  intros a mid z Hmid. unfold toPrettyList.
  assert (Hlen : Nat.eqb (length (a :: mid ++ [z])) 2 = false).
  { apply Nat.eqb_neq. cbn [length]. rewrite length_app. cbn [length].
    destruct mid; [contradiction|]. cbn [length]. lia. }
  rewrite Hlen. cbn [reduce]. f_equal.
  apply reduceFrom_pretty. cbn [length]. rewrite length_app. cbn [length].
  lia.
Qed.

Lemma toPrettyList_shapes_witness :
  toPrettyList ["heuristic"; "human"; "custom function"]
  = Ok "heuristic, human, and custom function".
Proof.
  exact (proj2 (proj2 (proj2 toPrettyList_shapes))
           "heuristic" ["human"] "custom function"
           (fun H => eq_ind ["human"]
                       (fun l => match l with [] => False | _ => True end)
                       I [] H)).
Defined.

Lemma split_nonempty (sep : Ascii.ascii) (s : string) : split sep s <> [].
Proof.
  destruct s as [|c rest]; cbn; [discriminate|].
  destruct (Ascii.eqb c sep); [discriminate|].
  destruct (split sep rest); discriminate.
Qed.

(** Splitting at a separator splits both sides of it. *)
Lemma split_app (sep : Ascii.ascii) (a b : string) :
  split sep (a +:+ String sep b) = split sep a ++ split sep b.
Proof.
  induction a as [|c a IH].
  - change (split sep (String sep b) = "" :: split sep b).
    cbn [split]. rewrite Ascii.eqb_refl. reflexivity.
  - change (split sep (String c (a +:+ String sep b))
            = split sep (String c a) ++ split sep b).
    cbn [split]. destruct (Ascii.eqb c sep); rewrite IH; [reflexivity|].
    pose proof (split_nonempty sep a).
    destruct (split sep a); [contradiction|reflexivity].
Qed.

Lemma split_dotFree (s : string) :
  dotFree s = true -> split "."%char s = [s].
Proof.
  induction s as [|c rest IH]; cbn; [reflexivity|].
  intros H. apply andb_true_iff in H as [Hc Hrest].
  apply negb_true_iff in Hc. rewrite Hc, (IH Hrest). reflexivity.
Qed.

Lemma join_String (sep : string) (c : Ascii.ascii) (part : string)
    (parts : list string) :
  join sep (String c part :: parts) = String c (join sep (part :: parts)).
Proof. destruct parts; reflexivity. Qed.

Lemma join_cons (sep part : string) (parts : list string) :
  parts <> [] ->
  join sep (part :: parts) = part +:+ sep +:+ join sep parts.
Proof. destruct parts; [contradiction|reflexivity]. Qed.

(** Joining what was split gives the string back. *)
Lemma join_split (s : string) : join "." (split "."%char s) = s.
Proof.
  induction s as [|c rest IH]; [reflexivity|]. cbn [split].
  pose proof (split_nonempty "."%char rest) as Hne.
  destruct (Ascii.eqb_spec c "."%char) as [->|Hc].
  - rewrite (join_cons _ _ _ Hne), IH. reflexivity.
  - destruct (split "."%char rest) as [|p ps]; [contradiction|].
    rewrite join_String, IH. reflexivity.
Qed.

(** X17.  [getFilename] replaces what follows the last dot of the
    module name by ".nano.test.ts".  A name without a dot, or whose only
    dot is its first character, keeps all of it and gets the suffix
    appended. *)
Theorem getFilename_replaces_the_last_extension (base ext : string) :
  dotFree ext = true ->
  (base <> "" ->
   getFilename (base +:+ "." +:+ ext) = base +:+ ".nano.test.ts")
  /\ getFilename ("." +:+ ext) = "." +:+ ext +:+ ".nano.test.ts"
  /\ getFilename ext = ext +:+ ".nano.test.ts".
Proof.
  intros Hext.
  assert (Hstem : forall b,
    join "." (removelast (split "."%char (b +:+ "." +:+ ext))) = b).
  { intros b. change ("." +:+ ext) with (String "."%char ext).
    rewrite split_app, (split_dotFree ext Hext), removelast_last.
    apply join_split. }
  split; [|split].
  - intros Hbase. unfold getFilename. rewrite Hstem.
    destruct (String.eqb_spec base "") as [->|_]; [contradiction|].
    reflexivity.
  - unfold getFilename.
    replace (join "." (removelast (split "."%char ("." +:+ ext))))
      with "" by (symmetry; exact (Hstem "")).
    reflexivity.
  - unfold getFilename. rewrite (split_dotFree ext Hext). reflexivity.
Qed.

Lemma getFilename_replaces_the_last_extension_witness :
  getFilename "src/sort.test.ts" = "src/sort.test.nano.test.ts".
Proof.
  exact (proj1 (getFilename_replaces_the_last_extension
                  "src/sort.test" "ts" eq_refl)
           (fun H => eq_ind "src/sort.test"
                       (fun s => match s with
                                 | EmptyString => False
                                 | String _ _ => True
                                 end) I "" H)).
Defined.

(** The counter [x] of lines 79-86 does what [join] does. *)
Lemma inputStrOf_join (stringify : JsValue -> string)
    (input : list FuzzIoElement) :
  inputStrOf stringify input = join "," (map stringify (map value input)).
Proof.
  unfold inputStrOf. generalize (map value input) as vs. intros vs.
  assert (Hgen : forall l x acc,
    snd (fold_left
           (fun (st : nat * string) (e : JsValue) =>
              let '(x, inputStr) := st in
              (S x,
               (inputStr +:+ (match x with O => "" | S _ => "," end))
                 +:+ stringify e))
           l (S x, acc))
    = join "," (acc :: map stringify l)).
  { induction l as [|e l IH]; intros x acc; [reflexivity|].
    cbn [fold_left map]. rewrite IH, string_append_assoc, join_merge.
    reflexivity. }
  destruct vs as [|e l]; [reflexivity|].
  cbn [fold_left map]. rewrite Hgen. reflexivity.
Qed.

Lemma jestTest_skipped (stringify : JsValue -> string) (show : Z -> string)
    (fn : string) (timeout : Z) (i : nat) (test : FuzzPinnedTest) :
  exported test = false ->
  jestTest stringify show fn timeout i test = ([], i).
Proof.
  unfold exported, jestTest. destruct (pt_pinned test); [|reflexivity].
  cbn [negb andb].
  destruct (pt_expectedOutput test) as [[|e rest]|]; cbn; try discriminate.
  destruct (truthy (isTimeout e)); [reflexivity|discriminate].
Qed.

Lemma jestTest_exported (stringify : JsValue -> string) (show : Z -> string)
    (fn : string) (timeout : Z) (i : nat) (test : FuzzPinnedTest) :
  exported test = true ->
  exists comment rest,
    jestTest stringify show fn timeout i test
    = ([ comment;
         "test(" +:+ quote +:+ fn +:+ "." +:+ show (Z.of_nat i) +:+ quote
           +:+ rest;
         "" ], S i).
Proof.
  unfold exported, jestTest. destruct (pt_pinned test); [|discriminate].
  cbn [negb andb]. intros Hexp.
  destruct (pt_expectedOutput test) as [[|e rest]|].
  - eexists _, _. rewrite !string_append_assoc. reflexivity.
  - apply negb_true_iff in Hexp. rewrite Hexp.
    destruct (truthy (isException e)); eexists _, _;
      rewrite !string_append_assoc; reflexivity.
  - eexists _, _. rewrite !string_append_assoc. reflexivity.
Qed.

Lemma jestTests_numbering (stringify : JsValue -> string)
    (show : Z -> string) (fn : string) (timeout : Z)
    (tests : list (string * FuzzPinnedTest)) (i : nat) :
  jestTests stringify show fn timeout i tests
  = concat (imap (fun k test =>
                    fst (jestTest stringify show fn timeout (i + k) test))
              (exportedTests tests)).
Proof.
  revert i. induction tests as [|[id test] rest IH]; intros i;
    [reflexivity|].
  unfold exportedTests in *. cbn [jestTests map List.filter snd].
  destruct (exported test) eqn:Hexp.
  - destruct (jestTest_exported stringify show fn timeout i test Hexp)
      as (comment & tail & Hrun).
    rewrite Hrun, IH. cbn [imap concat]. rewrite Nat.add_0_r, Hrun.
    cbn [fst]. f_equal. f_equal. apply imap_ext. intros k t _. cbn.
    replace (i + S k)%nat with (S (i + k)) by lia. reflexivity.
  - rewrite (jestTest_skipped stringify show fn timeout i test Hexp).
    cbn [app]. apply IH.
Qed.

Lemma jestTests_length (stringify : JsValue -> string)
    (show : Z -> string) (fn : string) (timeout : Z)
    (tests : list (string * FuzzPinnedTest)) (i : nat) :
  length (jestTests stringify show fn timeout i tests)
  = (3 * length (exportedTests tests))%nat.
Proof.
  revert i. induction tests as [|[id test] rest IH]; intros i;
    [reflexivity|].
  unfold exportedTests in *. cbn [jestTests map List.filter snd].
  destruct (exported test) eqn:Hexp.
  - destruct (jestTest_exported stringify show fn timeout i test Hexp)
      as (comment & tail & Hrun).
    rewrite Hrun. cbn [app length]. rewrite IH. lia.
  - rewrite (jestTest_skipped stringify show fn timeout i test Hexp).
    cbn [app]. apply IH.
Qed.

(** X18.  The text [toString] returns is [jestData] joined by the line
    separator, and [jestData] holds twelve entries before the tests (the
    source text of the implicit oracle is one entry, whatever its
    length) and then three entries for each saved test that is pinned
    and does not expect a timeout: a comment, the test, an empty line.
    The tests of a function are numbered from 0 without gaps in the
    order of the saved tests; unpinned tests and tests that expect a
    timeout give no entry and use no number. *)
Theorem jest_suite_numbers_the_exported_tests
    (stringify : JsValue -> string) (basename : string -> string)
    (oracleSource EOL : string) (show : Z -> string)
    (pinnedTests : list (string * list (string * FuzzPinnedTest)))
    (module : string) (timeout : Z) :
  toString stringify basename oracleSource EOL show pinnedTests module
    timeout
  = join EOL
      (jestHeader basename oracleSource show module timeout
       ++ flat_map
            (fun fnTests =>
               concat (imap (fun k test =>
                               fst (jestTest stringify show (fst fnTests)
                                      timeout k test))
                         (exportedTests (snd fnTests))))
            pinnedTests)
  /\ length (jestData stringify basename oracleSource show pinnedTests module
               timeout)
     = (12 + 3 * length (flat_map (fun fnTests => exportedTests (snd fnTests))
                           pinnedTests))%nat
  /\ (forall fn tests k test,
        exportedTests tests !! k = Some test ->
        exists comment rest,
          fst (jestTest stringify show fn timeout k test)
          = [ comment;
              "test(" +:+ quote +:+ fn +:+ "." +:+ show (Z.of_nat k)
                +:+ quote +:+ rest;
              "" ]).
Proof.
  split.
  { unfold toString, jestData. f_equal. f_equal.
    apply flat_map_ext. intros [fn tests]. cbn [fst snd].
    apply (jestTests_numbering stringify show fn timeout tests 0). }
  split.
  - unfold jestData. rewrite length_app. cbn [jestHeader length].
    f_equal. induction pinnedTests as [|[fn tests] rest IH];
      [reflexivity|].
    cbn [flat_map fst snd]. rewrite !length_app, IH, jestTests_length. lia.
  - intros fn tests k test Hk.
    assert (Hexp : exported test = true).
    { apply list_elem_of_lookup_2, list_elem_of_In in Hk.
      unfold exportedTests in Hk. apply filter_In in Hk. apply Hk. }
    destruct (jestTest_exported stringify show fn timeout k test Hexp)
      as (comment & rest & Hrun).
    exists comment, rest. rewrite Hrun. reflexivity.
Qed.

Lemma jest_suite_numbers_the_exported_tests_witness :
  let tests := match savedTests with
               | (_, tests) :: _ => tests
               | [] => []
               end in
  exists test comment rest,
    exportedTests tests !! 1%nat = Some test
    /\ fst (jestTest showJs showZ "f" 100 1 test)
       = [ comment;
           "test(" +:+ quote +:+ "f" +:+ "." +:+ showZ 1 +:+ quote +:+ rest;
           "" ].
Proof.
  intros tests.
  pose (test := {| pt_input := []; pt_pinned := true;
                   pt_expectedOutput := None |}).
  assert (Hk : exportedTests tests !! 1%nat = Some test) by reflexivity.
  destruct (proj2 (proj2 (jest_suite_numbers_the_exported_tests
                            showJs (fun m => m) "oracle" "" showZ
                            savedTests "f.ts" 100))
              "f" tests 1%nat test Hk)
    as (comment & rest & Hrun).
  exists test, comment, rest. split; [exact Hk|exact Hrun].
Defined.
